(** * zerver/forms.py: form validation and account-lifecycle decisions

    A shallow embedding of the functions of [zerver/forms.py] that decide
    subdomain availability, the login outcome, the password-reset dispatch,
    the password-reset rate-limit key and the team-lookup input bound,
    followed by the properties proved about them.

    Python values are modelled as follows.
    - A [str] is the list of its Unicode code points ([pystr]); literals of
      the source are written [lit "..."].
    - A function that can raise returns a [result]; the exception is a
      constructor of [exn].
    - Logging, outgoing email and the rate-limiter store are explicit: a
      function returns the list of effects it performed, in order, and the
      store it leaves behind.
    - Functions imported from outside the file (the authentication backend,
      the realm and user tables, the settings) are Section variables. *)

From Stdlib Require Import ZArith NArith Lia Bool List Ascii String.
From Stdlib Require Import DecimalString SpecFloat.
From Stdlib Require DecimalPos.
From stdpp Require Import base option list gmap.

Set Default Proof Using "Type".
Local Open Scope N_scope.

(** ** Python primitives used by the file *)
Module Py.

(** A Python [str]: its code points. *)
Definition char := N.
Definition pystr := list N.

(** A literal of the source (all literals of the file are ASCII). *)
Definition lit (s : string) : pystr :=
  List.map N_of_ascii (list_ascii_of_string s).

Definition str_eqb (a b : pystr) : bool := bool_decide (a = b).

(** Exceptions that the modelled code raises or lets through. *)
Inductive exn :=
| ValidationError (message : pystr) (code : option pystr)
                  (params : list (pystr * pystr))
| AssertionError (message : pystr)
| IndexError
| ValueError
| OverflowError
| RateLimited (secs_to_freedom : option spec_float)
| DoesNotExist (model : pystr)
| OtherError (name : pystr).

Inductive result (A : Type) :=
| Ok (a : A)
| Raise (e : exn).
Arguments Ok {A} a.
Arguments Raise {A} e.

Definition bind {A B} (r : result A) (k : A -> result B) : result B :=
  match r with
  | Ok a => k a
  | Raise e => Raise e
  end.

(** [s[0]] and [s[-1]]: [IndexError] on the empty string. *)
Definition index_first (s : pystr) : result char :=
  match s with
  | [] => Raise IndexError
  | c :: _ => Ok c
  end.

Definition index_last (s : pystr) : result char :=
  match List.rev s with
  | [] => Raise IndexError
  | c :: _ => Ok c
  end.

(** [len(s)]. *)
Definition len {A} (l : list A) : Z := Z.of_nat (List.length l).

(** [str.isspace] for one code point (CPython's [_PyUnicode_IsWhitespace]). *)
Definition isspace (c : char) : bool :=
  ((0x9 <=? c) && (c <=? 0xD))
  || ((0x1C <=? c) && (c <=? 0x20))
  || (c =? 0x85) || (c =? 0xA0) || (c =? 0x1680)
  || ((0x2000 <=? c) && (c <=? 0x200A))
  || (c =? 0x2028) || (c =? 0x2029) || (c =? 0x202F)
  || (c =? 0x205F) || (c =? 0x3000).

Fixpoint lstrip (s : pystr) : pystr :=
  match s with
  | [] => []
  | c :: s' => if isspace c then lstrip s' else s
  end.

Definition rstrip (s : pystr) : pystr := List.rev (lstrip (List.rev s)).

(** [s.strip()] *)
Definition strip (s : pystr) : pystr := lstrip (rstrip s).

(** [s.split(sep)] for a one-character separator: the pieces between
    the separators, empty pieces kept. *)
Fixpoint split (sep : char) (s : pystr) : list pystr :=
  match s with
  | [] => [[]]
  | c :: s' =>
      if c =? sep then [] :: split sep s'
      else match split sep s' with
           | [] => [[c]]
           | p :: ps => (c :: p) :: ps
           end
  end.

(** [sep.join(pieces)] *)
Fixpoint join (sep : char) (pieces : list pystr) : pystr :=
  match pieces with
  | [] => []
  | [p] => p
  | p :: ps => p ++ sep :: join sep ps
  end.

Fixpoint startswith (p s : pystr) : bool :=
  match p, s with
  | [], _ => true
  | _ :: _, [] => false
  | a :: p', b :: s' => (a =? b) && startswith p' s'
  end.

(** [needle in hay] *)
Fixpoint contains (needle hay : pystr) : bool :=
  startswith needle hay
  || match hay with
     | [] => false
     | _ :: hay' => contains needle hay'
     end.

(** [str(n)] for an [int]. *)
Definition str_of_int (n : Z) : pystr :=
  lit (NilZero.string_of_int (Z.to_int n)).

(** [int(x)] for a [float]: truncation toward zero; [OverflowError] on an
    infinity and [ValueError] on a NaN. *)
Definition int_of_float (x : spec_float) : result Z :=
  match x with
  | S754_zero _ => Ok 0%Z
  | S754_infinity _ => Raise OverflowError
  | S754_nan => Raise ValueError
  | S754_finite sign m e =>
      let mag := match e with
                 | Z0 => Zpos m
                 | Zpos k => Z.shiftl (Zpos m) (Zpos k)
                 | Zneg k => Z.shiftr (Zpos m) (Zpos k)
                 end in
      Ok (if sign then (- mag)%Z else mag)
  end.

(** [fmt.format(arg)] for a template whose fields are all [{}] (the one
    template of the file has a single field). *)
Fixpoint format1 (fmt arg : pystr) : pystr :=
  match fmt with
  | 123 :: 125 :: fmt' => arg ++ format1 fmt' arg
  | c :: fmt' => c :: format1 fmt' arg
  | [] => []
  end.

(** [fmt % args] for a format whose only conversions are [%s]; [None]
    when the arguments do not match the conversions. *)
Fixpoint percent_format (fmt : pystr) (args : list pystr) : option pystr :=
  match fmt with
  | 37 :: 115 :: fmt' =>
      match args with
      | a :: args' => (a ++.) <$> percent_format fmt' args'
      | [] => None
      end
  | c :: fmt' => (c ::.) <$> percent_format fmt' args
  | [] => match args with [] => Some [] | _ => None end
  end.

(** Truthiness of the values stored in a [Dict[str, Any]]. *)
Inductive pyval :=
| PyNone
| PyBool (b : bool)
| PyInt (n : Z)
| PyStr (s : pystr).

Definition truthy (v : pyval) : bool :=
  match v with
  | PyNone => false
  | PyBool b => b
  | PyInt n => negb (n =? 0)%Z
  | PyStr s => negb (str_eqb s [])
  end.

(** [d.get(k)]: [None] for an absent key. *)
Definition dict_get {V} (d : gmap pystr V) (k : pystr) : option V := d !! k.

(** [d.get(k)] followed by a truth test: absent keys give [None]. *)
Definition get_truthy (d : gmap pystr pyval) (k : pystr) : bool :=
  match dict_get d k with
  | Some v => truthy v
  | None => false
  end.

End Py.

Import Py.

#[global] Instance result_ret : MRet result := @Ok.
#[global] Instance result_bind : MBind result := fun A B k r => bind r k.

(** ** Records of [zerver.models] that the file reads *)

Record Realm := {
  string_id : pystr;
  realm_name : pystr;
  realm_uri : pystr;
  realm_deactivated : bool;
}.

Record UserProfile := {
  user_id : Z;
  delivery_email : pystr;
  is_active : bool;
  is_mirror_dummy : bool;
  user_realm : Realm;
}.

(** ** Message constants of the file *)

Definition WRONG_SUBDOMAIN_ERROR : pystr :=
  lit "Your Zulip account is not a member of the "
  ++ lit "organization associated with this subdomain.  "
  ++ lit "Please contact your organization administrator with any questions.".

Definition DEACTIVATED_ACCOUNT_ERROR : pystr :=
  lit "Your account is no longer active. "
  ++ lit "Please contact your organization administrator to reactivate it.".

Definition PASSWORD_RESET_NEEDED_ERROR : pystr :=
  lit "Your password has been disabled because it is too weak. "
  ++ lit "Reset your password to create a new one.".

Definition AUTHENTICATION_RATE_LIMITED_ERROR : pystr :=
  lit "You're making too many attempts to sign in. "
  ++ lit "Try again in {} seconds or contact your organization administrator "
  ++ lit "for help.".

(** [mark_safe] wraps a string as [Markup], a [str] subclass with the same
    characters. *)
Definition mark_safe (s : pystr) : pystr := s.

(** [raise ValidationError(message)] with no code and no parameters. *)
Definition validation_error {A} (message : pystr) : result A :=
  Raise (ValidationError message None []).

(** ** [check_subdomain_available] *)
Module Subdomain.

(** The keys of the [error_strings] dictionary. *)
Inductive error_key := too_short | extremal_dash | bad_character | unavailable.

(** The source texts of the four messages, before translation. *)
Definition error_text (k : error_key) : pystr :=
  match k with
  | too_short => lit "Subdomain needs to have length 3 or greater."
  | extremal_dash => lit "Subdomain cannot start or end with a '-'."
  | bad_character =>
      lit "Subdomain can only have lowercase letters, numbers, and '-'s."
  | unavailable => lit "Subdomain unavailable. Please choose a different one."
  end.

(** One character of the class [[a-z0-9-]]. *)
Definition in_class (c : char) : bool :=
  ((97 <=? c) && (c <=? 122)) || ((48 <=? c) && (c <=? 57)) || (c =? 45).

(** [$] without [re.MULTILINE]: at the end of the string, or just before
    a newline that ends the string. *)
Definition at_dollar (rest : pystr) : bool :=
  match rest with
  | [] => true
  | [10] => true
  | _ => false
  end.

(** [re.match("^[a-z0-9-]*$", s)]: from the start of [s], class characters
    and then [$]. *)
Fixpoint re_match (s : pystr) : bool :=
  at_dollar s
  || match s with
     | c :: s' => in_class c && re_match s'
     | [] => false
     end.

Section Validator.
(** [gettext], [Realm.SUBDOMAIN_FOR_ROOT_DOMAIN], the result of
    [is_root_domain_available()], the realm table behind
    [Realm.objects] and [is_reserved_subdomain]. *)
Variable gettext : pystr -> pystr.
Variable SUBDOMAIN_FOR_ROOT_DOMAIN : pystr.
Variable is_root_domain_available : bool.
Variable realms : list Realm.
Variable is_reserved_subdomain : pystr -> bool.

Definition error_strings (k : error_key) : pystr := gettext (error_text k).

(** [Realm.objects.filter(string_id=subdomain).exists()] *)
Definition realm_exists (subdomain : pystr) : bool :=
  existsb (fun r => str_eqb (string_id r) subdomain) realms.

Definition check_subdomain_available
    (subdomain : pystr) (allow_reserved_subdomain : bool) : result unit :=
  if str_eqb subdomain SUBDOMAIN_FOR_ROOT_DOMAIN then
    if is_root_domain_available then Ok tt
    else validation_error (error_strings unavailable)
  else
    first ← index_first subdomain;
    dash ← (if first =? 45 then Ok true
            else last ← index_last subdomain; Ok (last =? 45));
    if dash : bool then validation_error (error_strings extremal_dash)
    else if negb (re_match subdomain) then
      validation_error (error_strings bad_character)
    else if (len subdomain <? 3)%Z then
      validation_error (error_strings too_short)
    else if realm_exists subdomain then
      validation_error (error_strings unavailable)
    else if is_reserved_subdomain subdomain && negb allow_reserved_subdomain then
      validation_error (error_strings unavailable)
    else Ok tt.

End Validator.

End Subdomain.

(** ** Effects: log records and outgoing email *)

Inductive level := INFO | WARNING.

(** A [logging] call keeps the format and its arguments apart; the text of
    the entry is [msg % args] ([getMessage]). *)
Record LogRecord := {
  levelname : level;
  log_msg : pystr;
  log_args : list pystr;
}.

Definition getMessage (r : LogRecord) : option pystr :=
  percent_format (log_msg r) (log_args r).

(** Values stored in the template context of an email. *)
Inductive ctxval :=
| CStr (s : pystr)
| CBool (b : bool)
| CUsers (accounts : list UserProfile).

(** One call of [send_email], with the keyword arguments the file passes. *)
Record Email := {
  template_prefix : pystr;
  to_user_ids : option (list Z);
  to_emails : option (list pystr);
  from_name : pystr;
  from_address : pystr;
  language : option pystr;
  context : gmap pystr ctxval;
  email_realm : option Realm;
}.

Inductive effect :=
| Log (r : LogRecord)
| SendEmail (e : Email).

(** ** [OurAuthenticationForm.clean] *)
Module Auth.

(** What [authenticate(..., return_data=return_data)] did: it returned a
    user or [None], or raised; and the flags it left in [return_data]. *)
Record auth_result := {
  auth_outcome : result (option UserProfile);
  auth_return_data : gmap pystr pyval;
}.

(** What one run of [clean] did: its return value or exception, the value
    of [self.user_cache] afterwards and the effects, in order. *)
Record clean_run := {
  returned : result (gmap pystr pystr);
  user_cache : option UserProfile;
  effects : list effect;
}.

(** Vocabulary of the statements: the text of the rate-limit message for
    [n] seconds. *)
Definition rate_limited_message (n : Z) : pystr :=
  lit "You're making too many attempts to sign in. Try again in "
  ++ str_of_int n
  ++ lit " seconds or contact your organization administrator for help.".

Section Form.
(** The request type with [get_subdomain], [get_realm] (which raises
    [Realm.DoesNotExist]), the backend behind [authenticate], and the
    members of Django's [AuthenticationForm] that [clean] uses. *)
Variable HttpRequest : Type.
Variable get_subdomain : HttpRequest -> pystr.
Variable get_realm : pystr -> result Realm.
Variable authenticate : HttpRequest -> pystr -> pystr -> Realm -> auth_result.
Variable invalid_login_message : pystr.
Variable username_verbose_name : pystr.
Variable confirm_login_allowed : UserProfile -> result unit.

Definition run (r : result (gmap pystr pystr)) (u : option UserProfile)
    (l : list effect) : clean_run :=
  {| returned := r; user_cache := u; effects := l |}.

(** The handler of [except RateLimited as e]. *)
Definition rate_limited_error (secs_to_freedom : option spec_float)
    : result (gmap pystr pystr) :=
  match secs_to_freedom with
  | None => Raise (AssertionError [])
  | Some secs =>
      secs_to_freedom ← int_of_float secs;
      validation_error
        (format1 AUTHENTICATION_RATE_LIMITED_ERROR (str_of_int secs_to_freedom))
  end.

(** The checks on [return_data] and [self.user_cache] that follow a
    call of [authenticate] that returned. *)
Definition after_authenticate (cleaned_data : gmap pystr pystr)
    (username subdomain : pystr) (return_data : gmap pystr pyval)
    (user : option UserProfile) : clean_run :=
  if get_truthy return_data (lit "inactive_realm") then
    run (Raise (AssertionError
                  (lit "Programming error: inactive realm in authentication form")))
        user []
  else if get_truthy return_data (lit "password_reset_needed") then
    run (validation_error (mark_safe PASSWORD_RESET_NEEDED_ERROR)) user []
  else if get_truthy return_data (lit "inactive_user")
          && negb (get_truthy return_data (lit "is_mirror_dummy")) then
    run (validation_error (mark_safe DEACTIVATED_ACCOUNT_ERROR)) user []
  else if get_truthy return_data (lit "invalid_subdomain") then
    run (validation_error (mark_safe WRONG_SUBDOMAIN_ERROR)) user
        [Log {| levelname := WARNING;
                log_msg := lit "User %s attempted password login to wrong subdomain %s";
                log_args := [username; subdomain] |}]
  else
    match user with
    | None =>
        run (Raise (ValidationError invalid_login_message
                      (Some (lit "invalid_login"))
                      [(lit "username", username_verbose_name)]))
            None []
    | Some u =>
        run (_ ← confirm_login_allowed u; Ok cleaned_data) user []
    end.

Definition clean (request : HttpRequest) (cleaned_data : gmap pystr pystr)
    : clean_run :=
  match dict_get cleaned_data (lit "username"),
        dict_get cleaned_data (lit "password") with
  | Some username, Some ((_ :: _) as password) =>
      let subdomain := get_subdomain request in
      match get_realm subdomain with
      | Raise e => run (Raise e) None []
      | Ok realm =>
          let a := authenticate request username password realm in
          match auth_outcome a with
          | Raise (RateLimited secs_to_freedom) =>
              run (rate_limited_error secs_to_freedom) None []
          | Raise e => run (Raise e) None []
          | Ok user =>
              after_authenticate cleaned_data username subdomain
                (auth_return_data a) user
          end
      end
  | _, _ => run (Ok cleaned_data) None []
  end.

(** Vocabulary of the statements: a login attempt is a run of [clean] in
    which both fields are present, the password is not empty and the
    subdomain of the request names a realm. *)
Definition attempt (request : HttpRequest) (cleaned_data : gmap pystr pystr)
(username password : pystr) (realm : Realm) : Prop :=
  dict_get cleaned_data (lit "username") = Some username
  /\ dict_get cleaned_data (lit "password") = Some password
  /\ password <> []
  /\ get_realm (get_subdomain request) = Ok realm.

End Form.

End Auth.

(** ** [RateLimitedPasswordResetByEmail] *)
Module RateLimitedPasswordResetByEmail.

Record t := { email : pystr }.

(** [type(self).__name__] *)
Definition __name__ : pystr := lit "RateLimitedPasswordResetByEmail".

(** [f"{type(self).__name__}:{self.email}"] *)
Definition key (self : t) : pystr := __name__ ++ lit ":" ++ email self.

(** [settings.RATE_LIMITING_RULES["password_reset_form_by_email"]], the
    entry of the settings table being given. *)
Definition rules (password_reset_form_by_email : list (Z * Z)) (self : t)
    : list (Z * Z) :=
  password_reset_form_by_email.

End RateLimitedPasswordResetByEmail.

(** ** [ZulipPasswordResetForm.save] and its rate limit *)
Module PasswordReset.

(** Vocabulary of the statements: the two emails that [save] can send. *)

(** The "account not found" email: addressed to the submitted address, in
    the language of the request, with no reset link in its context. *)
Record account_not_found_email {HttpRequest : Type}
    (LANGUAGE_CODE : HttpRequest -> pystr)
    (security_email_from_name_language : pystr -> pystr)
    (tokenized_no_reply_address : pystr)
    (email : pystr) (request : HttpRequest) (realm : Realm)
    (e : Email) : Prop := {
  not_found_template : template_prefix e = lit "zerver/emails/password_reset";
  not_found_to_emails : to_emails e = Some [email];
  not_found_to_user_ids : to_user_ids e = None;
  not_found_language : language e = Some (LANGUAGE_CODE request);
  not_found_from_name :
    from_name e = security_email_from_name_language (LANGUAGE_CODE request);
  not_found_from_address : from_address e = tokenized_no_reply_address;
  not_found_realm : email_realm e = Some realm;
  not_found_email_key : dict_get (context e) (lit "email") = Some (CStr email);
  not_found_flag :
    dict_get (context e) (lit "active_account_in_realm") = Some (CBool false);
  not_found_no_link : dict_get (context e) (lit "reset_url") = None;
}.

(** The "reset link" email: addressed by user id, with the link. *)
Record reset_link_email (user : UserProfile) (reset_url : pystr)
    (e : Email) : Prop := {
  reset_template : template_prefix e = lit "zerver/emails/password_reset";
  reset_to_user_ids : to_user_ids e = Some [user_id user];
  reset_to_emails : to_emails e = None;
  reset_language : language e = None;
  reset_flag :
    dict_get (context e) (lit "active_account_in_realm") = Some (CBool true);
  reset_link : dict_get (context e) (lit "reset_url") = Some (CStr reset_url);
}.

Section Dispatcher.
(** The request with [get_subdomain] and [request.LANGUAGE_CODE];
    [get_realm]; the two gates of [zproject.backends]; the settings
    [RATE_LIMITING] and [RATE_LIMITING_RULES[...]]; the limiter's store
    with [RateLimitedObject.rate_limit], which reads the object's key
    and rules and answers [(ratelimited, secs)]; the user table; the
    token and URL helpers; the sender helpers of [FromAddress]. *)
Variable HttpRequest : Type.
Variable get_subdomain : HttpRequest -> pystr.
Variable LANGUAGE_CODE : HttpRequest -> pystr.
Variable get_realm : pystr -> result Realm.
Variable email_auth_enabled : Realm -> bool.
Variable email_belongs_to_ldap : Realm -> pystr -> bool.
Variable RATE_LIMITING : bool.
Variable password_reset_form_by_email : list (Z * Z).
Variable Store : Type.
Variable rate_limit :
  pystr -> list (Z * Z) -> Store -> (bool * spec_float) * Store.
Variable get_user_by_delivery_email : pystr -> Realm -> option UserProfile.
Variable active_accounts_iexact : pystr -> list UserProfile.
Variable make_token : UserProfile -> pystr.
Variable urlsafe_base64_encode : pystr -> pystr.
Variable reverse : pystr -> pystr -> pystr -> pystr.
Variable security_email_from_name_user : UserProfile -> pystr.
Variable security_email_from_name_language : pystr -> pystr.
Variable tokenized_no_reply_address : pystr.

(** What one run did: return value or exception, effects in order, and
    the limiter's store afterwards. *)
Record save_run := {
  returned : result unit;
  effects : list effect;
  store : Store;
}.

Definition rate_limit_password_reset_form_by_email
    (email : pystr) (st : Store) : result unit * Store :=
  let self := {| RateLimitedPasswordResetByEmail.email := email |} in
  let '((ratelimited, _), st') :=
    rate_limit (RateLimitedPasswordResetByEmail.key self)
      (RateLimitedPasswordResetByEmail.rules password_reset_form_by_email self)
      st in
  (if ratelimited then Raise (RateLimited None) else Ok tt, st').

Definition generate_password_reset_url (user_profile : UserProfile) : pystr :=
  let token := make_token user_profile in
  let uid := urlsafe_base64_encode (str_of_int (user_id user_profile)) in
  let endpoint := reverse (lit "password_reset_confirm") uid token in
  realm_uri (user_realm user_profile) ++ endpoint.

Definition info (msg : pystr) (args : list pystr) : effect :=
  Log {| levelname := INFO; log_msg := msg; log_args := args |}.

(** The part of [save] after the early exits: lookup and one email. *)
Definition dispatch (email : pystr) (request : HttpRequest) (realm : Realm)
    : list effect :=
  let user := get_user_by_delivery_email email realm in
  let context : gmap pystr ctxval :=
    <[lit "realm_name" := CStr (realm_name realm)]>
      (<[lit "realm_uri" := CStr (realm_uri realm)]>
         (<[lit "email" := CStr email]> ∅)) in
  let '(context, user) :=
    match user with
    | Some u =>
        if negb (is_active u)
        then (<[lit "user_deactivated" := CBool true]> context, None)
        else (context, Some u)
    | None => (context, None)
    end in
  match user with
  | Some user =>
      let context := <[lit "active_account_in_realm" := CBool true]> context in
      let context :=
        <[lit "reset_url" := CStr (generate_password_reset_url user)]> context in
      [SendEmail {| template_prefix := lit "zerver/emails/password_reset";
                    to_user_ids := Some [user_id user];
                    to_emails := None;
                    from_name := security_email_from_name_user user;
                    from_address := tokenized_no_reply_address;
                    language := None;
                    context := context;
                    email_realm := None |}]
  | None =>
      let context := <[lit "active_account_in_realm" := CBool false]> context in
      let active_accounts_in_other_realms := active_accounts_iexact email in
      let context :=
        match active_accounts_in_other_realms with
        | [] => context
        | _ :: _ =>
            <[lit "active_accounts_in_other_realms" :=
                CUsers active_accounts_in_other_realms]> context
        end in
      let language := LANGUAGE_CODE request in
      [SendEmail {| template_prefix := lit "zerver/emails/password_reset";
                    to_user_ids := None;
                    to_emails := Some [email];
                    from_name := security_email_from_name_language language;
                    from_address := tokenized_no_reply_address;
                    language := Some language;
                    context := context;
                    email_realm := Some realm |}]
  end.

(** [save], for the submitted [email] ([self.cleaned_data["email"]]). *)
Definition save (email : pystr) (request : HttpRequest) (st : Store)
    : save_run :=
  match get_realm (get_subdomain request) with
  | Raise e => {| returned := Raise e; effects := []; store := st |}
  | Ok realm =>
      if negb (email_auth_enabled realm) then
        {| returned := Ok tt;
           effects :=
             [info (lit "Password reset attempted for %s even though password auth is disabled.")
                   [email]];
           store := st |}
      else if email_belongs_to_ldap realm email then
        {| returned := Ok tt;
           effects := [info (lit "Password reset not allowed for user in LDAP domain") []];
           store := st |}
      else if realm_deactivated realm then
        {| returned := Ok tt;
           effects := [info (lit "Realm is deactivated") []];
           store := st |}
      else
        let '(limit, st') :=
          if RATE_LIMITING
          then rate_limit_password_reset_form_by_email email st
          else (Ok tt, st) in
        match limit with
        | Raise (RateLimited _) =>
            {| returned := Ok tt;
               effects :=
                 [info (lit "Too many password reset attempts for email %s") [email]];
               store := st' |}
        | Raise e => {| returned := Raise e; effects := []; store := st' |}
        | Ok _ =>
            {| returned := Ok tt;
               effects := dispatch email request realm;
               store := st' |}
        end
  end.

(** Vocabulary of the statements. *)

(** What the limiter's backend answers for the key of [email]. *)
Definition limited (email : pystr) (st : Store) : bool :=
  fst (fst (rate_limit
              (RateLimitedPasswordResetByEmail.key
                 {| RateLimitedPasswordResetByEmail.email := email |})
              password_reset_form_by_email st)).

Definition store_after (email : pystr) (st : Store) : Store :=
  snd (rate_limit
         (RateLimitedPasswordResetByEmail.key
            {| RateLimitedPasswordResetByEmail.email := email |})
         password_reset_form_by_email st).

(** The dispatch passes the four gates. *)
Definition passes_gates (email : pystr) (request : HttpRequest)
    (realm : Realm) (st : Store) : Prop :=
  get_realm (get_subdomain request) = Ok realm
  /\ email_auth_enabled realm = true
  /\ email_belongs_to_ldap realm email = false
  /\ realm_deactivated realm = false
  /\ (RATE_LIMITING = false \/ limited email st = false).

End Dispatcher.

End PasswordReset.

(** ** [MultiEmailField.to_python] and [FindMyTeamForm.clean_emails] *)
Module FindMyTeam.

Definition comma : char := 44.

Definition to_python (emails : pystr) : list pystr :=
  match emails with
  | [] => []
  | _ :: _ => List.map strip (split comma emails)
  end.

Section Form.
Variable gettext : pystr -> pystr.

Definition clean_emails (emails : list pystr) : result (list pystr) :=
  if (len emails >? 10)%Z
  then Raise (ValidationError (gettext (lit "Please enter at most 10 emails."))
                None [])
  else Ok emails.
End Form.

End FindMyTeam.

(** ** Further Python primitives *)
Module PyMore.

(** [s.rsplit(sep, 1)] for a one-character separator: the string cut at
    its last separator, or the string alone when it has none. *)
Fixpoint rsplit1 (sep : char) (s : pystr) : list pystr :=
  match s with
  | [] => [[]]
  | c :: s' =>
      match rsplit1 sep s' with
      | [a; b] => [c :: a; b]
      | _ => if c =? sep then [[]; s'] else [c :: s']
      end
  end.

(** [xs[0]] *)
Definition index0 {A} (xs : list A) : result A :=
  match xs with
  | [] => Raise IndexError
  | x :: _ => Ok x
  end.

(** [s * n]: [n] copies of [s], none when [n] is not positive. *)
Definition str_mul (s : pystr) (n : Z) : pystr :=
  List.concat (List.repeat s (Z.to_nat n)).

Definition digit_value (c : char) : option Z :=
  if (48 <=? c) && (c <=? 57) then Some (Z.of_N (c - 48)) else None.

Fixpoint int_of_digits (acc : Z) (s : pystr) : option Z :=
  match s with
  | [] => Some acc
  | c :: s' =>
      match digit_value c with
      | Some d => int_of_digits (10 * acc + d) s'
      | None => None
      end
  end.

(** [int(s)] on the strings this model covers: the empty string is a
    [ValueError] and a string of ASCII digits is its decimal value, unless
    it is longer than the interpreter allows.  [int_max_str_digits] is
    [sys.get_int_max_str_digits()]: 4300 by default since Python 3.11, and
    0 where there is no limit (as in the older interpreters); a string of
    more than 640 digits that exceeds a positive limit is a [ValueError].
    Other strings (signs, blanks, underscores, other digits) are not
    covered: [None]. *)
Definition int_of_str (int_max_str_digits : Z) (s : pystr) : option (result Z) :=
  match s with
  | [] => Some (Raise ValueError)
  | _ :: _ =>
      match int_of_digits 0 s with
      | Some n =>
          if (640 <? len s)%Z && (0 <? int_max_str_digits)%Z
             && (int_max_str_digits <? len s)%Z
          then Some (Raise ValueError)
          else Some (Ok n)
      | None => None
      end
  end.

(** [k in d] for a dictionary. *)
Definition dict_contains {V} (d : gmap pystr V) (k : pystr) : bool :=
  match dict_get d k with
  | Some _ => true
  | None => false
  end.

(** [d[k]]: [KeyError] for an absent key. *)
Definition dict_index {V} (d : gmap pystr V) (k : pystr) : result V :=
  match dict_get d k with
  | Some v => Ok v
  | None => Raise (OtherError (lit "KeyError"))
  end.

End PyMore.

Import PyMore.

(** ** [email_is_not_mit_mailing_list] *)
Module Mit.

Definition MIT_VALIDATION_ERROR : pystr :=
  lit "That user does not exist at MIT or is a "
  ++ (lit "<a href=" ++ [34] ++ lit "https://ist.mit.edu/email-lists" ++ [34]
      ++ lit ">mailing list</a>. ")
  ++ lit "If you want to sign up an alias for Zulip, "
  ++ (lit "<a href=" ++ [34] ++ lit "mailto:support@zulip.com" ++ [34]
      ++ lit ">contact us</a>.").

(** What [DNS.dnslookup(name, DNS.Type.TXT)] did: it answered, raised
    [DNS.Base.ServerError] with a response code, or raised something else. *)
Inductive dns_answer :=
| Answered
| ServerError (rcode : Z)
| LookupRaised (e : exn).

Section Lookup.
(** The resolver and the constant [DNS.Status.NXDOMAIN]. *)
Variable dnslookup : pystr -> dns_answer.
Variable NXDOMAIN : Z.

(** The result, and the names that were looked up, in order. *)
Definition email_is_not_mit_mailing_list (email : pystr)
    : result unit * list pystr :=
  if contains (lit "@mit.edu") email then
    match index0 (rsplit1 64 email) with
    | Raise e => (Raise e, [])
    | Ok username =>
        let name := username ++ lit ".pobox.ns.athena.mit.edu" in
        match dnslookup name with
        | Answered => (Ok tt, [name])
        | ServerError rcode =>
            if (rcode =? NXDOMAIN)%Z
            then (validation_error (mark_safe MIT_VALIDATION_ERROR), [name])
            else (Raise (AssertionError (lit "Unexpected DNS error")), [name])
        | LookupRaised e => (Raise e, [name])
        end
    end
  else (Ok tt, []).

End Lookup.

End Mit.

(** ** [RegistrationForm.clean_realm_subdomain] *)
Module Registration.

Section Form.
(** The parameters of [check_subdomain_available], and the form's
    [realm_creation]. *)
Variable gettext : pystr -> pystr.
Variable SUBDOMAIN_FOR_ROOT_DOMAIN : pystr.
Variable is_root_domain_available : bool.
Variable realms : list Realm.
Variable is_reserved_subdomain : pystr -> bool.
Variable realm_creation : bool.

(** [cleaned_data] holds the cleaned fields and [data] the raw submission. *)
Definition clean_realm_subdomain (cleaned_data data : gmap pystr pystr)
    : result pystr :=
  if negb realm_creation then Ok []
  else
    subdomain ← dict_index cleaned_data (lit "realm_subdomain");
    let subdomain :=
      if dict_contains data (lit "realm_in_root_domain")
      then SUBDOMAIN_FOR_ROOT_DOMAIN
      else subdomain in
    _ ← Subdomain.check_subdomain_available gettext SUBDOMAIN_FOR_ROOT_DOMAIN
          is_root_domain_available realms is_reserved_subdomain subdomain false;
    Ok subdomain.

End Form.

End Registration.

(** ** [HomepageForm.clean_email] *)
Module Homepage.

(** What [email_allowed_for_realm(email, realm)] did: it returned, or raised
    one of the three exceptions that [clean_email] handles. *)
Inductive allowed :=
| Allowed
| DomainNotAllowedForRealmError
| DisposableEmailError
| EmailContainsPlusError.

Section Form.
(** [gettext] and [str.format] with keyword arguments (which can raise on
    a translated template); the attributes [invite_required] and
    [is_zephyr_mirror_realm] of a realm; [email_allowed_for_realm]; the
    resolver of the MIT check; [settings.BILLING_ENABLED] and
    [check_spare_licenses_available_for_registering_new_user], [false]
    standing for [LicenseLimitError]. *)
Variable gettext : pystr -> pystr.
Variable str_format : pystr -> list (pystr * pystr) -> result pystr.
Variable invite_required : Realm -> bool.
Variable is_zephyr_mirror_realm : Realm -> bool.
Variable email_allowed_for_realm : pystr -> Realm -> allowed.
Variable dnslookup : pystr -> Mit.dns_answer.
Variable NXDOMAIN : Z.
Variable BILLING_ENABLED : bool.
Variable spare_licenses_available : Realm -> pystr -> bool.

(** [raise ValidationError(_(template).format(...))] with the keyword
    arguments [kwargs]. *)
Definition formatted_error {A} (template : pystr)
    (kwargs : list (pystr * pystr)) : result A :=
  message ← str_format (gettext template) kwargs;
  validation_error message.

(** The last two steps: the MIT check for a Zephyr mirror realm, then the
    licenses. *)
Definition after_allowed (realm : Realm) (email : pystr)
    : result pystr * list pystr :=
  let '(mit, queries) :=
    if is_zephyr_mirror_realm realm
    then Mit.email_is_not_mit_mailing_list dnslookup NXDOMAIN email
    else (Ok tt, []) in
  match mit with
  | Raise e => (Raise e, queries)
  | Ok _ =>
      if BILLING_ENABLED && negb (spare_licenses_available realm email) then
        (validation_error
           (gettext
              (lit "New members cannot join this organization because all Zulip licenses are in use. Please contact the person who "
               ++ lit "invited you and ask them to increase the number of licenses, then try again.")),
         queries)
      else (Ok email, queries)
  end.

(** [clean_email] for the form's [realm] and [from_multiuse_invite] and the
    cleaned [email]: the result and the DNS names looked up. *)
Definition clean_email (realm : option Realm) (from_multiuse_invite : bool)
    (email : pystr) : result pystr * list pystr :=
  match realm with
  | None =>
      (formatted_error
         (lit "The organization you are trying to join using {email} does not exist.")
         [(lit "email", email)],
       [])
  | Some realm =>
      if negb from_multiuse_invite && invite_required realm then
        (formatted_error
           (lit "Please request an invite for {email} "
            ++ lit "from the organization "
            ++ lit "administrator.")
           [(lit "email", email)],
         [])
      else
        match email_allowed_for_realm email realm with
        | DomainNotAllowedForRealmError =>
            (formatted_error
               (lit "Your email address, {email}, is not in one of the domains "
                ++ lit "that are allowed to register for accounts in this organization.")
               [(lit "string_id", string_id realm); (lit "email", email)],
             [])
        | DisposableEmailError =>
            (validation_error (gettext (lit "Please use your real email address.")), [])
        | EmailContainsPlusError =>
            (validation_error
               (gettext (lit "Email addresses containing + are not allowed in this organization.")),
             [])
        | Allowed => after_allowed realm email
        end
  end.

End Form.

End Homepage.

(** ** [AuthenticationTokenForm] *)
Module TokenForm.

(** [max_value=int("9" * totp_digits())], for the value of [totp_digits()]
    and the interpreter's limit on the digits of a numeral. *)
Definition max_value (int_max_str_digits totp_digits : Z) : option (result Z) :=
  int_of_str int_max_str_digits (str_mul (lit "9") totp_digits).

End TokenForm.

(** ** [MultiEmailField.validate] *)
Module MultiEmail.

Section Field.
(** [forms.Field.validate] (the superclass method) and Django's
    [validate_email]. *)
Variable field_validate : list pystr -> result unit.
Variable validate_email : pystr -> result unit.

(** [for email in emails: validate_email(email)] *)
Fixpoint validate_each (emails : list pystr) : result unit :=
  match emails with
  | [] => Ok tt
  | email :: emails' => _ ← validate_email email; validate_each emails'
  end.

Definition validate (emails : list pystr) : result unit :=
  _ ← field_validate emails; validate_each emails.

End Field.

End MultiEmail.

(** ** Decimal numerals *)
Module Numeral.

(** The integer that a decimal numeral denotes: an optional ['-'] and then
    one or more ASCII digits; [None] for any other string. *)
Definition decimal_value (s : pystr) : option Z :=
  match s with
  | [] => None
  | c :: digits =>
      if c =? 45 then
        match digits with
        | [] => None
        | _ :: _ => Z.opp <$> int_of_digits 0 digits
        end
      else int_of_digits 0 s
  end.

End Numeral.

(** ** The backend behind [authenticate] *)
Module SpecBackend.

(** Modelled from the spec: the calls that the backend behind
    [authenticate] makes (its code, zproject/backends.py, is not under
    src/).  Section 4.5 names two: the rate limiter, consulted "for the
    (username, realm) key", and the credential authenticator, whose own
    calls (identity lookups, hash comparisons) are of a type [Call] left
    open. *)
Inductive call (Call : Type) :=
| Consulted (username : pystr) (realm : Realm)
| Delegated (c : Call).
Arguments Consulted {Call} username realm.
Arguments Delegated {Call} c.

Section Engine.
(** The rate limiter of section 4.3, which answers "allow/deny plus
    seconds-to-retry", and the credential authenticator of section 4.4
    with the calls it makes. *)
Variable HttpRequest : Type.
Variable Call : Type.
Variable rate_limit : pystr -> Realm -> bool * option spec_float.
Variable credential_authenticator :
  HttpRequest -> pystr -> pystr -> Realm -> Auth.auth_result * list Call.

(** Modelled from the spec: the backend behind [authenticate], missing
    from src/.  Section 4.5, steps 1 and 2: "Consult RateLimiter for the
    (username, realm) key first; if limited, return RateLimited(secs) - no
    credential comparison occurs", then "Delegate to
    CredentialAuthenticator".  The result is what [clean] receives, with
    the calls made, in order. *)
Definition authenticate (request : HttpRequest) (username password : pystr)
    (realm : Realm) : Auth.auth_result * list (call Call) :=
  let '(limited, secs_to_freedom) := rate_limit username realm in
  if limited : bool then
    ({| Auth.auth_outcome := Raise (RateLimited secs_to_freedom);
        Auth.auth_return_data := ∅ |},
     [Consulted username realm])
  else
    let '(outcome, calls) :=
      credential_authenticator request username password realm in
    (outcome, Consulted username realm :: List.map Delegated calls).

End Engine.

End SpecBackend.

(** ** Vocabulary for further statements about [OurAuthenticationForm.clean] *)
Module AuthMore.

(** The conditions on [return_data] under which [clean] raises after
    [authenticate] has returned: the four [if] tests, in their order. *)
Definition blocked (return_data : gmap pystr pyval) : bool :=
  get_truthy return_data (lit "inactive_realm")
  || get_truthy return_data (lit "password_reset_needed")
  || (get_truthy return_data (lit "inactive_user")
      && negb (get_truthy return_data (lit "is_mirror_dummy")))
  || get_truthy return_data (lit "invalid_subdomain").

End AuthMore.

(** ** A concrete deployment, for running the definitions *)
Module Scenario.

Record Request := { host_subdomain : pystr; language_code : pystr }.

Definition acme : Realm :=
  {| string_id := lit "acme"; realm_name := lit "Acme";
     realm_uri := lit "https://acme.example.com"; realm_deactivated := false |}.

Definition other : Realm :=
  {| string_id := lit "other"; realm_name := lit "Other";
     realm_uri := lit "https://other.example.com"; realm_deactivated := false |}.

Definition realms : list Realm := [acme; other].

(** A [get_realm] over the table [realms]. *)
Definition get_realm (subdomain : pystr) : result Realm :=
  match List.find (fun r => str_eqb (string_id r) subdomain) realms with
  | Some r => Ok r
  | None => Raise (DoesNotExist (lit "Realm"))
  end.

Definition bob : UserProfile :=
  {| user_id := 7; delivery_email := lit "bob@example.com";
     is_active := true; is_mirror_dummy := false; user_realm := acme |}.

Definition carol : UserProfile :=
  {| user_id := 8; delivery_email := lit "carol@example.com";
     is_active := false; is_mirror_dummy := false; user_realm := acme |}.

Definition dummy : UserProfile :=
  {| user_id := 9; delivery_email := lit "dummy@example.com";
     is_active := false; is_mirror_dummy := true; user_realm := acme |}.

Definition users : list (UserProfile * pystr) :=
  [(bob, lit "P@ssw0rd1"); (carol, lit "secret"); (dummy, [])].

Definition flag (k : string) : gmap pystr pyval := {[ lit k := PyBool true ]}.

(** An example backend over the table [users]: it finds the account by
    address within the realm and flags what it found in [return_data]. *)
Definition backend (request : Request) (username password : pystr)
    (realm : Realm) : Auth.auth_result :=
  let here up :=
    str_eqb (delivery_email (fst up)) username
    && str_eqb (string_id (user_realm (fst up))) (string_id realm) in
  let anywhere up := str_eqb (delivery_email (fst up)) username in
  match List.find here users with
  | Some (u, pw) =>
      if negb (is_active u) then
        {| Auth.auth_outcome := Ok None;
           Auth.auth_return_data :=
             if is_mirror_dummy u
             then flag "is_mirror_dummy" ∪ flag "inactive_user"
             else flag "inactive_user" |}
      else if realm_deactivated (user_realm u) then
        {| Auth.auth_outcome := Ok None;
           Auth.auth_return_data := flag "inactive_realm" |}
      else if str_eqb pw password then
        {| Auth.auth_outcome := Ok (Some u); Auth.auth_return_data := ∅ |}
      else
        {| Auth.auth_outcome := Ok None; Auth.auth_return_data := ∅ |}
  | None =>
      {| Auth.auth_outcome := Ok None;
         Auth.auth_return_data :=
           if existsb anywhere users then flag "invalid_subdomain" else ∅ |}
  end.

(** A backend whose rate limiter refuses every attempt, whatever flags
    are in [return_data] by then. *)
Definition limited_backend (secs : spec_float) (request : Request)
    (username password : pystr) (realm : Realm) : Auth.auth_result :=
  {| Auth.auth_outcome := Raise (RateLimited (Some secs));
     Auth.auth_return_data := flag "inactive_realm" ∪ flag "invalid_subdomain" |}.

(** A backend that flags the realm as inactive, whatever else it flags. *)
Definition inactive_realm_backend (request : Request)
    (username password : pystr) (realm : Realm) : Auth.auth_result :=
  {| Auth.auth_outcome := Ok None;
     Auth.auth_return_data :=
       flag "inactive_realm" ∪ flag "password_reset_needed"
       ∪ flag "inactive_user" ∪ flag "invalid_subdomain" |}.

Definition invalid_login_message : pystr :=
  lit "Please enter a correct %(username)s and password. Note that both fields may be case-sensitive.".

Definition confirm_login_allowed (u : UserProfile) : result unit :=
  if is_active u then Ok tt
  else Raise (ValidationError (lit "This account is inactive.")
                (Some (lit "inactive")) []).

Definition clean_with (authenticate : Request -> pystr -> pystr -> Realm -> Auth.auth_result) :=
  Auth.clean Request host_subdomain get_realm authenticate
    invalid_login_message (lit "email") confirm_login_allowed.

Definition login_data (username password : string) : gmap pystr pystr :=
  <[lit "password" := lit password]> {[ lit "username" := lit username ]}.

Definition at_acme : Request :=
  {| host_subdomain := lit "acme"; language_code := lit "en" |}.
Definition at_other : Request :=
  {| host_subdomain := lit "other"; language_code := lit "de" |}.

(** 90.5 seconds as a binary64 value: 181 * 2^-1. *)
Definition secs_90_5 : spec_float := S754_finite false 181 (-1).

(** A limiter store that counts attempts per key and refuses the sixth. *)
Definition Store := gmap pystr nat.

Definition rate_limit (key : pystr) (rules : list (Z * Z)) (st : Store)
    : (bool * spec_float) * Store :=
  let n := default 0%nat (st !! key) in
  ((Nat.leb 5 n, S754_zero false), <[key := S n]> st).

Definition user_table : list UserProfile := [bob; carol; dummy].

(** Comparison without regard to the case of the ASCII letters, standing
    in for the database's [iexact] on the addresses of the table. *)
Definition ascii_lower (c : char) : char :=
  if (65 <=? c) && (c <=? 90) then c + 32 else c.

Definition iexact (a b : pystr) : bool :=
  str_eqb (List.map ascii_lower a) (List.map ascii_lower b).

Definition get_user_by_delivery_email (email : pystr) (realm : Realm)
    : option UserProfile :=
  List.find (fun u => iexact (delivery_email u) email
                      && str_eqb (string_id (user_realm u)) (string_id realm))
            user_table.

Definition active_accounts_iexact (email : pystr) : list UserProfile :=
  List.filter (fun u => iexact (delivery_email u) email && is_active u)
              user_table.

Definition make_token (u : UserProfile) : pystr := lit "token".
Definition urlsafe_base64_encode (s : pystr) : pystr := s.
Definition reverse (name uid token : pystr) : pystr :=
  lit "/accounts/password/reset/" ++ uid ++ lit "/" ++ token.
Definition from_name_user (u : UserProfile) : pystr :=
  lit "Zulip Account Security".
Definition from_name_language (l : pystr) : pystr :=
  lit "Zulip Account Security".
Definition no_reply : pystr := lit "noreply@example.com".
Definition rules : list (Z * Z) := [(5, 3600)%Z].

Definition save_with (password_auth ldap rate_limiting : bool) :=
  PasswordReset.save Request host_subdomain language_code get_realm
    (fun _ => password_auth) (fun _ _ => ldap) rate_limiting rules
    Store rate_limit get_user_by_delivery_email active_accounts_iexact
    make_token urlsafe_base64_encode reverse from_name_user
    from_name_language no_reply.

(** [n] dispatches in a row for one address, the store carried along. *)
Fixpoint reset_attempts (n : nat) (email : pystr) (st : Store)
    : list (PasswordReset.save_run Store) :=
  match n with
  | O => []
  | S k =>
      let r := save_with true false true email at_acme st in
      r :: reset_attempts k email (PasswordReset.store _ r)
  end.

Definition sent_email (r : PasswordReset.save_run Store) : bool :=
  match PasswordReset.effects _ r with
  | [SendEmail _] => true
  | _ => false
  end.

Definition reserved (s : pystr) : bool := str_eqb s (lit "www").

Definition check_subdomain :=
  Subdomain.check_subdomain_available id [] true realms reserved.

End Scenario.

(** ** More of the concrete deployment *)
Module Deployment.

Definition zephyr : Realm :=
  {| string_id := lit "zephyr"; realm_name := lit "MIT";
     realm_uri := lit "https://zephyr.example.com"; realm_deactivated := false |}.

(** A resolver that knows one MIT user and reports any other name of the
    MIT zone as missing (response code 3). *)
Definition dnslookup (name : pystr) : Mit.dns_answer :=
  if str_eqb name (lit "alice.pobox.ns.athena.mit.edu") then Mit.Answered
  else Mit.ServerError 3.

Definition NXDOMAIN : Z := 3.

Definition mit_check := Mit.email_is_not_mit_mailing_list dnslookup NXDOMAIN.

(** An example formatter for templates whose fields are plain names. *)
Fixpoint format_fields (template : pystr) (field : option pystr)
    (kwargs : list (pystr * pystr)) : result pystr :=
  match template with
  | [] => match field with None => Ok [] | Some _ => Raise ValueError end
  | c :: template' =>
      match field with
      | None =>
          if c =? 123 then format_fields template' (Some []) kwargs
          else rest ← format_fields template' None kwargs; Ok (c :: rest)
      | Some name =>
          if c =? 125 then
            match List.find (fun kv => str_eqb (fst kv) name) kwargs with
            | Some kv => rest ← format_fields template' None kwargs; Ok (snd kv ++ rest)
            | None => Raise (OtherError (lit "KeyError"))
            end
          else format_fields template' (Some (name ++ [c])) kwargs
      end
  end.

Definition str_format (template : pystr) (kwargs : list (pystr * pystr))
    : result pystr :=
  format_fields template None kwargs.

Definition invite_required (r : Realm) : bool := str_eqb (string_id r) (lit "other").
Definition is_zephyr_mirror_realm (r : Realm) : bool :=
  str_eqb (string_id r) (lit "zephyr").
Definition email_allowed_for_realm (email : pystr) (r : Realm) : Homepage.allowed :=
  if contains (lit "+") email then Homepage.EmailContainsPlusError
  else Homepage.Allowed.
Definition spare_licenses_available (r : Realm) (email : pystr) : bool :=
  negb (str_eqb (string_id r) (lit "acme")).

Definition clean_email (billing : bool) :=
  Homepage.clean_email id str_format invite_required is_zephyr_mirror_realm
    email_allowed_for_realm dnslookup NXDOMAIN billing spare_licenses_available.

Definition clean_realm_subdomain (realm_creation : bool) :=
  Registration.clean_realm_subdomain id [] true Scenario.realms
    Scenario.reserved realm_creation.

Definition subdomain_data (subdomain : string) : gmap pystr pystr :=
  {[ lit "realm_subdomain" := lit subdomain ]}.

(** A stand-in for Django's [validate_email], much simpler than it:
    exactly one [@], text before it, and after it at
    least two labels separated by dots, none empty and the last of at
    least two characters. *)
Definition domain_ok (domain : pystr) : bool :=
  match List.rev (split 46 domain) with
  | (_ :: _ :: _) :: (_ :: _) as labels =>
      forallb (fun label => negb (str_eqb label [])) labels
  | _ => false
  end.

Definition validate_email (email : pystr) : result unit :=
  match split 64 email with
  | [_ :: _; domain] =>
      if domain_ok domain then Ok tt
      else Raise (ValidationError (lit "Enter a valid email address.")
                    (Some (lit "invalid")) [])
  | _ => Raise (ValidationError (lit "Enter a valid email address.")
                  (Some (lit "invalid")) [])
  end.

(** [Field.validate] of a required field: an empty value is refused. *)
Definition field_validate (emails : list pystr) : result unit :=
  match emails with
  | [] => Raise (ValidationError (lit "This field is required.")
                   (Some (lit "required")) [])
  | _ :: _ => Ok tt
  end.

Definition validate := MultiEmail.validate field_validate validate_email.

(** The calls of an example credential authenticator: it looks the
    identity up and compares the password with the stored hash. *)
Inductive credential_call :=
| FindByEmail (email : pystr) (realm : Realm)
| Verify (plaintext : pystr).

Definition credential_authenticator (request : Scenario.Request)
    (username password : pystr) (realm : Realm)
    : Auth.auth_result * list credential_call :=
  (Scenario.backend request username password realm,
   [FindByEmail username realm; Verify password]).

(** A limiter that refuses bob for 90.5 seconds and lets everyone else in. *)
Definition rate_limit (username : pystr) (realm : Realm)
    : bool * option spec_float :=
  if str_eqb username (lit "bob@example.com")
  then (true, Some Scenario.secs_90_5)
  else (false, None).

Definition backend :=
  SpecBackend.authenticate Scenario.Request credential_call rate_limit
    credential_authenticator.

End Deployment.

(** * Properties *)

(** ** Facts about the string primitives *)
Module PyFacts.

Lemma split_not_nil sep s : split sep s <> [].
Proof.
  destruct s as [|c s]; simpl; [discriminate|].
  destruct (c =? sep); [discriminate|].
  destruct (split sep s); discriminate.
Qed.

(** Joining the pieces with the separator gives the string back. *)
Lemma join_split sep s : join sep (split sep s) = s.
Proof.
  induction s as [|c s IH]; simpl; [reflexivity|].
  destruct (N.eqb_spec c sep) as [->|Hne].
  - pose proof (split_not_nil sep s) as Hnil.
    destruct (split sep s) as [|p ps]; [contradiction|].
    simpl in *. now rewrite IH.
  - pose proof (split_not_nil sep s) as Hnil.
    destruct (split sep s) as [|p ps]; [contradiction|].
    destruct ps as [|q ps]; simpl in *; now rewrite <- IH.
Qed.

(** No piece contains the separator. *)
Lemma split_no_sep sep s p : In p (split sep s) -> ~ In sep p.
Proof.
  revert p. induction s as [|c s IH]; simpl; intros p Hin.
  - destruct Hin as [<-|[]]. intros [].
  - destruct (N.eqb_spec c sep) as [->|Hne].
    + destruct Hin as [<-|Hin]; [intros []|now apply IH].
    + destruct (split sep s) as [|q qs].
      * destruct Hin as [<-|[]]. intros [Heq|[]]. congruence.
      * destruct Hin as [<-|Hin].
        -- intros [Heq|Hq]; [congruence|]. apply (IH q); simpl; auto.
        -- apply IH. simpl. auto.
Qed.

(** There is one piece more than there are separators. *)
Lemma length_split sep s :
  List.length (split sep s) = S (List.length (List.filter (N.eqb sep) s)).
Proof.
  induction s as [|c s IH]; simpl; [reflexivity|].
  rewrite (N.eqb_sym sep c).
  destruct (c =? sep); simpl; [now rewrite IH|].
  pose proof (split_not_nil sep s) as Hnil.
  destruct (split sep s); [contradiction|]. exact IH.
Qed.

Lemma lstrip_spec s :
  exists l, s = l ++ lstrip s /\ forallb isspace l = true.
Proof.
  induction s as [|c s [l [Heq Hl]]]; simpl.
  - exists []. split; reflexivity.
  - destruct (isspace c) eqn:Hc.
    + exists (c :: l). simpl. rewrite Hc, Hl. split; [now f_equal|reflexivity].
    + exists []. split; reflexivity.
Qed.

Lemma lstrip_head s c : head (lstrip s) = Some c -> isspace c = false.
Proof.
  induction s as [|d s IH]; simpl; [discriminate|].
  destruct (isspace d) eqn:Hd; [exact IH|].
  simpl. intros [= <-]. exact Hd.
Qed.

Lemma head_rev (s : pystr) : head (List.rev s) = last s.
Proof.
  induction s as [|c s IH] using rev_ind; [reflexivity|].
  rewrite List.rev_app_distr. simpl. now rewrite last_snoc.
Qed.

Lemma forallb_rev (f : char -> bool) l :
  forallb f (List.rev l) = forallb f l.
Proof.
  induction l as [|c l IH]; [reflexivity|]. simpl.
  rewrite forallb_app, IH. simpl. rewrite andb_true_r. apply andb_comm.
Qed.

Lemma rstrip_spec s :
  exists r, s = rstrip s ++ r /\ forallb isspace r = true.
Proof.
  destruct (lstrip_spec (List.rev s)) as [l [Heq Hl]].
  exists (List.rev l). split.
  - unfold rstrip. rewrite <- List.rev_app_distr, <- Heq.
    now rewrite List.rev_involutive.
  - now rewrite forallb_rev.
Qed.

Lemma rstrip_last s c : last (rstrip s) = Some c -> isspace c = false.
Proof.
  unfold rstrip. rewrite <- head_rev, List.rev_involutive.
  apply lstrip_head.
Qed.

(** [strip] removes white space at both ends and nothing else, and what
    it leaves neither starts nor ends with white space. *)
Lemma strip_spec s :
  (exists l r, s = l ++ strip s ++ r
               /\ forallb isspace l = true /\ forallb isspace r = true)
  /\ (forall c, head (strip s) = Some c -> isspace c = false)
  /\ (forall c, last (strip s) = Some c -> isspace c = false).
Proof.
  destruct (rstrip_spec s) as [r [Hs Hr]].
  destruct (lstrip_spec (rstrip s)) as [l [Hrs Hl]].
  split; [|split].
  - exists l, r. unfold strip. rewrite app_assoc, <- Hrs. auto.
  - intros c. apply lstrip_head.
  - intros c Hc. apply (rstrip_last s).
    rewrite Hrs. fold (strip s).
    destruct (strip s) as [|d t] eqn:Hst; [discriminate|].
    rewrite last_app. now rewrite Hc.
Qed.

Lemma startswith_app p s : startswith p (p ++ s) = true.
Proof.
  induction p as [|a p IH]; [reflexivity|].
  simpl. now rewrite N.eqb_refl, IH.
Qed.

(** A string contains each of its segments. *)
Lemma contains_app a x b : contains x (a ++ x ++ b) = true.
Proof.
  induction a as [|c a IH]; simpl.
  - destruct (x ++ b) eqn:E; simpl.
    + destruct x; [reflexivity|discriminate].
    + rewrite <- E, startswith_app. reflexivity.
  - rewrite IH. apply orb_true_r.
Qed.

End PyFacts.

(** ** Subdomain availability *)
Module SubdomainFacts.
Import Subdomain.

(** The scenarios of the specification, run on the concrete deployment. *)
Example check_ab :
  Scenario.check_subdomain (lit "ab") false = validation_error (error_text too_short).
Proof. vm_compute. reflexivity. Qed.

Example check_dash_abc :
  Scenario.check_subdomain (lit "-abc") false
  = validation_error (error_text extremal_dash).
Proof. vm_compute. reflexivity. Qed.

Example check_AB_C :
  Scenario.check_subdomain (lit "AB_C") false
  = validation_error (error_text bad_character).
Proof. vm_compute. reflexivity. Qed.

Example check_www :
  Scenario.check_subdomain (lit "www") false
  = validation_error (error_text unavailable)
  /\ Scenario.check_subdomain (lit "www") true = Ok tt.
Proof. split; vm_compute; reflexivity. Qed.

Example check_existing :
  Scenario.check_subdomain (lit "acme") true
  = validation_error (error_text unavailable).
Proof. vm_compute. reflexivity. Qed.

(** [$] also matches before a final newline, so such a name passes the
    character check. *)
Example check_trailing_newline :
  Scenario.check_subdomain (lit "abc" ++ [10]) false = Ok tt.
Proof. vm_compute. reflexivity. Qed.

Section Validator.
Variable gettext : pystr -> pystr.
Variable SUBDOMAIN_FOR_ROOT_DOMAIN : pystr.
Variable is_root_domain_available : bool.
Variable realms : list Realm.
Variable is_reserved_subdomain : pystr -> bool.

Local Abbreviation check :=
  (check_subdomain_available gettext SUBDOMAIN_FOR_ROOT_DOMAIN
     is_root_domain_available realms is_reserved_subdomain).

(** The sentinel is decided first, by the root domain alone. *)
Lemma check_root_domain allow :
  check SUBDOMAIN_FOR_ROOT_DOMAIN allow
  = if is_root_domain_available then Ok tt
    else validation_error (gettext (error_text unavailable)).
Proof.
  unfold check_subdomain_available, str_eqb.
  rewrite bool_decide_eq_true_2; reflexivity.
Qed.

Lemma check_empty allow :
  SUBDOMAIN_FOR_ROOT_DOMAIN <> [] -> check [] allow = Raise IndexError.
Proof.
  intros Hne. unfold check_subdomain_available, str_eqb.
  rewrite bool_decide_eq_false_2; [reflexivity|congruence].
Qed.

(** On a non-empty string the two index expressions succeed. *)
Lemma index_last_cons c s : exists d, index_last (c :: s) = Ok d.
Proof.
  unfold index_last.
  destruct (List.rev (c :: s)) as [|d t] eqn:E; [|eauto].
  apply (f_equal (@List.length _)) in E.
  rewrite List.length_rev in E. discriminate.
Qed.

Lemma check_nonempty_outcome c s allow :
  check (c :: s) allow = Ok tt
  \/ exists k, check (c :: s) allow = validation_error (error_strings gettext k).
Proof.
  unfold check_subdomain_available.
  destruct (str_eqb (c :: s) SUBDOMAIN_FOR_ROOT_DOMAIN).
  { destruct is_root_domain_available; eauto. }
  destruct (index_last_cons c s) as [d Hd].
  cbn [index_first mbind result_bind bind]. rewrite Hd.
  destruct (c =? 45); cbn [mbind result_bind bind].
  { eauto. }
  destruct (d =? 45); [eauto|].
  destruct (re_match (c :: s)); cbn [negb]; [|eauto].
  destruct (len (c :: s) <? 3)%Z; [eauto|].
  destruct (realm_exists realms (c :: s)); [eauto|].
  destruct (is_reserved_subdomain (c :: s) && negb allow); eauto.
Qed.

End Validator.

End SubdomainFacts.

Section SubdomainClaims.
Import Subdomain SubdomainFacts.
Variable gettext : pystr -> pystr.
Variable SUBDOMAIN_FOR_ROOT_DOMAIN : pystr.
Variable is_root_domain_available : bool.
Variable realms : list Realm.
Variable is_reserved_subdomain : pystr -> bool.

Local Abbreviation check :=
  (check_subdomain_available gettext SUBDOMAIN_FOR_ROOT_DOMAIN
     is_root_domain_available realms is_reserved_subdomain).

(** C5, as amended.  For a non-empty subdomain of length less than 3 that
    is not the root-domain sentinel, the length check comes third, after
    the extremal-dash check and the character check: the outcome is the
    extremal-dash error when the string starts or ends with ['-'],
    otherwise the bad-character error when it does not match
    [^[a-z0-9-]*$], and otherwise the too-short error, whatever the realm
    table, the reserved words and [allow_reserved_subdomain] are. *)
Theorem short_subdomain_outcome (subdomain : pystr) (allow : bool) :
  (len subdomain < 3)%Z ->
  subdomain <> SUBDOMAIN_FOR_ROOT_DOMAIN ->
  subdomain <> [] ->
  (head subdomain = Some 45 \/ last subdomain = Some 45 ->
   check subdomain allow = validation_error (gettext (error_text extremal_dash)))
  /\ (head subdomain <> Some 45 -> last subdomain <> Some 45 ->
      re_match subdomain = false ->
      check subdomain allow = validation_error (gettext (error_text bad_character)))
  /\ (head subdomain <> Some 45 -> last subdomain <> Some 45 ->
      re_match subdomain = true ->
      check subdomain allow = validation_error (gettext (error_text too_short))).
Proof.
  intros Hlen Hsent Hne.
  unfold check_subdomain_available, str_eqb.
  rewrite bool_decide_eq_false_2 by exact Hsent.
  destruct subdomain as [|a [|b [|c s]]].
  - contradiction.
  - cbn [index_first index_last List.rev app mbind result_bind bind head last].
    destruct (N.eqb_spec a 45) as [->|Ha].
    + split; [reflexivity|split; intros H; contradiction].
    + cbn [mbind result_bind bind]. split; [|split].
      * intros [[= H]|[= H]]; contradiction.
      * intros _ _ ->. reflexivity.
      * intros _ _ ->. reflexivity.
  - cbn [index_first index_last List.rev app mbind result_bind bind head last].
    destruct (N.eqb_spec a 45) as [->|Ha].
    + split; [reflexivity|split; intros H; contradiction].
    + destruct (N.eqb_spec b 45) as [->|Hb].
      * split; [reflexivity|split; intros _ H; contradiction].
      * split; [|split].
        -- intros [[= H]|[= H]]; contradiction.
        -- intros _ _ ->. reflexivity.
        -- intros _ _ ->. reflexivity.
  - exfalso. unfold len in Hlen. simpl in Hlen. lia.
Qed.

(** C9.  [check_subdomain_available] needs its input to be non-empty or
    equal to the root-domain sentinel.  For every such input it returns,
    or raises [ValidationError] with one of the four messages of
    [error_strings]; for the empty string, when the sentinel is another
    string, the index expression [subdomain[0]] raises [IndexError]. *)
Theorem check_subdomain_available_precondition (subdomain : pystr) (allow : bool) :
  (subdomain <> [] \/ subdomain = SUBDOMAIN_FOR_ROOT_DOMAIN ->
   check subdomain allow = Ok tt
   \/ exists k, check subdomain allow = validation_error (gettext (error_text k)))
  /\ (subdomain = [] -> subdomain <> SUBDOMAIN_FOR_ROOT_DOMAIN ->
      check subdomain allow = Raise IndexError).
Proof.
  split.
  - intros [Hne| ->].
    + destruct subdomain as [|c s]; [contradiction|].
      apply check_nonempty_outcome.
    + rewrite check_root_domain.
      destruct is_root_domain_available; [left; reflexivity|].
      right. exists unavailable. reflexivity.
  - intros -> Hsent. apply check_empty. congruence.
Qed.

End SubdomainClaims.

(** C5, as stated, fails: ["-a"] has length 2 and is not the sentinel, and
    the outcome is the extremal-dash error, not the too-short error. *)
Lemma short_subdomain_not_always_too_short :
  ~ (forall subdomain : pystr,
       (len subdomain < 3)%Z -> subdomain <> [] ->
       Scenario.check_subdomain subdomain false
       = validation_error (Subdomain.error_text Subdomain.too_short)).
Proof.
  intros H. specialize (H (lit "-a")).
  assert (Scenario.check_subdomain (lit "-a") false
          = validation_error (Subdomain.error_text Subdomain.extremal_dash)) as E
    by (vm_compute; reflexivity).
  rewrite E in H.
  assert (validation_error (A:=unit) (Subdomain.error_text Subdomain.extremal_dash)
          = validation_error (Subdomain.error_text Subdomain.too_short)) as F.
  { apply H; [vm_compute; reflexivity | discriminate]. }
  vm_compute in F. discriminate F.
Qed.

Lemma short_subdomain_outcome_witness :
  Scenario.check_subdomain (lit "ab") false
  = validation_error (Subdomain.error_text Subdomain.too_short).
Proof.
  apply (short_subdomain_outcome id [] true Scenario.realms Scenario.reserved
           (lit "ab") false).
  - vm_compute. reflexivity.
  - discriminate.
  - discriminate.
  - vm_compute. discriminate.
  - vm_compute. discriminate.
  - vm_compute. reflexivity.
Defined.

Lemma check_subdomain_available_precondition_witness :
  (Scenario.check_subdomain (lit "ab") false = Ok tt
   \/ exists k, Scenario.check_subdomain (lit "ab") false
                = validation_error (Subdomain.error_text k))
  /\ Subdomain.check_subdomain_available id (lit "root") true Scenario.realms
       Scenario.reserved [] false = Raise IndexError.
Proof.
  split.
  - apply (check_subdomain_available_precondition id [] true Scenario.realms
             Scenario.reserved (lit "ab") false).
    left. discriminate.
  - apply (check_subdomain_available_precondition id (lit "root") true
             Scenario.realms Scenario.reserved [] false).
    + reflexivity.
    + discriminate.
Defined.

(** ** Team lookup *)
Module FindMyTeamFacts.
Import FindMyTeam.

Example to_python_example :
  to_python (lit " a@b.c , d@e.f,,g ")
  = [lit "a@b.c"; lit "d@e.f"; []; lit "g"].
Proof. vm_compute. reflexivity. Qed.

Lemma clean_emails_accepts gettext (emails : list pystr) :
  (List.length emails <= 10)%nat -> clean_emails gettext emails = Ok emails.
Proof.
  intros H. unfold clean_emails, len.
  destruct (Z.gtb_spec (Z.of_nat (List.length emails)) 10); [lia|reflexivity].
Qed.

Lemma clean_emails_rejects gettext (emails : list pystr) :
  (11 <= List.length emails)%nat ->
  clean_emails gettext emails
  = validation_error (gettext (lit "Please enter at most 10 emails.")).
Proof.
  intros H. unfold clean_emails, len.
  destruct (Z.gtb_spec (Z.of_nat (List.length emails)) 10); [reflexivity|lia].
Qed.

End FindMyTeamFacts.

(** C10.  [MultiEmailField.to_python] maps the empty string to the empty
    list; any other input is cut at its commas (the pieces joined by commas
    are the input, and no piece holds a comma) and every piece is stripped
    of the white space around it (only white space is removed, and the
    result neither starts nor ends with white space).
    [FindMyTeamForm.clean_emails] returns its list exactly when the list
    has at most 10 entries, and raises the validation error on 11 or more. *)
Theorem find_my_team_input_bound (gettext : pystr -> pystr) :
  FindMyTeam.to_python [] = []
  /\ (forall emails : pystr, emails <> [] ->
      exists pieces : list pystr,
        join FindMyTeam.comma pieces = emails
        /\ (forall p, In p pieces -> ~ In FindMyTeam.comma p)
        /\ List.length pieces
           = S (List.length (List.filter (N.eqb FindMyTeam.comma) emails))
        /\ FindMyTeam.to_python emails = List.map strip pieces)
  /\ (forall piece : pystr,
        (exists l r, piece = l ++ strip piece ++ r
                     /\ forallb isspace l = true /\ forallb isspace r = true)
        /\ (forall c, head (strip piece) = Some c -> isspace c = false)
        /\ (forall c, last (strip piece) = Some c -> isspace c = false))
  /\ (forall emails : list pystr,
        FindMyTeam.clean_emails gettext emails = Ok emails
        <-> (List.length emails <= 10)%nat)
  /\ (forall emails : list pystr,
        (11 <= List.length emails)%nat ->
        FindMyTeam.clean_emails gettext emails
        = validation_error (gettext (lit "Please enter at most 10 emails."))).
Proof.
  split; [reflexivity|]. split; [|split; [|split]].
  - intros emails Hne. exists (split FindMyTeam.comma emails).
    split; [apply PyFacts.join_split|].
    split; [intros p; apply PyFacts.split_no_sep|].
    split; [apply PyFacts.length_split|].
    destruct emails; [contradiction|reflexivity].
  - apply PyFacts.strip_spec.
  - intros emails. split.
    + intros H.
      destruct (Nat.le_gt_cases (List.length emails) 10) as [Hle|Hgt]; [exact Hle|].
      rewrite FindMyTeamFacts.clean_emails_rejects in H by lia. discriminate H.
    + apply FindMyTeamFacts.clean_emails_accepts.
  - intros emails. apply FindMyTeamFacts.clean_emails_rejects.
Qed.

Lemma find_my_team_input_bound_witness :
  FindMyTeam.clean_emails id (List.repeat (lit "a@b.c") 11)
  = validation_error (lit "Please enter at most 10 emails.")
  /\ (FindMyTeam.clean_emails id (FindMyTeam.to_python (lit "a@b.c, d@e.f"))
      = Ok [lit "a@b.c"; lit "d@e.f"]).
Proof.
  pose proof (find_my_team_input_bound id) as (_ & _ & _ & Hiff & Hrej).
  split.
  - apply Hrej. vm_compute. lia.
  - apply (Hiff (FindMyTeam.to_python (lit "a@b.c, d@e.f"))). vm_compute. lia.
Defined.

(** ** The login decision *)
Module AuthFacts.
Import Auth.

Lemma format_rate_limited (arg : pystr) :
  format1 AUTHENTICATION_RATE_LIMITED_ERROR arg
  = lit "You're making too many attempts to sign in. Try again in "
    ++ arg
    ++ lit " seconds or contact your organization administrator for help.".
Proof. vm_compute. reflexivity. Qed.

Lemma rate_limited_message_contains n :
  contains (str_of_int n) (rate_limited_message n) = true.
Proof. apply PyFacts.contains_app. Qed.

(** The text of the warning logged on a login to the wrong subdomain. *)
Lemma wrong_subdomain_message (username subdomain : pystr) :
  getMessage {| levelname := WARNING;
                log_msg := lit "User %s attempted password login to wrong subdomain %s";
                log_args := [username; subdomain] |}
  = Some (lit "User " ++ username
          ++ lit " attempted password login to wrong subdomain " ++ subdomain).
Proof.
  unfold getMessage. cbn [log_msg log_args].
  cbv -[app]. rewrite app_nil_r. reflexivity.
Qed.

Lemma get_truthy_empty k : get_truthy ∅ k = false.
Proof. unfold get_truthy, dict_get. now rewrite lookup_empty. Qed.

Section Form.
Variable HttpRequest : Type.
Variable get_subdomain : HttpRequest -> pystr.
Variable get_realm : pystr -> result Realm.
Variable authenticate : HttpRequest -> pystr -> pystr -> Realm -> auth_result.
Variable invalid_login_message : pystr.
Variable username_verbose_name : pystr.
Variable confirm_login_allowed : UserProfile -> result unit.

Local Abbreviation clean :=
  (Auth.clean HttpRequest get_subdomain get_realm authenticate
     invalid_login_message username_verbose_name confirm_login_allowed).
Local Abbreviation after_authenticate :=
  (Auth.after_authenticate invalid_login_message username_verbose_name
     confirm_login_allowed).
Local Abbreviation attempt := (Auth.attempt HttpRequest get_subdomain get_realm).

Lemma clean_when_raised (request : HttpRequest)
    (cleaned_data : gmap pystr pystr) (username password : pystr)
    (realm : Realm) (secs : option spec_float) :
  attempt request cleaned_data username password realm ->
  auth_outcome (authenticate request username password realm)
  = Raise (RateLimited secs) ->
  clean request cleaned_data = run (rate_limited_error secs) None [].
Proof.
  intros (Hu & Hp & Hne & Hr) Ha. unfold Auth.clean.
  rewrite Hu, Hp. destruct password as [|c p]; [contradiction|].
  rewrite Hr, Ha. reflexivity.
Qed.

Lemma clean_when_returned (request : HttpRequest)
    (cleaned_data : gmap pystr pystr) (username password : pystr)
    (realm : Realm) (user : option UserProfile) :
  attempt request cleaned_data username password realm ->
  auth_outcome (authenticate request username password realm) = Ok user ->
  clean request cleaned_data
  = after_authenticate cleaned_data username (get_subdomain request)
      (auth_return_data (authenticate request username password realm)) user.
Proof.
  intros (Hu & Hp & Hne & Hr) Ha. unfold Auth.clean.
  rewrite Hu, Hp. destruct password as [|c p]; [contradiction|].
  rewrite Hr, Ha. reflexivity.
Qed.

(** Without a user name or without a password nothing is checked. *)
Lemma clean_without_credentials (request : HttpRequest)
    (cleaned_data : gmap pystr pystr) :
  dict_get cleaned_data (lit "username") = None
  \/ dict_get cleaned_data (lit "password") = None
  \/ dict_get cleaned_data (lit "password") = Some ([] : pystr) ->
  clean request cleaned_data = run (Ok cleaned_data) None [].
Proof.
  unfold Auth.clean. intros [H|[H|H]].
  - now rewrite H.
  - destruct (dict_get cleaned_data (lit "username")); [now rewrite H|reflexivity].
  - destruct (dict_get cleaned_data (lit "username")); [now rewrite H|reflexivity].
Qed.

(** A [RateLimited] that carries no number of seconds trips the
    assertion of the handler. *)
Lemma clean_rate_limited_without_seconds (request : HttpRequest)
    (cleaned_data : gmap pystr pystr) (username password : pystr)
    (realm : Realm) :
  attempt request cleaned_data username password realm ->
  auth_outcome (authenticate request username password realm)
  = Raise (RateLimited None) ->
  clean request cleaned_data = run (Raise (AssertionError [])) None [].
Proof. intros H Ha. now rewrite (clean_when_raised _ _ _ _ _ _ H Ha). Qed.

End Form.

(** The scenarios of the specification, on the concrete deployment. *)
Example login_succeeds :
  let r := Scenario.clean_with Scenario.backend Scenario.at_acme
             (Scenario.login_data "bob@example.com" "P@ssw0rd1") in
  returned r = Ok (Scenario.login_data "bob@example.com" "P@ssw0rd1")
  /\ user_cache r = Some Scenario.bob /\ effects r = [].
Proof. vm_compute. auto. Qed.

Example login_wrong_password :
  returned (Scenario.clean_with Scenario.backend Scenario.at_acme
              (Scenario.login_data "bob@example.com" "wrong"))
  = Raise (ValidationError Scenario.invalid_login_message
             (Some (lit "invalid_login")) [(lit "username", lit "email")]).
Proof. vm_compute. reflexivity. Qed.

Example login_unknown_realm :
  returned (Scenario.clean_with Scenario.backend
              {| Scenario.host_subdomain := lit "nowhere";
                 Scenario.language_code := lit "en" |}
              (Scenario.login_data "bob@example.com" "P@ssw0rd1"))
  = Raise (DoesNotExist (lit "Realm")).
Proof. vm_compute. reflexivity. Qed.

End AuthFacts.

Section LoginClaims.
Import Auth AuthFacts.
Variable HttpRequest : Type.
Variable get_subdomain : HttpRequest -> pystr.
Variable get_realm : pystr -> result Realm.
Variable authenticate : HttpRequest -> pystr -> pystr -> Realm -> auth_result.
Variable invalid_login_message : pystr.
Variable username_verbose_name : pystr.
Variable confirm_login_allowed : UserProfile -> result unit.

Local Abbreviation clean :=
  (Auth.clean HttpRequest get_subdomain get_realm authenticate
     invalid_login_message username_verbose_name confirm_login_allowed).
Local Abbreviation attempt := (Auth.attempt HttpRequest get_subdomain get_realm).

(** The handler of [RateLimited].  When the call of [authenticate] for a
    login attempt raises [RateLimited] with a number of seconds, [clean]
    raises a [ValidationError] whose message is the rate-limit text with
    the integer part of the seconds in it.  Nothing else decides the
    outcome: it is the same whatever flags [return_data] holds and
    whatever [confirm_login_allowed] would answer, nothing is logged and
    [user_cache] is not set. *)
Lemma clean_rate_limited_handler (request : HttpRequest)
    (cleaned_data : gmap pystr pystr) (username password : pystr)
    (realm : Realm) (secs : spec_float) (n : Z) :
  attempt request cleaned_data username password realm ->
  auth_outcome (authenticate request username password realm)
  = Raise (RateLimited (Some secs)) ->
  int_of_float secs = Ok n ->
  clean request cleaned_data
  = run (validation_error (rate_limited_message n)) None []
  /\ contains (str_of_int n) (rate_limited_message n) = true.
Proof.
  intros Hat Hraise Hint. split.
  - rewrite (clean_when_raised _ _ _ _ _ _ _ _ _ _ _ _ _ Hat Hraise).
    unfold rate_limited_error. rewrite Hint.
    cbn [mbind result_bind bind].
    now rewrite format_rate_limited.
  - apply rate_limited_message_contains.
Qed.

(** C2.  When [authenticate] returns for a login attempt and has set the
    [inactive_realm] flag, [clean] raises [AssertionError], which is not
    a [ValidationError]; the other flags ([password_reset_needed],
    [inactive_user], [is_mirror_dummy], [invalid_subdomain]) and the
    returned user do not matter, and nothing is logged. *)
Theorem clean_inactive_realm_is_assertion (request : HttpRequest)
    (cleaned_data : gmap pystr pystr) (username password : pystr)
    (realm : Realm) (user : option UserProfile) :
  attempt request cleaned_data username password realm ->
  auth_outcome (authenticate request username password realm) = Ok user ->
  get_truthy (auth_return_data (authenticate request username password realm))
    (lit "inactive_realm") = true ->
  clean request cleaned_data
  = run (Raise (AssertionError
                  (lit "Programming error: inactive realm in authentication form")))
        user []
  /\ (forall message code params,
        returned (clean request cleaned_data)
        <> Raise (ValidationError message code params)).
Proof.
  intros Hat Hret Hflag.
  assert (clean request cleaned_data
          = run (Raise (AssertionError
                          (lit "Programming error: inactive realm in authentication form")))
                user []) as E.
  { rewrite (clean_when_returned _ _ _ _ _ _ _ _ _ _ _ _ _ Hat Hret).
    unfold after_authenticate. now rewrite Hflag. }
  split; [exact E|]. intros message code params. rewrite E. discriminate.
Qed.

(** C3.  When [authenticate] returns for a login attempt with the
    [inactive_user] flag set, and neither [inactive_realm] nor
    [password_reset_needed] is set: if [is_mirror_dummy] is not set,
    [clean] raises the deactivated-account error; if [is_mirror_dummy] is
    set (and the backend returned no user and did not flag a wrong
    subdomain), [clean] raises the invalid-login error, and the whole run
    equals the run with a backend that returns no user and sets no flag
    at all. *)
Theorem clean_inactive_user (request : HttpRequest)
    (cleaned_data : gmap pystr pystr) (username password : pystr)
    (realm : Realm) (user : option UserProfile) :
  attempt request cleaned_data username password realm ->
  auth_outcome (authenticate request username password realm) = Ok user ->
  let return_data :=
    auth_return_data (authenticate request username password realm) in
  get_truthy return_data (lit "inactive_realm") = false ->
  get_truthy return_data (lit "password_reset_needed") = false ->
  get_truthy return_data (lit "inactive_user") = true ->
  (get_truthy return_data (lit "is_mirror_dummy") = false ->
   clean request cleaned_data
   = run (validation_error (mark_safe DEACTIVATED_ACCOUNT_ERROR)) user [])
  /\ (get_truthy return_data (lit "is_mirror_dummy") = true ->
      get_truthy return_data (lit "invalid_subdomain") = false ->
      user = None ->
      clean request cleaned_data
      = run (Raise (ValidationError invalid_login_message
                      (Some (lit "invalid_login"))
                      [(lit "username", username_verbose_name)]))
            None []
      /\ forall no_account : HttpRequest -> pystr -> pystr -> Realm -> auth_result,
           auth_outcome (no_account request username password realm) = Ok None ->
           auth_return_data (no_account request username password realm) = ∅ ->
           clean request cleaned_data
           = Auth.clean HttpRequest get_subdomain get_realm no_account
               invalid_login_message username_verbose_name
               confirm_login_allowed request cleaned_data).
Proof.
  intros Hat Hret return_data Hrealm Hreset Hinactive.
  rewrite (clean_when_returned _ _ _ _ _ _ _ _ _ _ _ _ _ Hat Hret).
  fold return_data. unfold after_authenticate.
  rewrite Hrealm, Hreset, Hinactive. split.
  - intros ->. reflexivity.
  - intros -> Hsub ->. rewrite Hsub. cbn [andb negb]. split; [reflexivity|].
    intros no_account Hnone Hempty.
    rewrite (clean_when_returned _ _ _ no_account _ _ _ _ _ _ _ _ _ Hat Hnone).
    rewrite Hempty. unfold after_authenticate.
    rewrite !get_truthy_empty. reflexivity.
Qed.

(** C4, as amended.  When [authenticate] returns for a login attempt with
    the [invalid_subdomain] flag set and no check of higher precedence
    applies, [clean] raises the fixed wrong-subdomain error and logs
    exactly one entry, at warning level, whose arguments are the user
    name and the subdomain of the request; its text contains both.  The
    realm that the identity belongs to is not among the arguments. *)
Theorem clean_wrong_subdomain (request : HttpRequest)
    (cleaned_data : gmap pystr pystr) (username password : pystr)
    (realm : Realm) (user : option UserProfile) :
  attempt request cleaned_data username password realm ->
  auth_outcome (authenticate request username password realm) = Ok user ->
  let return_data :=
    auth_return_data (authenticate request username password realm) in
  get_truthy return_data (lit "inactive_realm") = false ->
  get_truthy return_data (lit "password_reset_needed") = false ->
  get_truthy return_data (lit "inactive_user")
  && negb (get_truthy return_data (lit "is_mirror_dummy")) = false ->
  get_truthy return_data (lit "invalid_subdomain") = true ->
  exists (entry : LogRecord) (message : pystr),
    clean request cleaned_data
    = run (validation_error (mark_safe WRONG_SUBDOMAIN_ERROR)) user [Log entry]
    /\ levelname entry = WARNING
    /\ log_args entry = [username; get_subdomain request]
    /\ getMessage entry = Some message
    /\ message = lit "User " ++ username
                 ++ lit " attempted password login to wrong subdomain "
                 ++ get_subdomain request
    /\ contains username message = true
    /\ contains (get_subdomain request) message = true.
Proof.
  intros Hat Hret return_data Hrealm Hreset Hinactive Hsub.
  eexists _, _. split; [|split; [|split; [|split; [|split; [reflexivity|]]]]].
  - rewrite (clean_when_returned _ _ _ _ _ _ _ _ _ _ _ _ _ Hat Hret).
    fold return_data. unfold after_authenticate.
    rewrite Hrealm, Hreset, Hinactive, Hsub. reflexivity.
  - reflexivity.
  - reflexivity.
  - apply wrong_subdomain_message.
  - split.
    + apply PyFacts.contains_app.
    + rewrite <- (app_nil_r (get_subdomain request)) at 2.
      rewrite (app_assoc (lit "User ")), (app_assoc _ (lit " attempted password login to wrong subdomain ")).
      apply PyFacts.contains_app.
Qed.

End LoginClaims.

(** ** The rate limit comes first *)
Module NumeralFacts.
Import Numeral.

Lemma lit_String (c : ascii) (s : string) :
  lit (String c s) = N_of_ascii c :: lit s.
Proof. reflexivity. Qed.

Lemma int_of_digits_digit (acc d : Z) (c : char) (t : pystr) :
  digit_value c = Some d ->
  int_of_digits acc (c :: t) = int_of_digits (10 * acc + d) t.
Proof. intros H. cbn [int_of_digits]. now rewrite H. Qed.

(** Reading the digits of a numeral of the Standard Library, after the
    digits already read. *)
Lemma digits_of_uint_acc (d : Decimal.uint) (acc : positive) :
  int_of_digits (Zpos acc) (lit (NilEmpty.string_of_uint d))
  = Some (Zpos (Pos.of_uint_acc d acc)).
Proof.
  revert acc.
  induction d as [|d IH|d IH|d IH|d IH|d IH|d IH|d IH|d IH|d IH|d IH];
    intros acc; cbn [NilEmpty.string_of_uint Pos.of_uint_acc];
    [reflexivity|..]; rewrite lit_String.
  - rewrite (int_of_digits_digit _ 0) by reflexivity.
    replace (10 * Z.pos acc + 0)%Z with (Z.pos (Pos.mul 10 acc)) by lia. apply IH.
  - rewrite (int_of_digits_digit _ 1) by reflexivity.
    replace (10 * Z.pos acc + 1)%Z
      with (Z.pos (Pos.add 1 (Pos.mul 10 acc))) by lia. apply IH.
  - rewrite (int_of_digits_digit _ 2) by reflexivity.
    replace (10 * Z.pos acc + 2)%Z
      with (Z.pos (Pos.add 2 (Pos.mul 10 acc))) by lia. apply IH.
  - rewrite (int_of_digits_digit _ 3) by reflexivity.
    replace (10 * Z.pos acc + 3)%Z
      with (Z.pos (Pos.add 3 (Pos.mul 10 acc))) by lia. apply IH.
  - rewrite (int_of_digits_digit _ 4) by reflexivity.
    replace (10 * Z.pos acc + 4)%Z
      with (Z.pos (Pos.add 4 (Pos.mul 10 acc))) by lia. apply IH.
  - rewrite (int_of_digits_digit _ 5) by reflexivity.
    replace (10 * Z.pos acc + 5)%Z
      with (Z.pos (Pos.add 5 (Pos.mul 10 acc))) by lia. apply IH.
  - rewrite (int_of_digits_digit _ 6) by reflexivity.
    replace (10 * Z.pos acc + 6)%Z
      with (Z.pos (Pos.add 6 (Pos.mul 10 acc))) by lia. apply IH.
  - rewrite (int_of_digits_digit _ 7) by reflexivity.
    replace (10 * Z.pos acc + 7)%Z
      with (Z.pos (Pos.add 7 (Pos.mul 10 acc))) by lia. apply IH.
  - rewrite (int_of_digits_digit _ 8) by reflexivity.
    replace (10 * Z.pos acc + 8)%Z
      with (Z.pos (Pos.add 8 (Pos.mul 10 acc))) by lia. apply IH.
  - rewrite (int_of_digits_digit _ 9) by reflexivity.
    replace (10 * Z.pos acc + 9)%Z
      with (Z.pos (Pos.add 9 (Pos.mul 10 acc))) by lia. apply IH.
Qed.

Lemma digits_of_uint (d : Decimal.uint) :
  int_of_digits 0 (lit (NilEmpty.string_of_uint d))
  = Some (Z.of_N (Pos.of_uint d)).
Proof.
  induction d as [|d IH|d IH|d IH|d IH|d IH|d IH|d IH|d IH|d IH|d IH];
    cbn [NilEmpty.string_of_uint Pos.of_uint]; [reflexivity|..];
    rewrite lit_String.
  - rewrite (int_of_digits_digit _ 0) by reflexivity. exact IH.
  - rewrite (int_of_digits_digit _ 1) by reflexivity. apply (digits_of_uint_acc d 1).
  - rewrite (int_of_digits_digit _ 2) by reflexivity. apply (digits_of_uint_acc d 2).
  - rewrite (int_of_digits_digit _ 3) by reflexivity. apply (digits_of_uint_acc d 3).
  - rewrite (int_of_digits_digit _ 4) by reflexivity. apply (digits_of_uint_acc d 4).
  - rewrite (int_of_digits_digit _ 5) by reflexivity. apply (digits_of_uint_acc d 5).
  - rewrite (int_of_digits_digit _ 6) by reflexivity. apply (digits_of_uint_acc d 6).
  - rewrite (int_of_digits_digit _ 7) by reflexivity. apply (digits_of_uint_acc d 7).
  - rewrite (int_of_digits_digit _ 8) by reflexivity. apply (digits_of_uint_acc d 8).
  - rewrite (int_of_digits_digit _ 9) by reflexivity. apply (digits_of_uint_acc d 9).
Qed.

Lemma uint_chars (p : positive) :
  lit (NilZero.string_of_uint (Pos.to_uint p)) <> []
  /\ int_of_digits 0 (lit (NilZero.string_of_uint (Pos.to_uint p)))
     = Some (Zpos p).
Proof.
  pose proof (DecimalPos.Unsigned.to_uint_nonnil p) as Hnil.
  pose proof (DecimalPos.Unsigned.of_to p) as Hof.
  pose proof (digits_of_uint (Pos.to_uint p)) as Hd.
  rewrite Hof in Hd.
  destruct (Pos.to_uint p) as [|d|d|d|d|d|d|d|d|d|d]; [contradiction|..];
    (split; [discriminate|exact Hd]).
Qed.

Lemma decimal_value_of_digits (s : pystr) (v : Z) :
  s <> [] -> int_of_digits 0 s = Some v -> decimal_value s = Some v.
Proof.
  intros Hne Hv. destruct s as [|c t]; [contradiction|].
  unfold decimal_value. destruct (N.eqb_spec c 45) as [->|_]; [|exact Hv].
  discriminate Hv.
Qed.

(** [str(n)] is a decimal numeral of [n]. *)
Lemma decimal_value_str_of_int (n : Z) : decimal_value (str_of_int n) = Some n.
Proof.
  unfold str_of_int. destruct n as [|p|p]; cbn [Z.to_int NilZero.string_of_int].
  - reflexivity.
  - destruct (uint_chars p) as [Hne Hv]. now apply decimal_value_of_digits.
  - destruct (uint_chars p) as [Hne Hv]. rewrite lit_String.
    change (N_of_ascii "-") with 45. unfold decimal_value. rewrite N.eqb_refl.
    destruct (lit (NilZero.string_of_uint (Pos.to_uint p))) as [|c t];
      [contradiction|].
    rewrite Hv. reflexivity.
Qed.

End NumeralFacts.

Module SpecBackendFacts.
Import SpecBackend.

Section Engine.
Variable HttpRequest : Type.
Variable Call : Type.
Variable rate_limit : pystr -> Realm -> bool * option spec_float.
Variable credential_authenticator :
  HttpRequest -> pystr -> pystr -> Realm -> Auth.auth_result * list Call.

Local Abbreviation backend :=
  (SpecBackend.authenticate HttpRequest Call rate_limit credential_authenticator).

Lemma authenticate_limited (request : HttpRequest) (username password : pystr)
    (realm : Realm) (secs : option spec_float) :
  rate_limit username realm = (true, secs) ->
  backend request username password realm
  = ({| Auth.auth_outcome := Raise (RateLimited secs);
        Auth.auth_return_data := ∅ |},
     [Consulted username realm]).
Proof. intros H. unfold SpecBackend.authenticate. now rewrite H. Qed.

(** When the limiter allows the attempt, the credential authenticator
    runs, and its calls follow the limiter's. *)
Lemma authenticate_delegates (request : HttpRequest) (username password : pystr)
    (realm : Realm) (secs : option spec_float) :
  rate_limit username realm = (false, secs) ->
  backend request username password realm
  = (fst (credential_authenticator request username password realm),
     Consulted username realm
     :: List.map Delegated
          (snd (credential_authenticator request username password realm))).
Proof.
  intros H. unfold SpecBackend.authenticate. rewrite H.
  now destruct (credential_authenticator request username password realm).
Qed.

End Engine.

(** carol is not rate limited: the identity is looked up and the password
    compared. *)
Example carol_is_compared :
  snd (Deployment.backend Scenario.at_acme (lit "carol@example.com")
         (lit "secret") Scenario.acme)
  = [Consulted (lit "carol@example.com") Scenario.acme;
     Delegated (Deployment.FindByEmail (lit "carol@example.com") Scenario.acme);
     Delegated (Deployment.Verify (lit "secret"))].
Proof. reflexivity. Qed.

End SpecBackendFacts.

Section RateLimitClaim.
Import Auth AuthFacts SpecBackend SpecBackendFacts.
Variable HttpRequest : Type.
Variable Call : Type.
Variable get_subdomain : HttpRequest -> pystr.
Variable get_realm : pystr -> result Realm.
Variable rate_limit : pystr -> Realm -> bool * option spec_float.
Variable credential_authenticator :
  HttpRequest -> pystr -> pystr -> Realm -> auth_result * list Call.
Variable invalid_login_message : pystr.
Variable username_verbose_name : pystr.
Variable confirm_login_allowed : UserProfile -> result unit.

Local Abbreviation backend :=
  (SpecBackend.authenticate HttpRequest Call rate_limit credential_authenticator).
Local Abbreviation clean :=
  (Auth.clean HttpRequest get_subdomain get_realm
     (fun request username password realm =>
        fst (backend request username password realm))
     invalid_login_message username_verbose_name confirm_login_allowed).
Local Abbreviation attempt := (Auth.attempt HttpRequest get_subdomain get_realm).

(** C1.  With the backend as the specification describes it (the rate
    limiter consulted first, then the credential authenticator), a login
    attempt for which the limiter reports limited, with a number of
    seconds, makes [clean] raise a [ValidationError] whose message is the
    rate-limit text around a decimal numeral of the integer part of the
    seconds.  The only call made for the attempt is the one to the
    limiter: the credential authenticator, and with it every identity
    lookup and password comparison, is not called.  No account-state check
    of [clean] takes part either: the run is the same whatever flags
    [return_data] holds and whatever [confirm_login_allowed] would
    answer; nothing is logged and no user is set. *)
Theorem clean_rate_limited_first (request : HttpRequest)
    (cleaned_data : gmap pystr pystr) (username password : pystr)
    (realm : Realm) (secs : spec_float) (n : Z) :
  attempt request cleaned_data username password realm ->
  rate_limit username realm = (true, Some secs) ->
  int_of_float secs = Ok n ->
  (exists digits : pystr,
     clean request cleaned_data
     = run (validation_error
              (lit "You're making too many attempts to sign in. Try again in "
               ++ digits
               ++ lit " seconds or contact your organization administrator for help."))
           None []
     /\ Numeral.decimal_value digits = Some n)
  /\ snd (backend request username password realm) = [Consulted username realm]
  /\ (forall c : Call,
        ~ In (Delegated c) (snd (backend request username password realm)))
  /\ (forall (return_data : gmap pystr pyval)
             (confirm : UserProfile -> result unit),
        Auth.clean HttpRequest get_subdomain get_realm
          (fun _ _ _ _ =>
             {| auth_outcome := Raise (RateLimited (Some secs));
                auth_return_data := return_data |})
          invalid_login_message username_verbose_name confirm
          request cleaned_data
        = clean request cleaned_data).
Proof.
  intros Hat Hlimited Hint.
  pose proof (authenticate_limited HttpRequest Call rate_limit
                credential_authenticator request username password realm
                (Some secs) Hlimited) as Hbackend.
  assert (clean request cleaned_data
          = run (validation_error (rate_limited_message n)) None []) as Hclean.
  { apply (clean_rate_limited_handler HttpRequest get_subdomain get_realm
             (fun request username password realm =>
                fst (backend request username password realm))
             invalid_login_message username_verbose_name
             confirm_login_allowed request cleaned_data username password
             realm secs n Hat); [|exact Hint].
    now rewrite Hbackend. }
  split; [|split; [|split]].
  - exists (str_of_int n). split; [exact Hclean|].
    apply NumeralFacts.decimal_value_str_of_int.
  - now rewrite Hbackend.
  - intros c. rewrite Hbackend. cbn [snd]. intros [H|[]]. discriminate H.
  - intros return_data confirm. rewrite Hclean.
    apply (clean_rate_limited_handler HttpRequest get_subdomain get_realm _
             invalid_login_message username_verbose_name confirm request
             cleaned_data username password realm secs n Hat);
      [reflexivity|exact Hint].
Qed.

End RateLimitClaim.

(** bob is refused for 90.5 seconds: the message says 90, and the limiter
    is the only thing that was called. *)
Lemma clean_rate_limited_first_witness :
  (exists digits : pystr,
     Auth.clean Scenario.Request Scenario.host_subdomain Scenario.get_realm
       (fun request username password realm =>
          fst (Deployment.backend request username password realm))
       Scenario.invalid_login_message (lit "email")
       Scenario.confirm_login_allowed Scenario.at_acme
       (Scenario.login_data "bob@example.com" "P@ssw0rd1")
     = Auth.run
         (validation_error
            (lit "You're making too many attempts to sign in. Try again in "
             ++ digits
             ++ lit " seconds or contact your organization administrator for help."))
         None []
     /\ Numeral.decimal_value digits = Some 90%Z)
  /\ snd (Deployment.backend Scenario.at_acme (lit "bob@example.com")
            (lit "P@ssw0rd1") Scenario.acme)
     = [SpecBackend.Consulted (lit "bob@example.com") Scenario.acme].
Proof.
  destruct (clean_rate_limited_first Scenario.Request Deployment.credential_call
              Scenario.host_subdomain Scenario.get_realm Deployment.rate_limit
              Deployment.credential_authenticator
              Scenario.invalid_login_message (lit "email")
              Scenario.confirm_login_allowed Scenario.at_acme
              (Scenario.login_data "bob@example.com" "P@ssw0rd1")
              (lit "bob@example.com") (lit "P@ssw0rd1") Scenario.acme
              Scenario.secs_90_5 90) as (Hmessage & Hcalls & _).
  - repeat split; try (vm_compute; reflexivity). vm_compute. discriminate.
  - reflexivity.
  - vm_compute. reflexivity.
  - split; [exact Hmessage|exact Hcalls].
Defined.

Lemma clean_inactive_realm_is_assertion_witness :
  Scenario.clean_with Scenario.inactive_realm_backend Scenario.at_acme
    (Scenario.login_data "bob@example.com" "P@ssw0rd1")
  = Auth.run (Raise (AssertionError
                       (lit "Programming error: inactive realm in authentication form")))
      None []
  /\ (forall message code params,
        Auth.returned (Scenario.clean_with Scenario.inactive_realm_backend
                         Scenario.at_acme
                         (Scenario.login_data "bob@example.com" "P@ssw0rd1"))
        <> Raise (ValidationError message code params)).
Proof.
  apply (clean_inactive_realm_is_assertion Scenario.Request
           Scenario.host_subdomain Scenario.get_realm
           Scenario.inactive_realm_backend Scenario.invalid_login_message
           (lit "email") Scenario.confirm_login_allowed Scenario.at_acme
           (Scenario.login_data "bob@example.com" "P@ssw0rd1")
           (lit "bob@example.com") (lit "P@ssw0rd1") Scenario.acme None).
  - repeat split; try (vm_compute; reflexivity). vm_compute. discriminate.
  - reflexivity.
  - vm_compute. reflexivity.
Defined.

(** carol is deactivated and dummy is a deactivated mirror dummy: the first
    gets the deactivated-account error, the second the error of a wrong
    password. *)
Lemma clean_inactive_user_witness :
  Scenario.clean_with Scenario.backend Scenario.at_acme
    (Scenario.login_data "carol@example.com" "secret")
  = Auth.run (validation_error (mark_safe DEACTIVATED_ACCOUNT_ERROR)) None []
  /\ Scenario.clean_with Scenario.backend Scenario.at_acme
       (Scenario.login_data "dummy@example.com" "secret")
     = Auth.run (Raise (ValidationError Scenario.invalid_login_message
                          (Some (lit "invalid_login"))
                          [(lit "username", lit "email")]))
         None [].
Proof.
  split.
  - apply (clean_inactive_user Scenario.Request Scenario.host_subdomain
             Scenario.get_realm Scenario.backend Scenario.invalid_login_message
             (lit "email") Scenario.confirm_login_allowed Scenario.at_acme
             (Scenario.login_data "carol@example.com" "secret")
             (lit "carol@example.com") (lit "secret") Scenario.acme None).
    + repeat split; try (vm_compute; reflexivity). vm_compute. discriminate.
    + vm_compute. reflexivity.
    + vm_compute. reflexivity.
    + vm_compute. reflexivity.
    + vm_compute. reflexivity.
    + vm_compute. reflexivity.
  - apply (clean_inactive_user Scenario.Request Scenario.host_subdomain
             Scenario.get_realm Scenario.backend Scenario.invalid_login_message
             (lit "email") Scenario.confirm_login_allowed Scenario.at_acme
             (Scenario.login_data "dummy@example.com" "secret")
             (lit "dummy@example.com") (lit "secret") Scenario.acme None).
    + repeat split; try (vm_compute; reflexivity). vm_compute. discriminate.
    + vm_compute. reflexivity.
    + vm_compute. reflexivity.
    + vm_compute. reflexivity.
    + vm_compute. reflexivity.
    + vm_compute. reflexivity.
    + vm_compute. reflexivity.
    + reflexivity.
Defined.

Lemma clean_wrong_subdomain_witness :
  exists (entry : LogRecord) (message : pystr),
    Scenario.clean_with Scenario.backend Scenario.at_other
      (Scenario.login_data "bob@example.com" "P@ssw0rd1")
    = Auth.run (validation_error (mark_safe WRONG_SUBDOMAIN_ERROR)) None [Log entry]
    /\ levelname entry = WARNING
    /\ log_args entry = [lit "bob@example.com"; lit "other"]
    /\ getMessage entry = Some message
    /\ message = lit "User " ++ lit "bob@example.com"
                 ++ lit " attempted password login to wrong subdomain "
                 ++ lit "other"
    /\ contains (lit "bob@example.com") message = true
    /\ contains (lit "other") message = true.
Proof.
  apply (clean_wrong_subdomain Scenario.Request Scenario.host_subdomain
           Scenario.get_realm Scenario.backend Scenario.invalid_login_message
           (lit "email") Scenario.confirm_login_allowed Scenario.at_other
           (Scenario.login_data "bob@example.com" "P@ssw0rd1")
           (lit "bob@example.com") (lit "P@ssw0rd1") Scenario.other None).
  - repeat split; try (vm_compute; reflexivity). vm_compute. discriminate.
  - vm_compute. reflexivity.
  - vm_compute. reflexivity.
  - vm_compute. reflexivity.
  - vm_compute. reflexivity.
  - vm_compute. reflexivity.
Defined.

(** C4, as stated, fails.  bob belongs to the realm [acme] and logs in at
    [other]: the outcome is the wrong-subdomain error, and no warning that
    was logged contains the user name and both subdomain names ([acme] is
    in none of them). *)
Lemma wrong_subdomain_log_omits_home_realm :
  let r := Scenario.clean_with Scenario.backend Scenario.at_other
             (Scenario.login_data "bob@example.com" "P@ssw0rd1") in
  user_realm Scenario.bob = Scenario.acme
  /\ Auth.returned r = validation_error (mark_safe WRONG_SUBDOMAIN_ERROR)
  /\ ~ (exists (entry : LogRecord) (message : pystr),
          In (Log entry) (Auth.effects r)
          /\ levelname entry = WARNING
          /\ getMessage entry = Some message
          /\ contains (lit "bob@example.com") message = true
          /\ contains (string_id Scenario.other) message = true
          /\ contains (string_id (user_realm Scenario.bob)) message = true).
Proof.
  intros r. split; [reflexivity|]. split; [vm_compute; reflexivity|].
  intros (entry & message & Hin & _ & Hmsg & _ & _ & Hhome).
  assert (Auth.effects r
          = [Log {| levelname := WARNING;
                    log_msg := lit "User %s attempted password login to wrong subdomain %s";
                    log_args := [lit "bob@example.com"; lit "other"] |}]) as E
    by (vm_compute; reflexivity).
  rewrite E in Hin. destruct Hin as [[= <-]|[]].
  rewrite AuthFacts.wrong_subdomain_message in Hmsg.
  injection Hmsg as <-. vm_compute in Hhome. discriminate Hhome.
Qed.

(** ** The password-reset dispatch *)
Module PasswordResetFacts.
Import PasswordReset.

(** The keys of the email context are distinct strings. *)
Ltac context_lookup :=
  unfold dict_get;
  repeat first
    [ rewrite lookup_insert_eq
    | rewrite lookup_insert_ne by (vm_compute; discriminate)
    | rewrite lookup_empty ];
  try reflexivity.

Section Dispatcher.
Variable HttpRequest : Type.
Variable get_subdomain : HttpRequest -> pystr.
Variable LANGUAGE_CODE : HttpRequest -> pystr.
Variable get_realm : pystr -> result Realm.
Variable email_auth_enabled : Realm -> bool.
Variable email_belongs_to_ldap : Realm -> pystr -> bool.
Variable RATE_LIMITING : bool.
Variable password_reset_form_by_email : list (Z * Z).
Variable Store : Type.
Variable rate_limit :
  pystr -> list (Z * Z) -> Store -> (bool * spec_float) * Store.
Variable get_user_by_delivery_email : pystr -> Realm -> option UserProfile.
Variable active_accounts_iexact : pystr -> list UserProfile.
Variable make_token : UserProfile -> pystr.
Variable urlsafe_base64_encode : pystr -> pystr.
Variable reverse : pystr -> pystr -> pystr -> pystr.
Variable security_email_from_name_user : UserProfile -> pystr.
Variable security_email_from_name_language : pystr -> pystr.
Variable tokenized_no_reply_address : pystr.

Local Abbreviation save :=
  (PasswordReset.save HttpRequest get_subdomain LANGUAGE_CODE get_realm
     email_auth_enabled email_belongs_to_ldap RATE_LIMITING
     password_reset_form_by_email Store rate_limit
     get_user_by_delivery_email active_accounts_iexact make_token
     urlsafe_base64_encode reverse security_email_from_name_user
     security_email_from_name_language tokenized_no_reply_address).
Local Abbreviation dispatch :=
  (PasswordReset.dispatch HttpRequest LANGUAGE_CODE
     get_user_by_delivery_email active_accounts_iexact make_token
     urlsafe_base64_encode reverse security_email_from_name_user
     security_email_from_name_language tokenized_no_reply_address).
Local Abbreviation limiter :=
  (PasswordReset.rate_limit_password_reset_form_by_email
     password_reset_form_by_email Store rate_limit).
Local Abbreviation not_found :=
  (account_not_found_email LANGUAGE_CODE security_email_from_name_language
     tokenized_no_reply_address).
Local Abbreviation limited :=
  (PasswordReset.limited password_reset_form_by_email Store rate_limit).
Local Abbreviation store_after :=
  (PasswordReset.store_after password_reset_form_by_email Store rate_limit).
Local Abbreviation passes_gates :=
  (PasswordReset.passes_gates HttpRequest get_subdomain get_realm
     email_auth_enabled email_belongs_to_ldap RATE_LIMITING
     password_reset_form_by_email Store rate_limit).

Lemma limiter_spec email st :
  limiter email st
  = (if limited email st then Raise (RateLimited None) else Ok tt,
     store_after email st).
Proof.
  unfold rate_limit_password_reset_form_by_email, limited, store_after.
  unfold RateLimitedPasswordResetByEmail.rules.
  destruct (rate_limit _ _ st) as [[ratelimited secs] st'].
  reflexivity.
Qed.

(** [save] does not handle the exception of [get_realm]: it passes through,
    before any gate is tried. *)
Lemma save_unknown_realm email request st e :
  get_realm (get_subdomain request) = Raise e ->
  save email request st
  = {| returned := Raise e; effects := []; store := st |}.
Proof. intros Hr. unfold PasswordReset.save. now rewrite Hr. Qed.

Lemma save_passes_gates email request realm st :
  passes_gates email request realm st ->
  returned _ (save email request st) = Ok tt
  /\ effects _ (save email request st) = dispatch email request realm.
Proof.
  intros (Hr & Ha & Hl & Hd & Hlim). unfold PasswordReset.save.
  rewrite Hr, Ha, Hl, Hd. cbn [negb].
  destruct RATE_LIMITING.
  - destruct Hlim as [Hlim|Hlim]; [discriminate|].
    rewrite limiter_spec, Hlim. auto.
  - auto.
Qed.

Lemma dispatch_not_found email request realm :
  get_user_by_delivery_email email realm = None ->
  exists e, dispatch email request realm = [SendEmail e]
            /\ not_found email request realm e
            /\ dict_get (context e) (lit "user_deactivated") = None.
Proof.
  intros Hu. unfold PasswordReset.dispatch. rewrite Hu.
  eexists. split; [reflexivity|].
  destruct (active_accounts_iexact email);
    (split; [constructor|]); cbn [context template_prefix to_emails
      to_user_ids language from_name from_address email_realm];
    context_lookup.
Qed.

Lemma dispatch_deactivated email request realm u :
  get_user_by_delivery_email email realm = Some u ->
  is_active u = false ->
  exists e, dispatch email request realm = [SendEmail e]
            /\ not_found email request realm e
            /\ dict_get (context e) (lit "user_deactivated")
               = Some (CBool true).
Proof.
  intros Hu Hact. unfold PasswordReset.dispatch. rewrite Hu, Hact.
  cbn [negb]. eexists. split; [reflexivity|].
  destruct (active_accounts_iexact email);
    (split; [constructor|]); cbn [context template_prefix to_emails
      to_user_ids language from_name from_address email_realm];
    context_lookup.
Qed.

Lemma dispatch_active email request realm u :
  get_user_by_delivery_email email realm = Some u ->
  is_active u = true ->
  exists e, dispatch email request realm = [SendEmail e]
            /\ reset_link_email u
                 (PasswordReset.generate_password_reset_url make_token
                    urlsafe_base64_encode reverse u) e.
Proof.
  intros Hu Hact. unfold PasswordReset.dispatch. rewrite Hu, Hact.
  cbn [negb]. eexists. split; [reflexivity|].
  constructor; cbn [context template_prefix to_emails to_user_ids language];
    context_lookup.
Qed.

(** Past the gates exactly one email goes out, whoever the address is. *)
Lemma dispatch_sends_one email request realm :
  exists e, dispatch email request realm = [SendEmail e].
Proof.
  destruct (get_user_by_delivery_email email realm) as [u|] eqn:Hu.
  - destruct (is_active u) eqn:Hact.
    + destruct (dispatch_active email request realm u Hu Hact) as (e & He & _).
      eauto.
    + destruct (dispatch_deactivated email request realm u Hu Hact)
        as (e & He & _).
      eauto.
  - destruct (dispatch_not_found email request realm Hu) as (e & He & _).
    eauto.
Qed.

End Dispatcher.

End PasswordResetFacts.

Section PasswordResetClaims.
Import PasswordReset PasswordResetFacts.
Variable HttpRequest : Type.
Variable get_subdomain : HttpRequest -> pystr.
Variable LANGUAGE_CODE : HttpRequest -> pystr.
Variable get_realm : pystr -> result Realm.
Variable email_auth_enabled : Realm -> bool.
Variable email_belongs_to_ldap : Realm -> pystr -> bool.
Variable RATE_LIMITING : bool.
Variable password_reset_form_by_email : list (Z * Z).
Variable Store : Type.
Variable rate_limit :
  pystr -> list (Z * Z) -> Store -> (bool * spec_float) * Store.
Variable get_user_by_delivery_email : pystr -> Realm -> option UserProfile.
Variable active_accounts_iexact : pystr -> list UserProfile.
Variable make_token : UserProfile -> pystr.
Variable urlsafe_base64_encode : pystr -> pystr.
Variable reverse : pystr -> pystr -> pystr -> pystr.
Variable security_email_from_name_user : UserProfile -> pystr.
Variable security_email_from_name_language : pystr -> pystr.
Variable tokenized_no_reply_address : pystr.

Local Abbreviation save :=
  (PasswordReset.save HttpRequest get_subdomain LANGUAGE_CODE get_realm
     email_auth_enabled email_belongs_to_ldap RATE_LIMITING
     password_reset_form_by_email Store rate_limit
     get_user_by_delivery_email active_accounts_iexact make_token
     urlsafe_base64_encode reverse security_email_from_name_user
     security_email_from_name_language tokenized_no_reply_address).
Local Abbreviation passes_gates :=
  (PasswordReset.passes_gates HttpRequest get_subdomain get_realm
     email_auth_enabled email_belongs_to_ldap RATE_LIMITING
     password_reset_form_by_email Store rate_limit).
Local Abbreviation limited :=
  (PasswordReset.limited password_reset_form_by_email Store rate_limit).
Local Abbreviation store_after :=
  (PasswordReset.store_after password_reset_form_by_email Store rate_limit).
Local Abbreviation not_found :=
  (account_not_found_email LANGUAGE_CODE security_email_from_name_language
     tokenized_no_reply_address).
Local Abbreviation reset_url :=
  (PasswordReset.generate_password_reset_url make_token urlsafe_base64_encode
     reverse).

(** C6.  For a dispatch that passes the four gates: when the realm has
    no account for the submitted address, and when it has one that is
    deactivated, exactly one email is sent, and it is the "account not
    found" email in both cases: to the submitted address, to no user id,
    in the language of the request, without a reset link.  When the
    account is found and active, the one email sent is the reset-link
    email, addressed by the user's id.  A reset-link email is sent only
    in that last case. *)
Theorem password_reset_same_shape (email : pystr) (request : HttpRequest)
    (realm : Realm) (st : Store) :
  passes_gates email request realm st ->
  (get_user_by_delivery_email email realm = None
   \/ (exists u, get_user_by_delivery_email email realm = Some u
                 /\ is_active u = false) ->
   exists e, effects _ (save email request st) = [SendEmail e]
             /\ not_found email request realm e)
  /\ (forall u, get_user_by_delivery_email email realm = Some u ->
                is_active u = true ->
                exists e, effects _ (save email request st) = [SendEmail e]
                          /\ reset_link_email u (reset_url u) e)
  /\ (forall e u url,
        In (SendEmail e) (effects _ (save email request st)) ->
        reset_link_email u url e ->
        exists u', get_user_by_delivery_email email realm = Some u'
                   /\ is_active u' = true).
Proof.
  intros Hgates.
  destruct (save_passes_gates HttpRequest get_subdomain LANGUAGE_CODE
              get_realm email_auth_enabled email_belongs_to_ldap
              RATE_LIMITING password_reset_form_by_email Store rate_limit
              get_user_by_delivery_email active_accounts_iexact make_token
              urlsafe_base64_encode reverse security_email_from_name_user
              security_email_from_name_language tokenized_no_reply_address
              email request realm st Hgates) as [_ ->].
  split; [|split].
  - intros [Hnone|(u & Hu & Hact)].
    + destruct (dispatch_not_found _ LANGUAGE_CODE _ active_accounts_iexact
                  make_token urlsafe_base64_encode reverse
                  security_email_from_name_user
                  security_email_from_name_language
                  tokenized_no_reply_address email request realm Hnone)
        as (e & He & Hshape & _).
      eauto.
    + destruct (dispatch_deactivated _ LANGUAGE_CODE _ active_accounts_iexact
                  make_token urlsafe_base64_encode reverse
                  security_email_from_name_user
                  security_email_from_name_language
                  tokenized_no_reply_address email request realm u Hu Hact)
        as (e & He & Hshape & _).
      eauto.
  - intros u Hu Hact.
    apply (dispatch_active _ LANGUAGE_CODE _ active_accounts_iexact _ _ _
             security_email_from_name_user security_email_from_name_language
             tokenized_no_reply_address email request realm u Hu Hact).
  - intros e u url Hin Hlink.
    destruct (get_user_by_delivery_email email realm) as [u'|] eqn:Hu.
    + destruct (is_active u') eqn:Hact; [eauto|].
      destruct (dispatch_deactivated _ LANGUAGE_CODE _ active_accounts_iexact
                  make_token urlsafe_base64_encode reverse
                  security_email_from_name_user
                  security_email_from_name_language
                  tokenized_no_reply_address email request realm u' Hu Hact)
        as (e' & He & Hshape & _).
      rewrite He in Hin. destruct Hin as [[= <-]|[]].
      destruct Hshape, Hlink. congruence.
    + destruct (dispatch_not_found _ LANGUAGE_CODE _ active_accounts_iexact
                  make_token urlsafe_base64_encode reverse
                  security_email_from_name_user
                  security_email_from_name_language
                  tokenized_no_reply_address email request realm Hu)
        as (e' & He & Hshape & _).
      rewrite He in Hin. destruct Hin as [[= <-]|[]].
      destruct Hshape, Hlink. congruence.
Qed.

(** C7, as amended.  When the request's subdomain names a realm, [save] returns
    [None] and raises nothing, on every path.  The gates are tried in
    this order: password authentication disabled for the realm, address
    in the LDAP domain, realm deactivated, rate limit exceeded.  At the
    first gate that applies [save] stops, having written one log entry
    and sent no email (the first three without consulting the limiter);
    when none applies, one email is sent and the return value is the
    same. *)
Theorem save_early_exits (email : pystr) (request : HttpRequest)
    (realm : Realm) (st : Store) :
  get_realm (get_subdomain request) = Ok realm ->
  returned _ (save email request st) = Ok tt
  /\ (email_auth_enabled realm = false ->
      effects _ (save email request st)
      = [info (lit "Password reset attempted for %s even though password auth is disabled.")
              [email]]
      /\ store _ (save email request st) = st)
  /\ (email_auth_enabled realm = true ->
      email_belongs_to_ldap realm email = true ->
      effects _ (save email request st)
      = [info (lit "Password reset not allowed for user in LDAP domain") []]
      /\ store _ (save email request st) = st)
  /\ (email_auth_enabled realm = true ->
      email_belongs_to_ldap realm email = false ->
      realm_deactivated realm = true ->
      effects _ (save email request st)
      = [info (lit "Realm is deactivated") []]
      /\ store _ (save email request st) = st)
  /\ (email_auth_enabled realm = true ->
      email_belongs_to_ldap realm email = false ->
      realm_deactivated realm = false ->
      RATE_LIMITING = true ->
      limited email st = true ->
      effects _ (save email request st)
      = [info (lit "Too many password reset attempts for email %s") [email]]
      /\ store _ (save email request st) = store_after email st)
  /\ (passes_gates email request realm st ->
      exists e, effects _ (save email request st) = [SendEmail e]).
Proof.
  intros Hr. split; [|split; [|split; [|split; [|split]]]].
  - unfold PasswordReset.save. rewrite Hr.
    destruct (email_auth_enabled realm); [|reflexivity]. cbn [negb].
    destruct (email_belongs_to_ldap realm email); [reflexivity|].
    destruct (realm_deactivated realm); [reflexivity|].
    destruct RATE_LIMITING; [|reflexivity].
    rewrite limiter_spec. destruct (limited email st); reflexivity.
  - intros Ha. unfold PasswordReset.save. rewrite Hr, Ha. auto.
  - intros Ha Hl. unfold PasswordReset.save. rewrite Hr, Ha, Hl. auto.
  - intros Ha Hl Hd. unfold PasswordReset.save. rewrite Hr, Ha, Hl, Hd. auto.
  - intros Ha Hl Hd Hrl Hlim. unfold PasswordReset.save.
    rewrite Hr, Ha, Hl, Hd, Hrl. cbn [negb].
    rewrite limiter_spec, Hlim. auto.
  - intros Hgates.
    destruct (save_passes_gates HttpRequest get_subdomain LANGUAGE_CODE
                get_realm email_auth_enabled email_belongs_to_ldap
                RATE_LIMITING password_reset_form_by_email Store rate_limit
                get_user_by_delivery_email active_accounts_iexact make_token
                urlsafe_base64_encode reverse security_email_from_name_user
                security_email_from_name_language tokenized_no_reply_address
                email request realm st Hgates) as [_ ->].
    apply dispatch_sends_one.
Qed.

(** C8, as amended.  The rate-limit key of the password-reset form is the
    class name, a colon and the submitted address exactly as submitted:
    two addresses share a key exactly when they are the same string.
    [rate_limit_password_reset_form_by_email] raises [RateLimited]
    exactly when the limiter reports that key limited under the
    password-reset rules, and leaves the store as the limiter left it. *)
Theorem password_reset_rate_limit_key (email : pystr) (st : Store) :
  RateLimitedPasswordResetByEmail.key
    {| RateLimitedPasswordResetByEmail.email := email |}
  = lit "RateLimitedPasswordResetByEmail:" ++ email
  /\ (forall other : pystr,
        RateLimitedPasswordResetByEmail.key
          {| RateLimitedPasswordResetByEmail.email := email |}
        = RateLimitedPasswordResetByEmail.key
            {| RateLimitedPasswordResetByEmail.email := other |}
        <-> email = other)
  /\ (fst (rate_limit_password_reset_form_by_email
             password_reset_form_by_email Store rate_limit email st)
      = Raise (RateLimited None)
      <-> limited email st = true)
  /\ (limited email st = false ->
      fst (rate_limit_password_reset_form_by_email
             password_reset_form_by_email Store rate_limit email st)
      = Ok tt)
  /\ snd (rate_limit_password_reset_form_by_email
            password_reset_form_by_email Store rate_limit email st)
     = store_after email st.
Proof.
  split; [reflexivity|]. split; [|rewrite limiter_spec; cbn [fst snd]].
  - intros other. split; [|now intros ->].
    unfold RateLimitedPasswordResetByEmail.key. cbn.
    intros H. now repeat (injection H as H).
  - split; [|split; [|reflexivity]].
    + destruct (limited email st); split; (reflexivity || discriminate).
    + now intros ->.
Qed.

End PasswordResetClaims.

Lemma password_reset_same_shape_witness :
  exists e,
    PasswordReset.effects _
      (Scenario.save_with true false true (lit "nobody@example.com")
         Scenario.at_acme ∅)
    = [SendEmail e]
    /\ PasswordReset.account_not_found_email Scenario.language_code
         Scenario.from_name_language Scenario.no_reply
         (lit "nobody@example.com") Scenario.at_acme Scenario.acme e.
Proof.
  unfold Scenario.save_with.
  eapply password_reset_same_shape.
  - repeat split; try (vm_compute; reflexivity).
    right. vm_compute. reflexivity.
  - left. vm_compute. reflexivity.
Defined.

(** C7, as stated, fails: the subdomain of the request names no realm, and
    [save] raises [Realm.DoesNotExist] instead of returning. *)
Lemma save_raises_for_unknown_realm :
  let r := Scenario.save_with true false true (lit "bob@example.com")
             {| Scenario.host_subdomain := lit "nowhere";
                Scenario.language_code := lit "en" |} ∅ in
  PasswordReset.returned _ r = Raise (DoesNotExist (lit "Realm"))
  /\ PasswordReset.returned _ r <> Ok tt
  /\ PasswordReset.effects _ r = [].
Proof.
  intros r. split; [vm_compute; reflexivity|].
  split; [vm_compute; discriminate|vm_compute; reflexivity].
Qed.

(** Password authentication is off for the realm: one log entry, no
    email, the store untouched, and [None] returned. *)
Lemma save_early_exits_witness :
  let r := Scenario.save_with false false true (lit "bob@example.com")
             Scenario.at_acme ∅ in
  PasswordReset.returned _ r = Ok tt
  /\ PasswordReset.effects _ r
     = [PasswordReset.info
          (lit "Password reset attempted for %s even though password auth is disabled.")
          [lit "bob@example.com"]]
  /\ PasswordReset.store _ r = ∅.
Proof.
  intros r.
  destruct (save_early_exits Scenario.Request Scenario.host_subdomain
              Scenario.language_code Scenario.get_realm (fun _ => false)
              (fun _ _ => false) true Scenario.rules Scenario.Store
              Scenario.rate_limit Scenario.get_user_by_delivery_email
              Scenario.active_accounts_iexact Scenario.make_token
              Scenario.urlsafe_base64_encode Scenario.reverse
              Scenario.from_name_user Scenario.from_name_language
              Scenario.no_reply (lit "bob@example.com") Scenario.at_acme
              Scenario.acme ∅)
    as (Hret & Hgate & _).
  - vm_compute. reflexivity.
  - split; [exact Hret|]. apply Hgate. reflexivity.
Defined.

(** The sixth attempt within the window is refused: five emails, then a
    log entry only. *)
Example six_reset_attempts :
  List.map Scenario.sent_email
    (Scenario.reset_attempts 6 (lit "bob@example.com") ∅)
  = [true; true; true; true; true; false]
  /\ List.map (PasswordReset.returned _)
       (Scenario.reset_attempts 6 (lit "bob@example.com") ∅)
     = List.repeat (Ok tt) 6.
Proof. split; vm_compute; reflexivity. Qed.

(** C8, as stated, fails: two case variants of one address have different
    keys, so they are counted apart. *)
Lemma password_reset_key_is_case_sensitive :
  RateLimitedPasswordResetByEmail.key
    {| RateLimitedPasswordResetByEmail.email := lit "Bob@x.com" |}
  <> RateLimitedPasswordResetByEmail.key
       {| RateLimitedPasswordResetByEmail.email := lit "bob@x.com" |}.
Proof. vm_compute. discriminate. Qed.

Lemma password_reset_rate_limit_key_witness :
  RateLimitedPasswordResetByEmail.key
    {| RateLimitedPasswordResetByEmail.email := lit "bob@x.com" |}
  = lit "RateLimitedPasswordResetByEmail:bob@x.com"
  /\ fst (PasswordReset.rate_limit_password_reset_form_by_email
            Scenario.rules Scenario.Store Scenario.rate_limit (lit "bob@x.com") ∅)
     = Ok tt.
Proof.
  pose proof (password_reset_rate_limit_key Scenario.rules Scenario.Store
                Scenario.rate_limit (lit "bob@x.com") ∅)
    as (Hkey & _ & _ & Hok & _).
  split.
  - exact Hkey.
  - apply Hok. vm_compute. reflexivity.
Defined.

(** * Further properties *)

(** ** More on subdomain availability *)
Module SubdomainMore.
Import Subdomain.

Lemma at_dollar_spec (s : pystr) : at_dollar s = true <-> s = [] \/ s = [10].
Proof.
  split.
  - destruct s as [|c [|d t]]; [auto| |].
    + destruct c as [|p]; [discriminate|].
      repeat (destruct p as [p|p|]; try discriminate). auto.
    + destruct c as [|p]; [discriminate|].
      repeat (destruct p as [p|p|]; try discriminate).
  - intros [->| ->]; reflexivity.
Qed.

(** [^[a-z0-9-]*$] matches the strings of class characters, and those
    followed by one final newline. *)
Lemma re_match_spec (s : pystr) :
  re_match s = true
  <-> forallb in_class s = true
      \/ exists s', s = s' ++ [10] /\ forallb in_class s' = true.
Proof.
  induction s as [|c s IH].
  - simpl. split; auto.
  - change (re_match (c :: s)) with (at_dollar (c :: s) || (in_class c && re_match s)).
    rewrite orb_true_iff, andb_true_iff, at_dollar_spec, IH. simpl forallb.
    rewrite andb_true_iff. split.
    + intros [[H|H]|[Hc [Hs|(s' & -> & Hs')]]]; try discriminate.
      * injection H as -> ->. right. exists []. auto.
      * auto.
      * right. exists (c :: s'). simpl. rewrite Hc, Hs'. auto.
    + intros [[Hc Hs]|(s' & Heq & Hs')]; [auto|].
      destruct s' as [|d s'].
      * injection Heq as -> ->. left. right. reflexivity.
      * injection Heq as -> ->. simpl in Hs'.
        apply andb_true_iff in Hs' as [Hd Hs']. right. eauto 6.
Qed.

Lemma index_last_spec (s : pystr) :
  index_last s = match last s with Some c => Ok c | None => Raise IndexError end.
Proof.
  unfold index_last. rewrite <- PyFacts.head_rev.
  destruct (List.rev s); reflexivity.
Qed.

Lemma realm_exists_spec (realms : list Realm) (s : pystr) :
  realm_exists realms s = true <-> exists r, In r realms /\ string_id r = s.
Proof.
  unfold realm_exists. rewrite existsb_exists. unfold str_eqb.
  split; intros (r & Hin & Hr); exists r; split; auto.
  - now apply bool_decide_eq_true_1 in Hr.
  - now apply bool_decide_eq_true_2.
Qed.

Section Validator.
Variable gettext : pystr -> pystr.
Variable SUBDOMAIN_FOR_ROOT_DOMAIN : pystr.
Variable is_root_domain_available : bool.
Variable realms : list Realm.
Variable is_reserved_subdomain : pystr -> bool.

Local Abbreviation check :=
  (check_subdomain_available gettext SUBDOMAIN_FOR_ROOT_DOMAIN
     is_root_domain_available realms is_reserved_subdomain).

(** The checks on a string that is not the sentinel, one after the other. *)
Lemma check_other (subdomain : pystr) (allow : bool) :
  subdomain <> SUBDOMAIN_FOR_ROOT_DOMAIN ->
  check subdomain allow
  = match head subdomain, last subdomain with
    | Some first, Some final =>
        if (first =? 45) || (final =? 45)
        then validation_error (gettext (error_text extremal_dash))
        else if negb (re_match subdomain)
        then validation_error (gettext (error_text bad_character))
        else if (len subdomain <? 3)%Z
        then validation_error (gettext (error_text too_short))
        else if realm_exists realms subdomain
        then validation_error (gettext (error_text unavailable))
        else if is_reserved_subdomain subdomain && negb allow
        then validation_error (gettext (error_text unavailable))
        else Ok tt
    | _, _ => Raise IndexError
    end.
Proof.
  intros Hne. unfold check_subdomain_available, str_eqb.
  rewrite bool_decide_eq_false_2 by exact Hne.
  rewrite index_last_spec.
  destruct subdomain as [|c s]; [reflexivity|].
  cbn [index_first head mbind result_bind bind].
  destruct (last (c :: s)) as [d|] eqn:Hlast.
  - destruct (c =? 45); cbn [mbind result_bind bind orb]; [reflexivity|].
    destruct (d =? 45); reflexivity.
  - apply last_None in Hlast. discriminate.
Qed.

Lemma check_accepts (subdomain : pystr) (allow : bool) :
  subdomain <> SUBDOMAIN_FOR_ROOT_DOMAIN ->
  (check subdomain allow = Ok tt
   <-> (exists first final,
          head subdomain = Some first /\ last subdomain = Some final
          /\ first <> 45 /\ final <> 45)
       /\ re_match subdomain = true
       /\ (3 <= len subdomain)%Z
       /\ realm_exists realms subdomain = false
       /\ (is_reserved_subdomain subdomain = true -> allow = true)).
Proof.
  intros Hne. rewrite (check_other _ _ Hne).
  destruct (head subdomain) as [first|]; [|split; [discriminate|intros ((? & ? & ? & _) & _); discriminate]].
  destruct (last subdomain) as [final|]; [|split; [discriminate|intros ((? & ? & _ & ? & _) & _); discriminate]].
  destruct (N.eqb_spec first 45) as [->|Hf]; cbn [orb].
  { split; [discriminate|]. intros ((? & ? & [= <-] & _ & H & _) & _). congruence. }
  destruct (N.eqb_spec final 45) as [->|Hl].
  { split; [discriminate|]. intros ((? & ? & _ & [= <-] & _ & H) & _). congruence. }
  destruct (re_match subdomain); cbn [negb].
  2:{ split; [discriminate|]. intros (_ & ? & _). discriminate. }
  destruct (Z.ltb_spec (len subdomain) 3) as [Hlt|Hge].
  { split; [discriminate|]. intros (_ & _ & ? & _). lia. }
  destruct (realm_exists realms subdomain).
  { split; [discriminate|]. intros (_ & _ & _ & ? & _). discriminate. }
  destruct (is_reserved_subdomain subdomain), allow; cbn [andb negb].
  - split; [|reflexivity]. intros _. repeat split; eauto 8.
  - split; [discriminate|]. intros (_ & _ & _ & _ & H). specialize (H eq_refl). discriminate.
  - split; [|reflexivity]. intros _. repeat split; eauto 8; intros; discriminate.
  - split; [|reflexivity]. intros _. repeat split; eauto 8; intros; discriminate.
Qed.

End Validator.

End SubdomainMore.

Section SubdomainExtras.
Import Subdomain SubdomainMore.
Variable gettext : pystr -> pystr.
Variable SUBDOMAIN_FOR_ROOT_DOMAIN : pystr.
Variable is_root_domain_available : bool.
Variable realms : list Realm.
Variable is_reserved_subdomain : pystr -> bool.

Local Abbreviation check :=
  (check_subdomain_available gettext SUBDOMAIN_FOR_ROOT_DOMAIN
     is_root_domain_available realms is_reserved_subdomain).

(** X1.  A string other than the root-domain sentinel is accepted by
    [check_subdomain_available] exactly when it has at least 3 characters,
    neither starts nor ends with ['-'], consists of characters of
    [[a-z0-9-]] (with at most one newline after them, at the very end), is
    the [string_id] of no realm, and is not reserved unless reserved names
    are allowed. *)
Theorem accepted_subdomain_is_well_formed (subdomain : pystr) (allow : bool) :
  subdomain <> SUBDOMAIN_FOR_ROOT_DOMAIN ->
  (check subdomain allow = Ok tt
   <-> (3 <= len subdomain)%Z
       /\ head subdomain <> Some 45
       /\ last subdomain <> Some 45
       /\ (forallb in_class subdomain = true
           \/ exists s', subdomain = s' ++ [10] /\ forallb in_class s' = true)
       /\ (forall r, In r realms -> string_id r <> subdomain)
       /\ (is_reserved_subdomain subdomain = true -> allow = true)).
Proof.
  intros Hne.
  rewrite (check_accepts gettext _ is_root_domain_available realms
             is_reserved_subdomain subdomain allow Hne).
  rewrite re_match_spec. split.
  - intros ((first & final & Hh & Hl & Hf & Hfin) & Hre & Hlen & Hex & Hres).
    repeat split; auto.
    + rewrite Hh. intros [= E]. contradiction.
    + rewrite Hl. intros [= E]. contradiction.
    + intros r Hin Hr.
      assert (realm_exists realms subdomain = true) as E
        by (apply realm_exists_spec; eauto).
      congruence.
  - intros (Hlen & Hh & Hl & Hre & Hex & Hres).
    repeat split; auto.
    + destruct subdomain as [|c s]; [unfold len in Hlen; simpl in Hlen; lia|].
      destruct (last (c :: s)) as [d|] eqn:Hlast.
      * exists c, d. split; [reflexivity|]. split; [reflexivity|].
        split; intros ->; [apply Hh|apply Hl]; reflexivity.
      * apply last_None in Hlast. discriminate.
    + destruct (realm_exists realms subdomain) eqn:E; [|reflexivity].
      apply realm_exists_spec in E as (r & Hin & Hr).
      exfalso. exact (Hex r Hin Hr).
Qed.

(** X2.  [$] also matches before a final newline, so a name that ends with
    a newline passes the character check: class characters (at least 2,
    not starting with ['-']) followed by one newline are accepted when the
    result is no existing or reserved name, even when the character before
    the newline is ['-']. *)
Theorem subdomain_with_final_newline_accepted (s : pystr) (allow : bool) :
  forallb in_class s = true ->
  (2 <= len s)%Z ->
  head s <> Some 45 ->
  s ++ [10] <> SUBDOMAIN_FOR_ROOT_DOMAIN ->
  (forall r, In r realms -> string_id r <> s ++ [10]) ->
  is_reserved_subdomain (s ++ [10]) = false ->
  check (s ++ [10]) allow = Ok tt.
Proof.
  intros Hclass Hlen Hhead Hne Hex Hres.
  apply (check_accepts gettext _ is_root_domain_available realms
           is_reserved_subdomain _ allow Hne).
  split; [|split; [|split; [|split]]].
  - destruct s as [|c s]; [unfold len in Hlen; simpl in Hlen; lia|].
    exists c, 10. rewrite last_snoc.
    split; [reflexivity|]. split; [reflexivity|].
    split; [intros ->; apply Hhead; reflexivity|discriminate].
  - apply re_match_spec. right. eauto.
  - unfold len in *. rewrite length_app. simpl. lia.
  - destruct (realm_exists realms (s ++ [10])) eqn:E; [|reflexivity].
    apply realm_exists_spec in E as (r & Hin & Hr).
    exfalso. exact (Hex r Hin Hr).
  - rewrite Hres. discriminate.
Qed.

(** X3.  The [string_id] of an existing realm (other than the sentinel) is
    never accepted, with or without [allow_reserved_subdomain]; when it
    passes the syntactic checks the error is the "unavailable" one. *)
Theorem existing_subdomain_never_available (r : Realm) (allow : bool) :
  In r realms ->
  string_id r <> SUBDOMAIN_FOR_ROOT_DOMAIN ->
  check (string_id r) allow <> Ok tt
  /\ (head (string_id r) <> Some 45 -> last (string_id r) <> Some 45 ->
      re_match (string_id r) = true -> (3 <= len (string_id r))%Z ->
      check (string_id r) allow
      = validation_error (gettext (error_text unavailable))).
Proof.
  intros Hin Hne.
  assert (realm_exists realms (string_id r) = true) as Hex
    by (apply realm_exists_spec; eauto).
  split.
  - intros Hok.
    apply (check_accepts gettext _ is_root_domain_available realms
             is_reserved_subdomain _ allow Hne) in Hok
      as (_ & _ & _ & Hno & _).
    congruence.
  - intros Hh Hl Hre Hlen.
    rewrite (check_other gettext _ is_root_domain_available realms
               is_reserved_subdomain _ allow Hne).
    destruct (string_id r) as [|c s] eqn:Hs;
      [unfold len in Hlen; simpl in Hlen; lia|].
    destruct (last (c :: s)) as [d|] eqn:Hlast;
      [|apply last_None in Hlast; discriminate].
    cbn [head].
    destruct (N.eqb_spec c 45) as [->|_]; [contradiction|].
    destruct (N.eqb_spec d 45) as [->|_]; [contradiction|].
    cbn [orb]. rewrite Hre. cbn [negb].
    destruct (Z.ltb_spec (len (c :: s)) 3) as [Hlt|_]; [lia|].
    now rewrite Hex.
Qed.

(** X4.  [allow_reserved_subdomain] matters for reserved names only: a name
    that is not reserved gets the same outcome with and without it, what
    is accepted without it is accepted with it, and a reserved name (other
    than the sentinel) is never accepted without it. *)
Theorem allow_reserved_only_affects_reserved (subdomain : pystr) :
  (is_reserved_subdomain subdomain = false ->
   check subdomain true = check subdomain false)
  /\ (check subdomain false = Ok tt -> check subdomain true = Ok tt)
  /\ (is_reserved_subdomain subdomain = true ->
      subdomain <> SUBDOMAIN_FOR_ROOT_DOMAIN ->
      check subdomain false <> Ok tt).
Proof.
  destruct (decide (subdomain = SUBDOMAIN_FOR_ROOT_DOMAIN)) as [->|Hne].
  - rewrite !SubdomainFacts.check_root_domain.
    split; [reflexivity|]. split; [auto|]. intros _ H. contradiction.
  - split; [|split].
    + intros Hres.
      rewrite !(check_other gettext _ is_root_domain_available realms
                  is_reserved_subdomain _ _ Hne).
      rewrite Hres. reflexivity.
    + intros Hok.
      apply (check_accepts gettext _ is_root_domain_available realms
               is_reserved_subdomain _ _ Hne) in Hok
        as (H1 & H2 & H3 & H4 & _).
      apply (check_accepts gettext _ is_root_domain_available realms
               is_reserved_subdomain _ _ Hne).
      auto 6.
    + intros Hres _ Hok.
      apply (check_accepts gettext _ is_root_domain_available realms
               is_reserved_subdomain _ _ Hne) in Hok
        as (_ & _ & _ & _ & H).
      specialize (H Hres). discriminate.
Qed.

End SubdomainExtras.

Lemma accepted_subdomain_is_well_formed_witness :
  Scenario.check_subdomain (lit "zulip-dev") false = Ok tt.
Proof.
  apply (accepted_subdomain_is_well_formed id [] true Scenario.realms
           Scenario.reserved (lit "zulip-dev") false).
  - discriminate.
  - split; [vm_compute; discriminate|].
    split; [vm_compute; discriminate|].
    split; [vm_compute; discriminate|].
    split; [left; vm_compute; reflexivity|].
    split; [|vm_compute; discriminate].
    intros r [<-|[<-|[]]]; vm_compute; discriminate.
Defined.

Lemma subdomain_with_final_newline_accepted_witness :
  Scenario.check_subdomain (lit "ab-" ++ [10]) false = Ok tt.
Proof.
  apply (subdomain_with_final_newline_accepted id [] true Scenario.realms
           Scenario.reserved (lit "ab-") false).
  - vm_compute. reflexivity.
  - vm_compute. discriminate.
  - vm_compute. discriminate.
  - vm_compute. discriminate.
  - intros r [<-|[<-|[]]]; vm_compute; discriminate.
  - vm_compute. reflexivity.
Defined.

Lemma existing_subdomain_never_available_witness :
  Scenario.check_subdomain (lit "acme") true
  = validation_error (Subdomain.error_text Subdomain.unavailable).
Proof.
  apply (existing_subdomain_never_available id [] true Scenario.realms
           Scenario.reserved Scenario.acme true).
  - left. reflexivity.
  - vm_compute. discriminate.
  - vm_compute. discriminate.
  - vm_compute. discriminate.
  - vm_compute. reflexivity.
  - vm_compute. discriminate.
Defined.

Lemma allow_reserved_only_affects_reserved_witness :
  Scenario.check_subdomain (lit "www") false <> Ok tt.
Proof.
  apply (allow_reserved_only_affects_reserved id [] true Scenario.realms
           Scenario.reserved (lit "www")).
  - vm_compute. reflexivity.
  - vm_compute. discriminate.
Defined.

(** ** Registration: the requested subdomain *)
Section RegistrationExtras.
Import Subdomain SubdomainMore.
Variable gettext : pystr -> pystr.
Variable SUBDOMAIN_FOR_ROOT_DOMAIN : pystr.
Variable is_root_domain_available : bool.
Variable realms : list Realm.
Variable is_reserved_subdomain : pystr -> bool.
Variable realm_creation : bool.

Local Abbreviation clean_realm_subdomain :=
  (Registration.clean_realm_subdomain gettext SUBDOMAIN_FOR_ROOT_DOMAIN
     is_root_domain_available realms is_reserved_subdomain realm_creation).
Local Abbreviation check :=
  (check_subdomain_available gettext SUBDOMAIN_FOR_ROOT_DOMAIN
     is_root_domain_available realms is_reserved_subdomain).

(** X5.  [clean_realm_subdomain] ignores the submitted text in two cases.
    When the form does not create a realm it returns the empty string,
    whatever was submitted.  When it creates one and the submission has
    the key [realm_in_root_domain], the outcome is that of the root
    domain alone: the sentinel when the root domain is available, the
    "unavailable" error otherwise. *)
Theorem submitted_subdomain_ignored (cleaned_data data : gmap pystr pystr) :
  (realm_creation = false -> clean_realm_subdomain cleaned_data data = Ok [])
  /\ (realm_creation = true ->
      dict_contains data (lit "realm_in_root_domain") = true ->
      forall submitted : pystr,
        dict_get cleaned_data (lit "realm_subdomain") = Some submitted ->
        clean_realm_subdomain cleaned_data data
        = if is_root_domain_available then Ok SUBDOMAIN_FOR_ROOT_DOMAIN
          else validation_error (gettext (error_text unavailable))).
Proof.
  unfold Registration.clean_realm_subdomain. split.
  - intros ->. reflexivity.
  - intros -> Hflag submitted Hsub. cbn [negb].
    unfold dict_index. rewrite Hsub, Hflag. cbn [mbind result_bind bind].
    rewrite SubdomainFacts.check_root_domain.
    destruct is_root_domain_available; reflexivity.
Qed.

(** X6.  What [clean_realm_subdomain] returns for a form that creates a
    realm has passed [check_subdomain_available] without the reserved
    names allowed: it is the sentinel, with the root domain available, or
    it is the submitted text, which then has at least 3 characters, no
    ['-'] at either end, matches the character pattern, names no existing
    realm and is not reserved. *)
Theorem registered_subdomain_is_checked (cleaned_data data : gmap pystr pystr)
    (subdomain : pystr) :
  realm_creation = true ->
  clean_realm_subdomain cleaned_data data = Ok subdomain ->
  (subdomain = SUBDOMAIN_FOR_ROOT_DOMAIN /\ is_root_domain_available = true)
  \/ (dict_get cleaned_data (lit "realm_subdomain") = Some subdomain
      /\ dict_contains data (lit "realm_in_root_domain") = false
      /\ (3 <= len subdomain)%Z
      /\ head subdomain <> Some 45
      /\ last subdomain <> Some 45
      /\ re_match subdomain = true
      /\ (forall r, In r realms -> string_id r <> subdomain)
      /\ is_reserved_subdomain subdomain = false).
Proof.
  intros -> Hok. unfold Registration.clean_realm_subdomain in Hok.
  cbn [negb] in Hok. unfold dict_index in Hok.
  destruct (dict_get cleaned_data (lit "realm_subdomain")) as [submitted|] eqn:Hsub;
    [|discriminate].
  cbn [mbind result_bind bind] in Hok.
  set (chosen := if dict_contains data (lit "realm_in_root_domain")
                 then SUBDOMAIN_FOR_ROOT_DOMAIN else submitted) in *.
  destruct (check chosen false) as [[]|e] eqn:Hcheck; [|discriminate].
  injection Hok as <-.
  destruct (decide (chosen = SUBDOMAIN_FOR_ROOT_DOMAIN)) as [Heq|Hne].
  - left. split; [exact Heq|]. rewrite Heq in Hcheck.
    rewrite SubdomainFacts.check_root_domain in Hcheck.
    destruct is_root_domain_available; [reflexivity|discriminate].
  - right.
    destruct (dict_contains data (lit "realm_in_root_domain")) eqn:Hflag;
      [contradiction|].
    apply (check_accepts gettext _ is_root_domain_available realms
             is_reserved_subdomain _ _ Hne) in Hcheck
      as ((first & final & Hh & Hl & Hf & Hfin) & Hre & Hlen & Hex & Hres).
    split; [reflexivity|]. split; [reflexivity|]. split; [exact Hlen|].
    split; [rewrite Hh; intros [= E]; contradiction|].
    split; [rewrite Hl; intros [= E]; contradiction|].
    split; [exact Hre|]. split.
    + intros r Hin Hr.
      assert (realm_exists realms chosen = true) as E
        by (apply realm_exists_spec; eauto).
      congruence.
    + destruct (is_reserved_subdomain chosen); [|reflexivity].
      specialize (Hres eq_refl). discriminate.
Qed.

End RegistrationExtras.

Lemma submitted_subdomain_ignored_witness :
  Deployment.clean_realm_subdomain false (Deployment.subdomain_data "-x") ∅ = Ok []
  /\ Deployment.clean_realm_subdomain true (Deployment.subdomain_data "-x")
       {[ lit "realm_in_root_domain" := lit "on" ]}
     = Ok [].
Proof.
  split.
  - apply (submitted_subdomain_ignored id [] true Scenario.realms
             Scenario.reserved false). reflexivity.
  - apply (submitted_subdomain_ignored id [] true Scenario.realms
             Scenario.reserved true (Deployment.subdomain_data "-x")
             {[ lit "realm_in_root_domain" := lit "on" ]}) with (submitted := lit "-x").
    + reflexivity.
    + vm_compute. reflexivity.
    + vm_compute. reflexivity.
Defined.

Lemma registered_subdomain_is_checked_witness :
  (3 <= len (lit "zulip"))%Z
  /\ Subdomain.re_match (lit "zulip") = true
  /\ (forall r, In r Scenario.realms -> string_id r <> lit "zulip")
  /\ Scenario.reserved (lit "zulip") = false.
Proof.
  destruct (registered_subdomain_is_checked id [] true Scenario.realms
              Scenario.reserved true (Deployment.subdomain_data "zulip") ∅
              (lit "zulip"))
    as [[H _]|(_ & _ & Hlen & _ & _ & Hre & Hex & Hres)].
  - reflexivity.
  - vm_compute. reflexivity.
  - vm_compute in H. discriminate H.
  - auto.
Defined.

(** ** The MIT mailing-list check *)
Module MitFacts.

Lemma rsplit1_cases (sep : char) (s : pystr) :
  (~ In sep s /\ rsplit1 sep s = [s])
  \/ (exists a b, rsplit1 sep s = [a; b] /\ s = a ++ sep :: b /\ ~ In sep b).
Proof.
  induction s as [|c s IH].
  - left. split; [intros []|reflexivity].
  - destruct IH as [[Hno Hs]|(a & b & Hs & Heq & Hb)].
    + simpl. rewrite Hs.
      destruct (N.eqb_spec c sep) as [->|Hne].
      * right. exists [], s. auto.
      * left. split; [|reflexivity]. intros [H|H]; [congruence|contradiction].
    + right. exists (c :: a), b. simpl. rewrite Hs.
      split; [reflexivity|]. split; [now rewrite Heq|exact Hb].
Qed.

Lemma startswith_head (c : char) (p s : pystr) :
  startswith (c :: p) s = true -> head s = Some c.
Proof.
  destruct s as [|d s]; simpl; [discriminate|].
  destruct (N.eqb_spec c d) as [->|]; [reflexivity|discriminate].
Qed.

(** A string that contains [c :: p] contains the character [c]. *)
Lemma contains_In (c : char) (p s : pystr) :
  contains (c :: p) s = true -> In c s.
Proof.
  induction s as [|d s IH]; intros H.
  - simpl in H. discriminate.
  - change (contains (c :: p) (d :: s))
      with (startswith (c :: p) (d :: s) || contains (c :: p) s) in H.
    apply orb_true_iff in H as [H|H].
    + apply startswith_head in H. injection H as ->. now left.
    + right. auto.
Qed.

End MitFacts.

Section MitExtras.
Import Mit MitFacts.
Variable dnslookup : pystr -> dns_answer.
Variable NXDOMAIN : Z.

Local Abbreviation email_is_not_mit_mailing_list :=
  (Mit.email_is_not_mit_mailing_list dnslookup NXDOMAIN).

(** X7.  For an address that contains ["@mit.edu"] exactly one name is
    looked up: the part of the address before its last ['@'], followed by
    [".pobox.ns.athena.mit.edu"].  The resolver's answer decides: an
    answer accepts the address, the response code [NXDOMAIN] raises the
    mailing-list [ValidationError], any other response code raises
    [AssertionError], and another exception passes through. *)
Theorem mit_check_outcome (email : pystr) :
  contains (lit "@mit.edu") email = true ->
  exists username rest : pystr,
    email = username ++ 64 :: rest
    /\ ~ In 64 rest
    /\ email_is_not_mit_mailing_list email
       = (match dnslookup (username ++ lit ".pobox.ns.athena.mit.edu") with
          | Answered => Ok tt
          | ServerError rcode =>
              if (rcode =? NXDOMAIN)%Z
              then validation_error (mark_safe MIT_VALIDATION_ERROR)
              else Raise (AssertionError (lit "Unexpected DNS error"))
          | LookupRaised e => Raise e
          end,
          [username ++ lit ".pobox.ns.athena.mit.edu"]).
Proof.
  intros Hmit.
  assert (In 64 email) as Hat by (apply (contains_In 64 (lit "mit.edu")); exact Hmit).
  destruct (rsplit1_cases 64 email) as [[Hno _]|(a & b & Hs & Heq & Hb)];
    [contradiction|].
  exists a, b. split; [exact Heq|]. split; [exact Hb|].
  unfold Mit.email_is_not_mit_mailing_list. rewrite Hmit, Hs.
  cbn [index0].
  destruct (dnslookup (a ++ lit ".pobox.ns.athena.mit.edu")) as [|rcode|e];
    [reflexivity| |reflexivity].
  destruct (rcode =? NXDOMAIN)%Z; reflexivity.
Qed.

(** X8.  The test is for the substring, not for the domain.  With a
    resolver that reports every name as missing, an address is accepted
    exactly when ["@mit.edu"] occurs nowhere in it; so an address whose
    domain only starts with [mit.edu] is refused as well, and an address
    without the substring is accepted without any lookup. *)
Theorem mit_check_is_a_substring_test (email : pystr) :
  (forall name, dnslookup name = ServerError NXDOMAIN) ->
  (fst (email_is_not_mit_mailing_list email) = Ok tt
   <-> contains (lit "@mit.edu") email = false)
  /\ (contains (lit "@mit.edu") email = false ->
      snd (email_is_not_mit_mailing_list email) = [])
  /\ (forall user rest : pystr,
        email = user ++ lit "@mit.edu" ++ rest ->
        fst (email_is_not_mit_mailing_list email)
        = validation_error (mark_safe MIT_VALIDATION_ERROR)).
Proof.
  intros Hdns.
  assert (contains (lit "@mit.edu") email = true ->
          fst (email_is_not_mit_mailing_list email)
          = validation_error (mark_safe MIT_VALIDATION_ERROR)) as Hrefused.
  { intros Hmit.
    assert (In 64 email) as Hat
      by (apply (contains_In 64 (lit "mit.edu")); exact Hmit).
    destruct (rsplit1_cases 64 email) as [[Hno _]|(a & b & Hs & _)];
      [contradiction|].
    unfold Mit.email_is_not_mit_mailing_list. rewrite Hmit, Hs.
    cbn [index0]. rewrite Hdns, Z.eqb_refl. reflexivity. }
  split; [|split].
  - destruct (contains (lit "@mit.edu") email) eqn:Hmit.
    + rewrite (Hrefused eq_refl). split; discriminate.
    + unfold Mit.email_is_not_mit_mailing_list. rewrite Hmit. split; reflexivity.
  - intros Hmit. unfold Mit.email_is_not_mit_mailing_list. now rewrite Hmit.
  - intros user rest ->. apply Hrefused. apply PyFacts.contains_app.
Qed.

End MitExtras.

Lemma mit_check_outcome_witness :
  exists username rest : pystr,
    lit "alice@mit.edu" = username ++ 64 :: rest
    /\ ~ In 64 rest
    /\ Deployment.mit_check (lit "alice@mit.edu")
       = (match Deployment.dnslookup (username ++ lit ".pobox.ns.athena.mit.edu") with
          | Mit.Answered => Ok tt
          | Mit.ServerError rcode =>
              if (rcode =? Deployment.NXDOMAIN)%Z
              then validation_error (mark_safe Mit.MIT_VALIDATION_ERROR)
              else Raise (AssertionError (lit "Unexpected DNS error"))
          | Mit.LookupRaised e => Raise e
          end,
          [username ++ lit ".pobox.ns.athena.mit.edu"]).
Proof.
  apply (mit_check_outcome Deployment.dnslookup Deployment.NXDOMAIN
           (lit "alice@mit.edu")).
  vm_compute. reflexivity.
Defined.

Lemma mit_check_is_a_substring_test_witness :
  fst (Mit.email_is_not_mit_mailing_list (fun _ => Mit.ServerError 3) 3
         (lit "bob@mit.edu.example.com"))
  = validation_error (mark_safe Mit.MIT_VALIDATION_ERROR).
Proof.
  apply (mit_check_is_a_substring_test (fun _ => Mit.ServerError 3) 3
           (lit "bob@mit.edu.example.com"))
    with (user := lit "bob") (rest := lit ".example.com").
  - reflexivity.
  - vm_compute. reflexivity.
Defined.

(** ** Joining a realm: [HomepageForm.clean_email] *)
Module HomepageFacts.
Import Homepage.

Section Form.
Variable gettext : pystr -> pystr.
Variable str_format : pystr -> list (pystr * pystr) -> result pystr.
Variable invite_required : Realm -> bool.
Variable is_zephyr_mirror_realm : Realm -> bool.
Variable email_allowed_for_realm : pystr -> Realm -> allowed.
Variable dnslookup : pystr -> Mit.dns_answer.
Variable NXDOMAIN : Z.
Variable BILLING_ENABLED : bool.
Variable spare_licenses_available : Realm -> pystr -> bool.

Local Abbreviation clean_email :=
  (Homepage.clean_email gettext str_format invite_required
     is_zephyr_mirror_realm email_allowed_for_realm dnslookup NXDOMAIN
     BILLING_ENABLED spare_licenses_available).
Local Abbreviation after_allowed :=
  (Homepage.after_allowed gettext is_zephyr_mirror_realm dnslookup NXDOMAIN
     BILLING_ENABLED spare_licenses_available).
Local Abbreviation mit_check := (Mit.email_is_not_mit_mailing_list dnslookup NXDOMAIN).

(** Whether the template formats or not, an exception is raised. *)
Lemma formatted_error_raises (template : pystr) (kwargs : list (pystr * pystr)) :
  exists e, formatted_error gettext str_format (A:=pystr) template kwargs = Raise e.
Proof.
  unfold formatted_error.
  destruct (str_format (gettext template) kwargs); cbn; eauto.
Qed.

Lemma after_allowed_ok (realm : Realm) (email e : pystr) :
  fst (after_allowed realm email) = Ok e
  <-> e = email
      /\ (is_zephyr_mirror_realm realm = true -> fst (mit_check email) = Ok tt)
      /\ (BILLING_ENABLED = true -> spare_licenses_available realm email = true).
Proof.
  unfold Homepage.after_allowed.
  destruct (is_zephyr_mirror_realm realm).
  - destruct (mit_check email) as [[[]|x] queries]; cbn [fst].
    + destruct BILLING_ENABLED, (spare_licenses_available realm email);
        cbn [andb negb fst]; split;
        try (intros [= <-]; auto); try discriminate;
        try (intros (-> & _ & H); auto; specialize (H eq_refl); discriminate).
    + split; [discriminate|]. intros (_ & H & _). specialize (H eq_refl). discriminate.
  - destruct BILLING_ENABLED, (spare_licenses_available realm email);
      cbn [andb negb fst]; split;
      try (intros [= <-]; repeat split; auto; discriminate); try discriminate;
      try (intros (-> & _ & H); auto; specialize (H eq_refl); discriminate).
Qed.

Lemma after_allowed_queries (realm : Realm) (email : pystr) :
  snd (after_allowed realm email)
  = if is_zephyr_mirror_realm realm then snd (mit_check email) else [].
Proof.
  unfold Homepage.after_allowed.
  destruct (is_zephyr_mirror_realm realm).
  - destruct (mit_check email) as [[[]|x] queries]; cbn [snd]; [|reflexivity].
    destruct (BILLING_ENABLED && negb (spare_licenses_available realm email));
      reflexivity.
  - destruct (BILLING_ENABLED && negb (spare_licenses_available realm email));
      reflexivity.
Qed.

End Form.

End HomepageFacts.

Section HomepageExtras.
Import Homepage HomepageFacts.
Variable gettext : pystr -> pystr.
Variable str_format : pystr -> list (pystr * pystr) -> result pystr.
Variable invite_required : Realm -> bool.
Variable is_zephyr_mirror_realm : Realm -> bool.
Variable email_allowed_for_realm : pystr -> Realm -> allowed.
Variable dnslookup : pystr -> Mit.dns_answer.
Variable NXDOMAIN : Z.
Variable BILLING_ENABLED : bool.
Variable spare_licenses_available : Realm -> pystr -> bool.

Local Abbreviation clean_email :=
  (Homepage.clean_email gettext str_format invite_required
     is_zephyr_mirror_realm email_allowed_for_realm dnslookup NXDOMAIN
     BILLING_ENABLED spare_licenses_available).
Local Abbreviation mit_check := (Mit.email_is_not_mit_mailing_list dnslookup NXDOMAIN).

(** X9.  [clean_email] returns exactly when every check passes, and what
    it returns is the address it was given: the form has a realm; the
    realm needs no invitation or the visitor came by a multi-use
    invitation; [email_allowed_for_realm] raised nothing; for a Zephyr
    mirror realm the MIT check passed; and with billing enabled a licence
    is free. *)
Theorem clean_email_accepts_iff (realm : option Realm)
    (from_multiuse_invite : bool) (email e : pystr) :
  fst (clean_email realm from_multiuse_invite email) = Ok e
  <-> e = email
      /\ exists r : Realm,
           realm = Some r
           /\ (from_multiuse_invite = true \/ invite_required r = false)
           /\ email_allowed_for_realm email r = Allowed
           /\ (is_zephyr_mirror_realm r = true -> fst (mit_check email) = Ok tt)
           /\ (BILLING_ENABLED = true -> spare_licenses_available r email = true).
Proof.
  unfold Homepage.clean_email.
  destruct realm as [r|].
  2:{ cbn [fst].
      destruct (formatted_error_raises gettext str_format
                  (lit "The organization you are trying to join using {email} does not exist.")
                  [(lit "email", email)]) as [x ->].
      split; [discriminate|]. intros (_ & r & [=] & _). }
  destruct (negb from_multiuse_invite && invite_required r) eqn:Hinv.
  { cbn [fst].
    destruct (formatted_error_raises gettext str_format
                (lit "Please request an invite for {email} "
                 ++ lit "from the organization " ++ lit "administrator.")
                [(lit "email", email)]) as [x ->].
    split; [discriminate|]. intros (_ & r' & [= <-] & Hgate & _).
    destruct Hgate as [Hm|Hi].
    - rewrite Hm in Hinv. discriminate.
    - rewrite Hi, andb_false_r in Hinv. discriminate. }
  assert (from_multiuse_invite = true \/ invite_required r = false) as Hgate.
  { destruct from_multiuse_invite; [auto|]. right. exact Hinv. }
  destruct (email_allowed_for_realm email r) eqn:Hallowed.
  - rewrite (after_allowed_ok gettext is_zephyr_mirror_realm dnslookup NXDOMAIN
               BILLING_ENABLED spare_licenses_available r email e).
    split.
    + intros (-> & Hmit & Hlic). split; [reflexivity|]. exists r. auto.
    + intros (-> & r' & [= <-] & _ & _ & Hmit & Hlic). auto.
  - cbn [fst].
    destruct (formatted_error_raises gettext str_format
                (lit "Your email address, {email}, is not in one of the domains "
                 ++ lit "that are allowed to register for accounts in this organization.")
                [(lit "string_id", string_id r); (lit "email", email)]) as [x ->].
    split; [discriminate|]. intros (_ & r' & [= <-] & _ & H & _). congruence.
  - cbn [fst]. split; [discriminate|].
    intros (_ & r' & [= <-] & _ & H & _). congruence.
  - cbn [fst]. split; [discriminate|].
    intros (_ & r' & [= <-] & _ & H & _). congruence.
Qed.

(** X10.  [clean_email] makes a DNS lookup only at the MIT check: when a
    name was looked up, the form has a Zephyr mirror realm, the invitation
    gate and [email_allowed_for_realm] let the address through, and the
    address contains ["@mit.edu"]. *)
Theorem clean_email_lookup_only_for_zephyr (realm : option Realm)
    (from_multiuse_invite : bool) (email : pystr) :
  snd (clean_email realm from_multiuse_invite email) <> [] ->
  exists r : Realm,
    realm = Some r
    /\ is_zephyr_mirror_realm r = true
    /\ (from_multiuse_invite = true \/ invite_required r = false)
    /\ email_allowed_for_realm email r = Allowed
    /\ contains (lit "@mit.edu") email = true.
Proof.
  unfold Homepage.clean_email.
  destruct realm as [r|]; [|intros H; contradiction].
  destruct (negb from_multiuse_invite && invite_required r) eqn:Hinv;
    [intros H; contradiction|].
  assert (from_multiuse_invite = true \/ invite_required r = false) as Hgate.
  { destruct from_multiuse_invite; [auto|]. right. exact Hinv. }
  destruct (email_allowed_for_realm email r) eqn:Hallowed;
    try (intros H; contradiction).
  rewrite (after_allowed_queries gettext is_zephyr_mirror_realm dnslookup
             NXDOMAIN BILLING_ENABLED spare_licenses_available r email).
  destruct (is_zephyr_mirror_realm r) eqn:Hz; [|intros H; contradiction].
  intros Hq. exists r. repeat split; auto.
  unfold Mit.email_is_not_mit_mailing_list in Hq.
  destruct (contains (lit "@mit.edu") email); [reflexivity|contradiction].
Qed.

End HomepageExtras.

(** X11.  Two gates switch a check off altogether.  For a visitor who came
    by a multi-use invitation the realm's [invite_required] is not
    consulted, and with [BILLING_ENABLED] off the licence check is not
    consulted: the run is the same whatever they would answer. *)
Theorem clean_email_switches
    (gettext : pystr -> pystr)
    (str_format : pystr -> list (pystr * pystr) -> result pystr)
    (is_zephyr_mirror_realm : Realm -> bool)
    (email_allowed_for_realm : pystr -> Realm -> Homepage.allowed)
    (dnslookup : pystr -> Mit.dns_answer) (NXDOMAIN : Z)
    (realm : option Realm) (email : pystr) :
  (forall (invite_required invite_required' : Realm -> bool)
          (billing : bool) (spare : Realm -> pystr -> bool),
     Homepage.clean_email gettext str_format invite_required
       is_zephyr_mirror_realm email_allowed_for_realm dnslookup NXDOMAIN
       billing spare realm true email
     = Homepage.clean_email gettext str_format invite_required'
         is_zephyr_mirror_realm email_allowed_for_realm dnslookup NXDOMAIN
         billing spare realm true email)
  /\ (forall (invite_required : Realm -> bool) (from_multiuse_invite : bool)
             (spare spare' : Realm -> pystr -> bool),
        Homepage.clean_email gettext str_format invite_required
          is_zephyr_mirror_realm email_allowed_for_realm dnslookup NXDOMAIN
          false spare realm from_multiuse_invite email
        = Homepage.clean_email gettext str_format invite_required
            is_zephyr_mirror_realm email_allowed_for_realm dnslookup NXDOMAIN
            false spare' realm from_multiuse_invite email).
Proof.
  split.
  - intros invite_required invite_required' billing spare.
    unfold Homepage.clean_email. destruct realm; reflexivity.
  - intros invite_required from_multiuse_invite spare spare'.
    unfold Homepage.clean_email, Homepage.after_allowed.
    destruct realm as [r|]; reflexivity.
Qed.

Lemma clean_email_accepts_iff_witness :
  fst (Deployment.clean_email true (Some Deployment.zephyr) false
         (lit "alice@mit.edu"))
  = Ok (lit "alice@mit.edu").
Proof.
  apply (clean_email_accepts_iff id Deployment.str_format
           Deployment.invite_required Deployment.is_zephyr_mirror_realm
           Deployment.email_allowed_for_realm Deployment.dnslookup
           Deployment.NXDOMAIN true Deployment.spare_licenses_available).
  split; [reflexivity|]. exists Deployment.zephyr.
  split; [reflexivity|]. split; [right; vm_compute; reflexivity|].
  split; [vm_compute; reflexivity|].
  split; intros _; vm_compute; reflexivity.
Defined.

Lemma clean_email_lookup_only_for_zephyr_witness :
  exists r : Realm,
    Some Deployment.zephyr = Some r
    /\ Deployment.is_zephyr_mirror_realm r = true
    /\ (false = true \/ Deployment.invite_required r = false)
    /\ Deployment.email_allowed_for_realm (lit "nobody@mit.edu") r = Homepage.Allowed
    /\ contains (lit "@mit.edu") (lit "nobody@mit.edu") = true.
Proof.
  apply (clean_email_lookup_only_for_zephyr id Deployment.str_format
           Deployment.invite_required Deployment.is_zephyr_mirror_realm
           Deployment.email_allowed_for_realm Deployment.dnslookup
           Deployment.NXDOMAIN true Deployment.spare_licenses_available
           (Some Deployment.zephyr) false (lit "nobody@mit.edu")).
  vm_compute. discriminate.
Defined.

(** ** The one-time token's upper bound *)
Module TokenFacts.

Lemma concat_repeat_singleton (c : char) (n : nat) :
  List.concat (List.repeat [c] n) = List.repeat c n.
Proof. induction n as [|n IH]; simpl; [reflexivity|now rewrite IH]. Qed.

Lemma int_of_digits_nines (n : nat) (acc : Z) :
  int_of_digits acc (List.repeat 57 n)
  = Some (acc * 10 ^ Z.of_nat n + 10 ^ Z.of_nat n - 1)%Z.
Proof.
  revert acc. induction n as [|n IH]; intros acc.
  - simpl. f_equal. lia.
  - cbn [List.repeat int_of_digits].
    change (digit_value 57) with (Some 9%Z). cbv iota beta. rewrite IH.
    rewrite Nat2Z.inj_succ, Z.pow_succ_r by lia. f_equal. lia.
Qed.

End TokenFacts.

(** X12.  The largest token that [AuthenticationTokenForm] accepts is
    [int("9" * digits)].  When [totp_digits()] is at least 1 and the
    numeral is within the interpreter's limit on digits (at most 640
    digits, or no limit, or a limit of at least that many digits), it is
    [10^digits - 1], the largest number of that many digits.  When
    [totp_digits()] is 0 or negative the string is empty and [int] raises
    [ValueError]; and so it does for more than 640 digits that exceed a
    positive limit (4300 by default since Python 3.11). *)
Theorem otp_max_value (int_max_str_digits digits : Z) :
  ((1 <= digits)%Z ->
   (digits <= 640 \/ int_max_str_digits <= 0 \/ digits <= int_max_str_digits)%Z ->
   TokenForm.max_value int_max_str_digits digits
   = Some (Ok (10 ^ digits - 1)%Z))
  /\ ((digits <= 0)%Z ->
      TokenForm.max_value int_max_str_digits digits = Some (Raise ValueError))
  /\ ((640 < digits)%Z -> (0 < int_max_str_digits < digits)%Z ->
      TokenForm.max_value int_max_str_digits digits = Some (Raise ValueError)).
Proof.
  unfold TokenForm.max_value, str_mul.
  change (lit "9") with [57]. rewrite TokenFacts.concat_repeat_singleton.
  assert (forall n : nat,
            int_of_str int_max_str_digits (List.repeat 57 (S n))
            = if (640 <? Z.of_nat (S n))%Z && (0 <? int_max_str_digits)%Z
                 && (int_max_str_digits <? Z.of_nat (S n))%Z
              then Some (Raise ValueError)
              else Some (Ok (10 ^ Z.of_nat (S n) - 1)%Z)) as Hnines.
  { intros n. unfold int_of_str. cbn [List.repeat].
    change (57 :: List.repeat 57 n) with (List.repeat 57 (S n)).
    rewrite TokenFacts.int_of_digits_nines.
    unfold len. rewrite List.repeat_length.
    replace (0 * 10 ^ Z.of_nat (S n) + 10 ^ Z.of_nat (S n) - 1)%Z
      with (10 ^ Z.of_nat (S n) - 1)%Z by lia.
    reflexivity. }
  split; [|split].
  - intros Hd Hlimit.
    destruct (Z.to_nat digits) as [|n] eqn:Hn; [lia|].
    rewrite Hnines, <- Hn, Z2Nat.id by lia.
    destruct (Z.ltb_spec 640 digits), (Z.ltb_spec 0 int_max_str_digits),
      (Z.ltb_spec int_max_str_digits digits); cbn [andb]; try reflexivity.
    exfalso. lia.
  - intros Hd. replace (Z.to_nat digits) with 0%nat by lia. reflexivity.
  - intros Hd Hlimit.
    destruct (Z.to_nat digits) as [|n] eqn:Hn; [lia|].
    rewrite Hnines, <- Hn, Z2Nat.id by lia.
    destruct (Z.ltb_spec 640 digits), (Z.ltb_spec 0 int_max_str_digits),
      (Z.ltb_spec int_max_str_digits digits); cbn [andb]; try reflexivity;
      exfalso; lia.
Qed.

Lemma otp_max_value_witness :
  TokenForm.max_value 4300 6 = Some (Ok 999999%Z)
  /\ TokenForm.max_value 4300 0 = Some (Raise ValueError)
  /\ TokenForm.max_value 4300 4301 = Some (Raise ValueError)
  /\ TokenForm.max_value 0 4301 = Some (Ok (10 ^ 4301 - 1)%Z).
Proof.
  split; [|split; [|split]].
  - apply (otp_max_value 4300 6); [lia|left; lia].
  - destruct (otp_max_value 4300 0) as (_ & Hempty & _). apply Hempty. lia.
  - destruct (otp_max_value 4300 4301) as (_ & _ & Hlong). apply Hlong; lia.
  - apply (otp_max_value 0 4301); [lia|right; left; lia].
Defined.

(** ** More on the team lookup *)
Module MultiEmailFacts.
Import FindMyTeam.

Lemma split_snoc_sep (sep : char) (s : pystr) :
  split sep (s ++ [sep]) = split sep s ++ [[]].
Proof.
  induction s as [|c s IH]; simpl.
  - now rewrite N.eqb_refl.
  - rewrite IH. destruct (c =? sep); [reflexivity|].
    pose proof (PyFacts.split_not_nil sep s) as Hnil.
    destruct (split sep s); [contradiction|reflexivity].
Qed.

Lemma lstrip_all_space (s : pystr) : forallb isspace s = true -> lstrip s = [].
Proof.
  induction s as [|c s IH]; simpl; [reflexivity|].
  intros H. apply andb_true_iff in H as [-> Hs]. auto.
Qed.

Lemma strip_nil : strip [] = [].
Proof. reflexivity. Qed.

Lemma strip_all_space (s : pystr) : forallb isspace s = true -> strip s = [].
Proof.
  intros H. unfold strip, rstrip.
  rewrite (lstrip_all_space (List.rev s)) by now rewrite PyFacts.forallb_rev.
  reflexivity.
Qed.

Lemma split_no_sep_id (sep : char) (s : pystr) :
  ~ In sep s -> split sep s = [s].
Proof.
  induction s as [|c s IH]; intros Hno; simpl; [reflexivity|].
  destruct (N.eqb_spec c sep) as [->|Hne]; [exfalso; apply Hno; now left|].
  rewrite IH; [reflexivity|]. intros H. apply Hno. now right.
Qed.

Lemma space_no_comma (s : pystr) : forallb isspace s = true -> ~ In comma s.
Proof.
  intros H Hin. rewrite forallb_forall in H. specialize (H _ Hin).
  vm_compute in H. discriminate H.
Qed.

Lemma length_to_python (s : pystr) :
  List.length (to_python s)
  = match s with
    | [] => 0%nat
    | _ :: _ => S (List.length (List.filter (N.eqb comma) s))
    end.
Proof.
  destruct s as [|c s]; [reflexivity|].
  unfold to_python. now rewrite length_map, PyFacts.length_split.
Qed.

Section Field.
Variable validate_email : pystr -> result unit.

Local Abbreviation validate_each := (MultiEmail.validate_each validate_email).

Lemma validate_each_ok (emails : list pystr) :
  validate_each emails = Ok tt
  <-> Forall (fun e => validate_email e = Ok tt) emails.
Proof.
  induction emails as [|e es IH]; simpl.
  - split; auto.
  - rewrite Forall_cons_iff, <- IH.
    destruct (validate_email e) as [[]|x]; cbn [mbind result_bind bind].
    + tauto.
    + split; [discriminate|]. intros [H _]. discriminate.
Qed.

Lemma validate_each_first_failure (emails : list pystr) (x : exn) :
  validate_each emails = Raise x ->
  exists before email after,
    emails = before ++ email :: after
    /\ Forall (fun e => validate_email e = Ok tt) before
    /\ validate_email email = Raise x.
Proof.
  induction emails as [|e es IH]; simpl; [discriminate|].
  destruct (validate_email e) as [[]|y] eqn:He; cbn [mbind result_bind bind].
  - intros H. destruct (IH H) as (before & email & after & -> & Hb & Hx).
    exists (e :: before), email, after. repeat split; auto.
  - intros [= ->]. exists [], e, es. repeat split; auto.
Qed.

End Field.

End MultiEmailFacts.

(** X13.  The bound of [FindMyTeamForm] in terms of the text typed:
    [clean_emails] accepts what [to_python] made of an input exactly when
    the input has at most 9 commas, whatever stands between them. *)
Theorem find_my_team_comma_bound (gettext : pystr -> pystr) (emails : pystr) :
  FindMyTeam.clean_emails gettext (FindMyTeam.to_python emails)
  = Ok (FindMyTeam.to_python emails)
  <-> (List.length (List.filter (N.eqb FindMyTeam.comma) emails) <= 9)%nat.
Proof.
  pose proof (MultiEmailFacts.length_to_python emails) as Hlen.
  split.
  - intros Hok.
    destruct (Nat.le_gt_cases
                (List.length (List.filter (N.eqb FindMyTeam.comma) emails)) 9)
      as [Hle|Hgt]; [exact Hle|].
    rewrite FindMyTeamFacts.clean_emails_rejects in Hok; [discriminate|].
    rewrite Hlen. destruct emails; [simpl in Hgt; lia|lia].
  - intros Hle. apply FindMyTeamFacts.clean_emails_accepts.
    rewrite Hlen. destruct emails; lia.
Qed.

(** X14.  Entries that [to_python] leaves empty.  The result is the empty
    list only for the empty input; an input of white space alone gives one
    empty entry; and an input that ends with a comma gives an empty last
    entry. *)
Theorem to_python_empty_entries (emails : pystr) :
  (FindMyTeam.to_python emails = [] <-> emails = [])
  /\ (emails <> [] -> forallb isspace emails = true ->
      FindMyTeam.to_python emails = [[]])
  /\ last (FindMyTeam.to_python (emails ++ [FindMyTeam.comma])) = Some [].
Proof.
  split; [|split].
  - split; [|intros ->; reflexivity].
    destruct emails as [|c s]; [reflexivity|].
    unfold FindMyTeam.to_python. intros H.
    apply (f_equal (@List.length _)) in H.
    rewrite length_map, PyFacts.length_split in H. discriminate.
  - intros Hne Hspace. destruct emails as [|c s]; [contradiction|].
    unfold FindMyTeam.to_python.
    rewrite MultiEmailFacts.split_no_sep_id
      by now apply MultiEmailFacts.space_no_comma.
    simpl List.map. now rewrite MultiEmailFacts.strip_all_space.
  - unfold FindMyTeam.to_python.
    destruct (emails ++ [FindMyTeam.comma]) as [|c s] eqn:E.
    { destruct emails; discriminate. }
    rewrite <- E, MultiEmailFacts.split_snoc_sep, List.map_app.
    simpl List.map. rewrite last_snoc. reflexivity.
Qed.

Section MultiEmailExtras.
Import MultiEmailFacts.
Variable field_validate : list pystr -> result unit.
Variable validate_email : pystr -> result unit.

Local Abbreviation validate := (MultiEmail.validate field_validate validate_email).

(** X15.  [MultiEmailField.validate] succeeds exactly when the superclass
    check succeeds and every entry is a valid address.  When the
    superclass check succeeds and an entry is invalid, the exception
    raised is that of the first invalid entry. *)
Theorem validate_all_or_first_failure (emails : list pystr) :
  (validate emails = Ok tt
   <-> field_validate emails = Ok tt
       /\ Forall (fun e => validate_email e = Ok tt) emails)
  /\ (forall x : exn,
        field_validate emails = Ok tt ->
        validate emails = Raise x ->
        exists before email after,
          emails = before ++ email :: after
          /\ Forall (fun e => validate_email e = Ok tt) before
          /\ validate_email email = Raise x).
Proof.
  unfold MultiEmail.validate. split.
  - destruct (field_validate emails) as [[]|y]; cbn [mbind result_bind bind].
    + rewrite validate_each_ok. tauto.
    + split; [discriminate|]. intros [H _]. discriminate.
  - intros x ->. cbn [mbind result_bind bind].
    apply validate_each_first_failure.
Qed.

(** X16.  When [validate_email] refuses the empty string, an input that
    ends with a comma, and an input of white space alone, never validate:
    [to_python] gives them an empty entry. *)
Theorem empty_entry_never_validates (emails : pystr) :
  validate_email [] <> Ok tt ->
  validate (FindMyTeam.to_python (emails ++ [FindMyTeam.comma])) <> Ok tt
  /\ (emails <> [] -> forallb isspace emails = true ->
      validate (FindMyTeam.to_python emails) <> Ok tt).
Proof.
  intros Hempty.
  assert (forall entries : list pystr,
            In [] entries -> validate entries <> Ok tt) as Hin.
  { intros entries Hmem Hok. unfold MultiEmail.validate in Hok.
    destruct (field_validate entries) as [[]|y]; [|discriminate].
    cbn [mbind result_bind bind] in Hok.
    apply validate_each_ok in Hok. rewrite List.Forall_forall in Hok.
    exact (Hempty (Hok _ Hmem)). }
  split.
  - apply Hin.
    unfold FindMyTeam.to_python.
    destruct (emails ++ [FindMyTeam.comma]) as [|c s] eqn:E.
    { destruct emails; discriminate. }
    rewrite <- E, split_snoc_sep, List.map_app. apply in_or_app. right.
    now left.
  - intros Hne Hspace. apply Hin.
    destruct emails as [|c s]; [contradiction|].
    unfold FindMyTeam.to_python.
    rewrite split_no_sep_id by now apply space_no_comma.
    simpl List.map. rewrite strip_all_space by exact Hspace. now left.
Qed.

End MultiEmailExtras.

Lemma find_my_team_comma_bound_witness :
  FindMyTeam.clean_emails id (FindMyTeam.to_python (lit ",,,,,,,,,"))
  = Ok (List.repeat [] 10).
Proof.
  apply (find_my_team_comma_bound id (lit ",,,,,,,,,")).
  vm_compute. lia.
Defined.

Lemma to_python_empty_entries_witness :
  FindMyTeam.to_python (lit "  ") = [[]]
  /\ last (FindMyTeam.to_python (lit "a@b.c" ++ [FindMyTeam.comma])) = Some [].
Proof.
  split.
  - apply (to_python_empty_entries (lit "  ")).
    + discriminate.
    + vm_compute. reflexivity.
  - apply (to_python_empty_entries (lit "a@b.c")).
Defined.

Lemma validate_all_or_first_failure_witness :
  Deployment.validate
    (FindMyTeam.to_python (lit "bob@example.com, carol@example.com"))
  = Ok tt.
Proof.
  apply (validate_all_or_first_failure Deployment.field_validate
           Deployment.validate_email).
  split; [reflexivity|].
  repeat constructor.
Defined.

Lemma empty_entry_never_validates_witness :
  Deployment.validate
    (FindMyTeam.to_python (lit "bob@example.com" ++ [FindMyTeam.comma]))
  <> Ok tt.
Proof.
  apply (empty_entry_never_validates Deployment.field_validate
           Deployment.validate_email (lit "bob@example.com")).
  vm_compute. discriminate.
Defined.

(** ** More on the login decision *)
Section LoginExtras.
Import Auth AuthFacts AuthMore.
Variable HttpRequest : Type.
Variable get_subdomain : HttpRequest -> pystr.
Variable get_realm : pystr -> result Realm.
Variable authenticate : HttpRequest -> pystr -> pystr -> Realm -> auth_result.
Variable invalid_login_message : pystr.
Variable username_verbose_name : pystr.
Variable confirm_login_allowed : UserProfile -> result unit.

Local Abbreviation clean :=
  (Auth.clean HttpRequest get_subdomain get_realm authenticate
     invalid_login_message username_verbose_name confirm_login_allowed).
Local Abbreviation after_authenticate :=
  (Auth.after_authenticate invalid_login_message username_verbose_name
     confirm_login_allowed).
Local Abbreviation attempt := (Auth.attempt HttpRequest get_subdomain get_realm).

(** X17.  When [authenticate] returns for a login attempt with the
    [password_reset_needed] flag set and [inactive_realm] not set, [clean]
    raises the password-reset-needed error, whatever [inactive_user],
    [is_mirror_dummy] and [invalid_subdomain] are and whether or not a
    user was returned; nothing is logged. *)
Theorem clean_password_reset_needed (request : HttpRequest)
    (cleaned_data : gmap pystr pystr) (username password : pystr)
    (realm : Realm) (user : option UserProfile) :
  attempt request cleaned_data username password realm ->
  auth_outcome (authenticate request username password realm) = Ok user ->
  get_truthy (auth_return_data (authenticate request username password realm))
    (lit "inactive_realm") = false ->
  get_truthy (auth_return_data (authenticate request username password realm))
    (lit "password_reset_needed") = true ->
  clean request cleaned_data
  = run (validation_error (mark_safe PASSWORD_RESET_NEEDED_ERROR)) user [].
Proof.
  intros Hat Hret Hrealm Hreset.
  rewrite (clean_when_returned _ _ _ _ _ _ _ _ _ _ _ _ _ Hat Hret).
  unfold Auth.after_authenticate. now rewrite Hrealm, Hreset.
Qed.

(** X18.  Without a user name, without a password, or with an empty
    password, [clean] checks nothing: it returns [cleaned_data] as it is,
    sets no user and logs nothing, and neither the realm lookup nor the
    backend has a say (the run is the same with any other two). *)
Theorem clean_needs_both_credentials (request : HttpRequest)
    (cleaned_data : gmap pystr pystr) :
  dict_get cleaned_data (lit "username") = None
  \/ dict_get cleaned_data (lit "password") = None
  \/ dict_get cleaned_data (lit "password") = Some ([] : pystr) ->
  clean request cleaned_data = run (Ok cleaned_data) None []
  /\ forall (get_realm' : pystr -> result Realm)
            (authenticate' : HttpRequest -> pystr -> pystr -> Realm -> auth_result),
       Auth.clean HttpRequest get_subdomain get_realm' authenticate'
         invalid_login_message username_verbose_name confirm_login_allowed
         request cleaned_data
       = clean request cleaned_data.
Proof.
  intros H. split.
  - now apply clean_without_credentials.
  - intros get_realm' authenticate'.
    rewrite !clean_without_credentials by exact H. reflexivity.
Qed.

(** X19.  [clean] logs on one outcome only.  Every run logs nothing, or
    logs exactly the one warning about a login to the wrong subdomain,
    with the submitted user name and the subdomain of the request, and
    then raises the wrong-subdomain error. *)
Theorem clean_logs_only_wrong_subdomain (request : HttpRequest)
    (cleaned_data : gmap pystr pystr) :
  effects (clean request cleaned_data) = []
  \/ exists username : pystr,
       dict_get cleaned_data (lit "username") = Some username
       /\ effects (clean request cleaned_data)
          = [Log {| levelname := WARNING;
                    log_msg := lit "User %s attempted password login to wrong subdomain %s";
                    log_args := [username; get_subdomain request] |}]
       /\ returned (clean request cleaned_data)
          = validation_error (mark_safe WRONG_SUBDOMAIN_ERROR).
Proof.
  unfold Auth.clean.
  destruct (dict_get cleaned_data (lit "username")) as [username|]; [|auto].
  destruct (dict_get cleaned_data (lit "password")) as [[|c password]|]; auto.
  destruct (get_realm (get_subdomain request)) as [realm|e]; [|auto].
  destruct (auth_outcome (authenticate request username (c :: password) realm))
    as [user|e].
  2:{ destruct e; auto. }
  unfold Auth.after_authenticate.
  destruct (get_truthy _ (lit "inactive_realm")); [auto|].
  destruct (get_truthy _ (lit "password_reset_needed")); [auto|].
  destruct (get_truthy _ (lit "inactive_user")
            && negb (get_truthy _ (lit "is_mirror_dummy"))); [auto|].
  destruct (get_truthy _ (lit "invalid_subdomain")).
  - right. exists username. auto.
  - destruct user; auto.
Qed.

(** X20.  A login attempt succeeds exactly when the backend returned a
    user, none of the blocking flags is set in [return_data], and
    [confirm_login_allowed] accepts the user; [clean] then returns
    [cleaned_data] unchanged. *)
Theorem clean_succeeds_iff (request : HttpRequest)
    (cleaned_data : gmap pystr pystr) (username password : pystr)
    (realm : Realm) (result_data : gmap pystr pystr) :
  attempt request cleaned_data username password realm ->
  (returned (clean request cleaned_data) = Ok result_data
   <-> result_data = cleaned_data
       /\ exists user : UserProfile,
            auth_outcome (authenticate request username password realm)
            = Ok (Some user)
            /\ blocked (auth_return_data
                          (authenticate request username password realm))
               = false
            /\ confirm_login_allowed user = Ok tt).
Proof.
  intros Hat. unfold blocked.
  destruct (auth_outcome (authenticate request username password realm))
    as [user|e] eqn:Hout.
  - rewrite (clean_when_returned _ _ _ _ _ _ _ _ _ _ _ _ _ Hat Hout).
    unfold Auth.after_authenticate.
    destruct (get_truthy _ (lit "inactive_realm")); cbn [orb].
    { split; [discriminate|]. intros (_ & u & _ & H & _). discriminate. }
    destruct (get_truthy _ (lit "password_reset_needed")); cbn [orb].
    { split; [discriminate|]. intros (_ & u & _ & H & _). discriminate. }
    destruct (get_truthy _ (lit "inactive_user")
              && negb (get_truthy _ (lit "is_mirror_dummy"))); cbn [orb].
    { split; [discriminate|]. intros (_ & u & _ & H & _). discriminate. }
    destruct (get_truthy _ (lit "invalid_subdomain")).
    { split; [discriminate|]. intros (_ & u & _ & H & _). discriminate. }
    destruct user as [u|]; cbn [returned run].
    + destruct (confirm_login_allowed u) as [[]|x] eqn:Hconfirm;
        cbn [mbind result_bind bind].
      * split.
        -- intros [= <-]. split; [reflexivity|]. exists u. auto.
        -- intros (-> & _). reflexivity.
      * split; [discriminate|].
        intros (_ & u' & [= <-] & _ & H). congruence.
    + split; [discriminate|]. intros (_ & u & [=] & _).
  - destruct e;
      try (unfold Auth.clean; destruct Hat as (Hu & Hp & Hne & Hr);
           rewrite Hu, Hp; destruct password; [contradiction|];
           rewrite Hr, Hout; cbn [returned run];
           split; [discriminate|]; intros (_ & u & [=] & _)).
    rewrite (clean_when_raised _ _ _ _ _ _ _ _ _ _ _ _ _ Hat Hout).
    cbn [returned run]. unfold rate_limited_error.
    destruct secs_to_freedom as [secs|].
    + destruct (int_of_float secs); cbn [mbind result_bind bind];
        (split; [discriminate|]; intros (_ & u & [=] & _)).
    + split; [discriminate|]. intros (_ & u & [=] & _).
Qed.

(** X21.  [self.user_cache] only ever holds a user that the backend
    returned for this attempt. *)
Theorem user_cache_comes_from_backend (request : HttpRequest)
    (cleaned_data : gmap pystr pystr) (user : UserProfile) :
  user_cache (clean request cleaned_data) = Some user ->
  exists (username password : pystr) (realm : Realm),
    attempt request cleaned_data username password realm
    /\ auth_outcome (authenticate request username password realm)
       = Ok (Some user).
Proof.
  unfold Auth.clean, Auth.attempt.
  destruct (dict_get cleaned_data (lit "username")) as [username|];
    [|discriminate].
  destruct (dict_get cleaned_data (lit "password")) as [[|c password]|];
    try discriminate.
  destruct (get_realm (get_subdomain request)) as [realm|e]; [|discriminate].
  destruct (auth_outcome (authenticate request username (c :: password) realm))
    as [u|e] eqn:Hout.
  2:{ destruct e; discriminate. }
  intros Hcache.
  exists username, (c :: password), realm.
  split; [repeat split; discriminate|].
  rewrite Hout. f_equal.
  unfold Auth.after_authenticate in Hcache.
  destruct (get_truthy _ (lit "inactive_realm")); [exact Hcache|].
  destruct (get_truthy _ (lit "password_reset_needed")); [exact Hcache|].
  destruct (get_truthy _ (lit "inactive_user")
            && negb (get_truthy _ (lit "is_mirror_dummy"))); [exact Hcache|].
  destruct (get_truthy _ (lit "invalid_subdomain")); [exact Hcache|].
  destruct u; [exact Hcache|discriminate].
Qed.

End LoginExtras.

Lemma clean_password_reset_needed_witness :
  Scenario.clean_with
    (fun _ _ _ _ =>
       {| Auth.auth_outcome := Ok None;
          Auth.auth_return_data :=
            Scenario.flag "password_reset_needed" ∪ Scenario.flag "invalid_subdomain" |})
    Scenario.at_acme (Scenario.login_data "bob@example.com" "P@ssw0rd1")
  = Auth.run (validation_error (mark_safe PASSWORD_RESET_NEEDED_ERROR)) None [].
Proof.
  apply (clean_password_reset_needed Scenario.Request Scenario.host_subdomain
           Scenario.get_realm _ Scenario.invalid_login_message (lit "email")
           Scenario.confirm_login_allowed Scenario.at_acme
           (Scenario.login_data "bob@example.com" "P@ssw0rd1")
           (lit "bob@example.com") (lit "P@ssw0rd1") Scenario.acme None).
  - repeat split; try (vm_compute; reflexivity). vm_compute. discriminate.
  - reflexivity.
  - vm_compute. reflexivity.
  - vm_compute. reflexivity.
Defined.

Lemma clean_needs_both_credentials_witness :
  Scenario.clean_with Scenario.backend Scenario.at_acme
    (Scenario.login_data "bob@example.com" "")
  = Auth.run (Ok (Scenario.login_data "bob@example.com" "")) None [].
Proof.
  apply (clean_needs_both_credentials Scenario.Request Scenario.host_subdomain
           Scenario.get_realm Scenario.backend Scenario.invalid_login_message
           (lit "email") Scenario.confirm_login_allowed Scenario.at_acme
           (Scenario.login_data "bob@example.com" "")).
  right. right. vm_compute. reflexivity.
Defined.

Lemma clean_succeeds_iff_witness :
  Auth.returned
    (Scenario.clean_with Scenario.backend Scenario.at_acme
       (Scenario.login_data "bob@example.com" "P@ssw0rd1"))
  = Ok (Scenario.login_data "bob@example.com" "P@ssw0rd1").
Proof.
  apply (clean_succeeds_iff Scenario.Request Scenario.host_subdomain
           Scenario.get_realm Scenario.backend Scenario.invalid_login_message
           (lit "email") Scenario.confirm_login_allowed Scenario.at_acme
           (Scenario.login_data "bob@example.com" "P@ssw0rd1")
           (lit "bob@example.com") (lit "P@ssw0rd1") Scenario.acme).
  - repeat split; try (vm_compute; reflexivity). vm_compute. discriminate.
  - split; [reflexivity|]. exists Scenario.bob.
    repeat split; vm_compute; reflexivity.
Defined.

Lemma user_cache_comes_from_backend_witness :
  exists (username password : pystr) (realm : Realm),
    Auth.attempt Scenario.Request Scenario.host_subdomain Scenario.get_realm
      Scenario.at_acme (Scenario.login_data "bob@example.com" "P@ssw0rd1")
      username password realm
    /\ Auth.auth_outcome (Scenario.backend Scenario.at_acme username password realm)
       = Ok (Some Scenario.bob).
Proof.
  apply (user_cache_comes_from_backend Scenario.Request Scenario.host_subdomain
           Scenario.get_realm Scenario.backend Scenario.invalid_login_message
           (lit "email") Scenario.confirm_login_allowed Scenario.at_acme
           (Scenario.login_data "bob@example.com" "P@ssw0rd1") Scenario.bob).
  vm_compute. reflexivity.
Defined.

(** ** More on the password-reset dispatch *)
Section PasswordResetExtras.
Import PasswordReset PasswordResetFacts.
Variable HttpRequest : Type.
Variable get_subdomain : HttpRequest -> pystr.
Variable LANGUAGE_CODE : HttpRequest -> pystr.
Variable get_realm : pystr -> result Realm.
Variable email_auth_enabled : Realm -> bool.
Variable email_belongs_to_ldap : Realm -> pystr -> bool.
Variable RATE_LIMITING : bool.
Variable password_reset_form_by_email : list (Z * Z).
Variable Store : Type.
Variable rate_limit :
  pystr -> list (Z * Z) -> Store -> (bool * spec_float) * Store.
Variable get_user_by_delivery_email : pystr -> Realm -> option UserProfile.
Variable active_accounts_iexact : pystr -> list UserProfile.
Variable make_token : UserProfile -> pystr.
Variable urlsafe_base64_encode : pystr -> pystr.
Variable reverse : pystr -> pystr -> pystr -> pystr.
Variable security_email_from_name_user : UserProfile -> pystr.
Variable security_email_from_name_language : pystr -> pystr.
Variable tokenized_no_reply_address : pystr.

Local Abbreviation save :=
  (PasswordReset.save HttpRequest get_subdomain LANGUAGE_CODE get_realm
     email_auth_enabled email_belongs_to_ldap RATE_LIMITING
     password_reset_form_by_email Store rate_limit
     get_user_by_delivery_email active_accounts_iexact make_token
     urlsafe_base64_encode reverse security_email_from_name_user
     security_email_from_name_language tokenized_no_reply_address).
Local Abbreviation dispatch :=
  (PasswordReset.dispatch HttpRequest LANGUAGE_CODE
     get_user_by_delivery_email active_accounts_iexact make_token
     urlsafe_base64_encode reverse security_email_from_name_user
     security_email_from_name_language tokenized_no_reply_address).
Local Abbreviation limited :=
  (PasswordReset.limited password_reset_form_by_email Store rate_limit).
Local Abbreviation store_after :=
  (PasswordReset.store_after password_reset_form_by_email Store rate_limit).

(** The effects of [save] are those of [dispatch], or a single log entry,
    or none. *)
Lemma save_effects_cases (email : pystr) (request : HttpRequest) (st : Store) :
  (exists e, get_realm (get_subdomain request) = Raise e
             /\ effects _ (save email request st) = [])
  \/ (exists realm msg args,
        get_realm (get_subdomain request) = Ok realm
        /\ effects _ (save email request st) = [info msg args])
  \/ (exists realm,
        get_realm (get_subdomain request) = Ok realm
        /\ effects _ (save email request st) = dispatch email request realm).
Proof.
  unfold PasswordReset.save.
  destruct (get_realm (get_subdomain request)) as [realm|e]; [|left; eauto].
  right.
  destruct (email_auth_enabled realm); cbn [negb]; [|left; eauto 6].
  destruct (email_belongs_to_ldap realm email); [left; eauto 6|].
  destruct (realm_deactivated realm); [left; eauto 6|].
  destruct RATE_LIMITING; [|right; eauto].
  rewrite limiter_spec. destruct (limited email st); [left; eauto 6|right; eauto].
Qed.

(** X22.  One run of [save] has at most one effect: nothing at all when
    the realm lookup raised, and otherwise either one log entry at level
    INFO or one email, never both and never two. *)
Theorem save_has_one_effect (email : pystr) (request : HttpRequest) (st : Store) :
  ((exists e, get_realm (get_subdomain request) = Raise e)
   /\ effects _ (save email request st) = [])
  \/ ((exists realm, get_realm (get_subdomain request) = Ok realm)
      /\ ((exists msg args,
             effects _ (save email request st)
             = [Log {| levelname := INFO; log_msg := msg; log_args := args |}])
          \/ (exists e, effects _ (save email request st) = [SendEmail e]))).
Proof.
  destruct (save_effects_cases email request st)
    as [(e & Hr & ->)|[(realm & msg & args & Hr & ->)|(realm & Hr & ->)]].
  - left. eauto.
  - right. split; [eauto|]. left. eauto.
  - right. split; [eauto|]. right.
    apply (dispatch_sends_one HttpRequest LANGUAGE_CODE get_user_by_delivery_email
             active_accounts_iexact make_token urlsafe_base64_encode reverse
             security_email_from_name_user security_email_from_name_language
             tokenized_no_reply_address).
Qed.

(** X23.  The limiter is charged exactly when rate limiting is on and the
    first three gates let the request through, whether or not the limit
    is then exceeded and whether or not the address has an account; in
    every other case the store is left as it was. *)
Theorem save_charges_limiter_past_gates (email : pystr) (request : HttpRequest)
    (realm : Realm) (st : Store) :
  get_realm (get_subdomain request) = Ok realm ->
  store _ (save email request st)
  = if email_auth_enabled realm
       && negb (email_belongs_to_ldap realm email)
       && negb (realm_deactivated realm)
       && RATE_LIMITING
    then store_after email st
    else st.
Proof.
  intros Hr. unfold PasswordReset.save. rewrite Hr.
  destruct (email_auth_enabled realm); cbn [negb andb]; [|reflexivity].
  destruct (email_belongs_to_ldap realm email); cbn [negb andb]; [reflexivity|].
  destruct (realm_deactivated realm); cbn [negb andb]; [reflexivity|].
  destruct RATE_LIMITING; [|reflexivity].
  rewrite limiter_spec. destruct (limited email st); reflexivity.
Qed.

(** What the context of the one email of [dispatch] holds. *)
Lemma dispatch_context (email : pystr) (request : HttpRequest) (realm : Realm) :
  exists e,
    dispatch email request realm = [SendEmail e]
    /\ template_prefix e = lit "zerver/emails/password_reset"
    /\ from_address e = tokenized_no_reply_address
    /\ dict_get (context e) (lit "email") = Some (CStr email)
    /\ dict_get (context e) (lit "realm_uri") = Some (CStr (realm_uri realm))
    /\ dict_get (context e) (lit "realm_name") = Some (CStr (realm_name realm))
    /\ dict_get (context e) (lit "active_accounts_in_other_realms")
       = match get_user_by_delivery_email email realm with
         | Some u =>
             if is_active u then None
             else match active_accounts_iexact email with
                  | [] => None
                  | _ :: _ => Some (CUsers (active_accounts_iexact email))
                  end
         | None =>
             match active_accounts_iexact email with
             | [] => None
             | _ :: _ => Some (CUsers (active_accounts_iexact email))
             end
         end.
Proof.
  unfold PasswordReset.dispatch.
  destruct (get_user_by_delivery_email email realm) as [u|].
  - destruct (is_active u); cbn [negb].
    + eexists. split; [reflexivity|].
      cbn [context template_prefix from_address].
      repeat split; context_lookup.
    + destruct (active_accounts_iexact email); eexists;
        (split; [reflexivity|]);
        cbn [context template_prefix from_address];
        repeat split; context_lookup.
  - destruct (active_accounts_iexact email); eexists;
      (split; [reflexivity|]);
      cbn [context template_prefix from_address];
      repeat split; context_lookup.
Qed.

(** X24.  Every email that [save] sends uses the password-reset template
    and the tokenized no-reply sender, and its context holds the
    submitted address under [email] and the address and name of the
    request's realm under [realm_uri] and [realm_name]. *)
Theorem save_email_context (email : pystr) (request : HttpRequest)
    (realm : Realm) (st : Store) (e : Email) :
  get_realm (get_subdomain request) = Ok realm ->
  In (SendEmail e) (effects _ (save email request st)) ->
  template_prefix e = lit "zerver/emails/password_reset"
  /\ from_address e = tokenized_no_reply_address
  /\ dict_get (context e) (lit "email") = Some (CStr email)
  /\ dict_get (context e) (lit "realm_uri") = Some (CStr (realm_uri realm))
  /\ dict_get (context e) (lit "realm_name") = Some (CStr (realm_name realm)).
Proof.
  intros Hr Hin.
  destruct (save_effects_cases email request st)
    as [(x & _ & Heff)|[(realm' & msg & args & _ & Heff)|(realm' & Hr' & Heff)]];
    rewrite Heff in Hin.
  - destruct Hin.
  - destruct Hin as [[=]|[]].
  - assert (realm' = realm) as -> by congruence.
    destruct (dispatch_context email request realm)
      as (e' & He & Ht & Hf & H1 & H2 & H3 & _).
    rewrite He in Hin. destruct Hin as [[= <-]|[]]. auto.
Qed.

(** X25.  The accounts of the address in other realms are put in the
    context of an email only when the realm of the request has no active
    account for the address and the list is not empty; the reset-link
    email never carries them. *)
Theorem save_lists_other_realms (email : pystr) (request : HttpRequest)
    (realm : Realm) (st : Store) (e : Email) :
  get_realm (get_subdomain request) = Ok realm ->
  In (SendEmail e) (effects _ (save email request st)) ->
  dict_get (context e) (lit "active_accounts_in_other_realms")
  = match get_user_by_delivery_email email realm with
    | Some u =>
        if is_active u then None
        else match active_accounts_iexact email with
             | [] => None
             | _ :: _ => Some (CUsers (active_accounts_iexact email))
             end
    | None =>
        match active_accounts_iexact email with
        | [] => None
        | _ :: _ => Some (CUsers (active_accounts_iexact email))
        end
    end.
Proof.
  intros Hr Hin.
  destruct (save_effects_cases email request st)
    as [(x & _ & Heff)|[(realm' & msg & args & _ & Heff)|(realm' & Hr' & Heff)]];
    rewrite Heff in Hin.
  - destruct Hin.
  - destruct Hin as [[=]|[]].
  - assert (realm' = realm) as -> by congruence.
    destruct (dispatch_context email request realm)
      as (e' & He & _ & _ & _ & _ & _ & Hother).
    rewrite He in Hin. destruct Hin as [[= <-]|[]]. exact Hother.
Qed.

End PasswordResetExtras.

Lemma save_charges_limiter_past_gates_witness :
  PasswordReset.store _
    (Scenario.save_with true false true (lit "nobody@example.com")
       Scenario.at_acme ∅)
  = PasswordReset.store_after Scenario.rules Scenario.Store Scenario.rate_limit
      (lit "nobody@example.com") ∅
  /\ PasswordReset.store _
       (Scenario.save_with false false true (lit "nobody@example.com")
          Scenario.at_acme ∅)
     = ∅.
Proof.
  split.
  - apply (save_charges_limiter_past_gates Scenario.Request
             Scenario.host_subdomain Scenario.language_code Scenario.get_realm
             (fun _ => true) (fun _ _ => false) true Scenario.rules
             Scenario.Store Scenario.rate_limit
             Scenario.get_user_by_delivery_email Scenario.active_accounts_iexact
             Scenario.make_token Scenario.urlsafe_base64_encode Scenario.reverse
             Scenario.from_name_user Scenario.from_name_language
             Scenario.no_reply (lit "nobody@example.com") Scenario.at_acme
             Scenario.acme ∅).
    vm_compute. reflexivity.
  - apply (save_charges_limiter_past_gates Scenario.Request
             Scenario.host_subdomain Scenario.language_code Scenario.get_realm
             (fun _ => false) (fun _ _ => false) true Scenario.rules
             Scenario.Store Scenario.rate_limit
             Scenario.get_user_by_delivery_email Scenario.active_accounts_iexact
             Scenario.make_token Scenario.urlsafe_base64_encode Scenario.reverse
             Scenario.from_name_user Scenario.from_name_language
             Scenario.no_reply (lit "nobody@example.com") Scenario.at_acme
             Scenario.acme ∅).
    vm_compute. reflexivity.
Defined.

Lemma save_email_context_witness :
  match PasswordReset.effects _
          (Scenario.save_with true false true (lit "bob@example.com")
             Scenario.at_other ∅) with
  | [SendEmail e] =>
      template_prefix e = lit "zerver/emails/password_reset"
      /\ from_address e = Scenario.no_reply
      /\ dict_get (context e) (lit "email") = Some (CStr (lit "bob@example.com"))
      /\ dict_get (context e) (lit "realm_uri")
         = Some (CStr (realm_uri Scenario.other))
      /\ dict_get (context e) (lit "realm_name")
         = Some (CStr (realm_name Scenario.other))
  | _ => False
  end.
Proof.
  destruct (PasswordReset.effects _
              (Scenario.save_with true false true (lit "bob@example.com")
                 Scenario.at_other ∅)) as [|[r|e] [|x l]] eqn:E;
    try (vm_compute in E; discriminate E).
  apply (save_email_context Scenario.Request Scenario.host_subdomain
           Scenario.language_code Scenario.get_realm (fun _ => true)
           (fun _ _ => false) true Scenario.rules Scenario.Store
           Scenario.rate_limit Scenario.get_user_by_delivery_email
           Scenario.active_accounts_iexact Scenario.make_token
           Scenario.urlsafe_base64_encode Scenario.reverse
           Scenario.from_name_user Scenario.from_name_language
           Scenario.no_reply (lit "bob@example.com") Scenario.at_other
           Scenario.other ∅ e).
  - vm_compute. reflexivity.
  - unfold Scenario.save_with in E. rewrite E. left. reflexivity.
Defined.

(** bob has an account in [acme] only: a reset requested at [other] lists
    that account in the email. *)
Lemma save_lists_other_realms_witness :
  match PasswordReset.effects _
          (Scenario.save_with true false true (lit "bob@example.com")
             Scenario.at_other ∅) with
  | [SendEmail e] =>
      dict_get (context e) (lit "active_accounts_in_other_realms")
      = Some (CUsers [Scenario.bob])
  | _ => False
  end.
Proof.
  destruct (PasswordReset.effects _
              (Scenario.save_with true false true (lit "bob@example.com")
                 Scenario.at_other ∅)) as [|[r|e] [|x l]] eqn:E;
    try (vm_compute in E; discriminate E).
  apply (save_lists_other_realms Scenario.Request Scenario.host_subdomain
           Scenario.language_code Scenario.get_realm (fun _ => true)
           (fun _ _ => false) true Scenario.rules Scenario.Store
           Scenario.rate_limit Scenario.get_user_by_delivery_email
           Scenario.active_accounts_iexact Scenario.make_token
           Scenario.urlsafe_base64_encode Scenario.reverse
           Scenario.from_name_user Scenario.from_name_language
           Scenario.no_reply (lit "bob@example.com") Scenario.at_other
           Scenario.other ∅ e).
  - vm_compute. reflexivity.
  - unfold Scenario.save_with in E. rewrite E. left. reflexivity.
Defined.
